(** * Yelp SQLite database builder: a shallow embedding of [utils.py] and
      [database.py], and the properties of the ingestion pipeline.

    Layout of the development:
    - [Py]     : the Python built-ins the code relies on ([str.strip],
                 [str.split], [re.sub] with a literal pattern, [int], [in],
                 [Path.suffix], and a fragment of [eval]/[str]/[repr]);
    - [Utils]  : [flatten_dict] of utils.py;
    - [Sql]    : rows, schemas and the statements the code issues
                 (INSERT, INSERT .. ON CONFLICT DO NOTHING, SELECT, UPDATE),
                 with the order in which a SELECT yields its rows;
    - [Yelp]   : the fourteen tables of [_create_tables_if_not_exist] and the
                 methods of [YelpDataBase];
    - the notions the properties are stated with, and sample records;
    - the properties, each with the lemmas it rests on.

    Python strings are modelled by [string]; a character stands for the
    code point of the same number, so the alphabet is restricted to code
    points below 256. *)

From Stdlib Require Import String Ascii List ZArith Bool Arith Lia.
From Stdlib Require Import Numbers.DecimalString.
Import ListNotations.

Set Warnings "-register-all".
Open Scope string_scope.
Open Scope list_scope.

(** ** Exceptions and results *)

(** The exceptions that the modelled code can raise.  [NotModelled] is not a
    Python exception: it marks an input on which the behaviour of a library
    (the expression evaluator, SQLite's type affinity on a natural key that
    is neither a string nor [None]) is outside the fragment described here.
    No theorem below draws a conclusion from a [NotModelled] outcome. *)
Inductive exn : Type :=
| KeyError (key : string)
| IndexError
| AttributeError
| TypeError
| ValueError
| OverflowError
| IntegrityError
| OperationalError
| CompileError (unconsumed : list string)
| InterfaceError
| NotModelled.

Inductive result (A : Type) : Type :=
| Ok (a : A)
| Raise (e : exn).
Arguments Ok {A} a.
Arguments Raise {A} e.

Definition rbind {A B} (m : result A) (k : A -> result B) : result B :=
  match m with
  | Ok a => k a
  | Raise e => Raise e
  end.

Declare Scope result_scope.
Delimit Scope result_scope with result.
Notation "'let?' x ':=' m 'in' k" := (rbind m (fun x => k))
  (at level 10, x pattern, m at level 100, k at level 200) : result_scope.
Open Scope result_scope.

(** [mapM] over [result]: the elements are processed left to right and the
    first exception wins, as in a list comprehension. *)
Fixpoint rmap {A B} (f : A -> result B) (l : list A) : result (list B) :=
  match l with
  | [] => Ok []
  | x :: l' =>
      let? y := f x in
      let? ys := rmap f l' in
      Ok (y :: ys)
  end.

(** ** JSON values, as produced by [json.loads] *)

Inductive json : Type :=
| JNull
| JBool (b : bool)
| JInt (z : Z)
| JFloat (bits : Z)          (* an IEEE-754 double, kept as its bit pattern *)
| JStr (s : string)
| JArr (elems : list json)
| JObj (items : list (string * json)).

(** Association lists stand for Python dicts: insertion order is kept,
    assigning to an existing key keeps its position. *)
Fixpoint assoc {V} (k : string) (d : list (string * V)) : option V :=
  match d with
  | [] => None
  | (k', v) :: d' => if String.eqb k k' then Some v else assoc k d'
  end.

Fixpoint dict_set {V} (k : string) (v : V) (d : list (string * V))
  : list (string * V) :=
  match d with
  | [] => [(k, v)]
  | (k', v') :: d' =>
      if String.eqb k k' then (k', v) :: d' else (k', v') :: dict_set k v d'
  end.

(** [obj[key]] on a decoded JSON value. *)
Definition getitem (obj : json) (key : string) : result json :=
  match obj with
  | JObj items =>
      match assoc key items with
      | Some v => Ok v
      | None => Raise (KeyError key)
      end
  | _ => Raise TypeError
  end.

(** ** Python built-ins *)

Module Py.

(** [str.isspace] on one code point below 256. *)
Definition is_space (c : ascii) : bool :=
  let n := nat_of_ascii c in
  ((9 <=? n)%nat && (n <=? 13)%nat) || ((28 <=? n)%nat && (n <=? 32)%nat)
  || (n =? 133)%nat || (n =? 160)%nat.

Fixpoint lstrip (s : string) : string :=
  match s with
  | EmptyString => EmptyString
  | String c s' => if is_space c then lstrip s' else s
  end.

Fixpoint rstrip (s : string) : string :=
  match s with
  | EmptyString => EmptyString
  | String c s' =>
      match rstrip s' with
      | EmptyString => if is_space c then EmptyString else String c EmptyString
      | t => String c t
      end
  end.

(** [s.strip()] *)
Definition strip (s : string) : string := rstrip (lstrip s).

(** [s.split(sep)] for a non-empty separator: the occurrences of [sep] are
    found left to right without overlap.  [skip] counts the characters of a
    matched separator still to be consumed, [cur] is the piece being read. *)
Fixpoint split_aux (sep : string) (skip : nat) (cur : string) (s : string)
  : list string :=
  match s with
  | EmptyString => [cur]
  | String c s' =>
      match skip with
      | S k => split_aux sep k cur s'
      | O =>
          if String.prefix sep s
          then cur :: split_aux sep (String.length sep - 1) EmptyString s'
          else split_aux sep 0 (cur ++ String c EmptyString) s'
      end
  end.

Definition split (sep : string) (s : string) : list string :=
  split_aux sep 0 EmptyString s.

(** [re.sub(pat, repl, s)] for a pattern and a replacement without
    metacharacters: leftmost non-overlapping occurrences are replaced. *)
Fixpoint re_sub_aux (pat repl : string) (skip : nat) (s : string) : string :=
  match s with
  | EmptyString => EmptyString
  | String c s' =>
      match skip with
      | S k => re_sub_aux pat repl k s'
      | O =>
          if String.prefix pat s
          then repl ++ re_sub_aux pat repl (String.length pat - 1) s'
          else String c (re_sub_aux pat repl 0 s')
      end
  end.

Definition re_sub (pat repl s : string) : string := re_sub_aux pat repl 0 s.

(** [sub in s] *)
Fixpoint contains (sub s : string) : bool :=
  String.prefix sub s
  || match s with
     | EmptyString => false
     | String _ s' => contains sub s'
     end.

(** [s.rfind(c)], as an option instead of -1. *)
Fixpoint rfind (c : ascii) (s : string) : option nat :=
  match s with
  | EmptyString => None
  | String d s' =>
      match rfind c s' with
      | Some i => Some (S i)
      | None => if Ascii.eqb c d then Some 0 else None
      end
  end.

(** [PurePath.suffix]: the part of the name from its last dot on, empty when
    that dot is the first or the last character or when there is none. *)
Definition suffix (name : string) : string :=
  match rfind "."%char name with
  | Some i =>
      if (0 <? i)%nat && (i <? String.length name - 1)%nat
      then String.substring i (String.length name - i) name
      else EmptyString
  | None => EmptyString
  end.

(** *** [int(s)] *)

Definition is_digit (c : ascii) : bool :=
  let n := nat_of_ascii c in (48 <=? n)%nat && (n <=? 57)%nat.

Definition digit_val (c : ascii) : Z := Z.of_nat (nat_of_ascii c - 48).

(** Digits with single underscores between them; [acc] is the value read so
    far, [prev_digit] tells whether the previous character was a digit. *)
Fixpoint int_digits (acc : Z) (prev_digit : bool) (s : string) : option Z :=
  match s with
  | EmptyString => if prev_digit then Some acc else None
  | String c s' =>
      if is_digit c then int_digits (10 * acc + digit_val c) true s'
      else if Ascii.eqb c "_" && prev_digit then int_digits acc false s'
      else None
  end.

(** [int(s)] in base 10.  CPython 3.11 refuses strings of more than 4300
    digits unless configured otherwise; such inputs are left out. *)
Definition int (s : string) : result Z :=
  let t := strip s in
  if (4300 <? String.length t)%nat then Raise NotModelled
  else
    let parse body :=
      match int_digits 0 false body with
      | Some z => Ok z
      | None => Raise ValueError
      end in
    match t with
    | String "-" body => let? z := parse body in Ok (- z)%Z
    | String "+" body => parse body
    | _ => parse t
    end.

(** *** A fragment of [eval], with [str] and [repr] of its values

    [eval] is the interpreter's expression evaluator.  The fragment below
    covers what the attribute strings of the dataset are made of, and one
    operator: decimal integer literals, string literals in single or double
    quotes (printable ASCII without backslash, optional [u] prefix), [True],
    [False], [None], dict displays, parentheses and binary [+], on integers
    within the interpreter's limit for decimal conversion.  Whatever the
    tokenizer or the parser does not recognise is reported as [NotModelled];
    a [TypeError] raised while evaluating a recognised expression is
    modelled. *)

Inductive pyvalue : Type :=
| VInt (z : Z)
| VStr (s : string)
| VBool (b : bool)
| VNone
| VDict (items : list (pyvalue * pyvalue)).

Inductive token : Type :=
| TInt (z : Z)
| TStr (s : string)
| TName (s : string)
| TPlus | TLBrace | TRBrace | TColon | TComma | TLParen | TRParen.

Inductive expr : Type :=
| EInt (z : Z)
| EStr (s : string)
| EBool (b : bool)
| ENone
| EDict (items : list (expr * expr))
| EAdd (a b : expr).

(** [str(z)] for an integer. *)
Definition str_of_Z (z : Z) : string := NilZero.string_of_int (Z.to_int z).

(** CPython 3.11 converts between integers and decimal strings up to 4300
    digits; the fragment stays below that. *)
Definition max_str_digits : nat := 4300.

Definition within_digit_limit (z : Z) : bool :=
  (String.length (str_of_Z (Z.abs z)) <=? max_str_digits)%nat.

Definition squote : ascii := "'"%char.
Definition dquote : ascii := ascii_of_nat 34.
Definition backslash : ascii := ascii_of_nat 92.

Definition is_quote (c : ascii) : bool := Ascii.eqb c squote || Ascii.eqb c dquote.

Definition is_ident_start (c : ascii) : bool :=
  let n := nat_of_ascii c in
  ((65 <=? n)%nat && (n <=? 90)%nat) || ((97 <=? n)%nat && (n <=? 122)%nat)
  || (n =? 95)%nat.

Definition is_ident_char (c : ascii) : bool := is_ident_start c || is_digit c.

Definition is_plain_char (c : ascii) : bool :=
  let n := nat_of_ascii c in
  (32 <=? n)%nat && (n <=? 126)%nat && negb (Ascii.eqb c backslash).

(** The longest prefix of [s] whose characters satisfy [p], and the rest. *)
Fixpoint span (p : ascii -> bool) (s : string) : string * string :=
  match s with
  | EmptyString => (EmptyString, EmptyString)
  | String c s' =>
      if p c then let (a, b) := span p s' in (String c a, b)
      else (EmptyString, s)
  end.

(** The body of a string literal opened by the quote [q], and what follows the
    closing quote. *)
Fixpoint read_str (q : ascii) (s : string) : option (string * string) :=
  match s with
  | EmptyString => None
  | String c s' =>
      if Ascii.eqb c q then Some (EmptyString, s')
      else if is_plain_char c then
        match read_str q s' with
        | Some (body, rest) => Some (String c body, rest)
        | None => None
        end
      else None
  end.

Fixpoint digits_val (acc : Z) (s : string) : Z :=
  match s with
  | EmptyString => acc
  | String c s' => digits_val (10 * acc + digit_val c) s'
  end.

Definition starts_with (p : ascii -> bool) (s : string) : bool :=
  match s with
  | EmptyString => false
  | String c _ => p c
  end.

Definition punct (c : ascii) : option token :=
  if Ascii.eqb c "+" then Some TPlus
  else if Ascii.eqb c "{" then Some TLBrace
  else if Ascii.eqb c "}" then Some TRBrace
  else if Ascii.eqb c ":" then Some TColon
  else if Ascii.eqb c "," then Some TComma
  else if Ascii.eqb c "(" then Some TLParen
  else if Ascii.eqb c ")" then Some TRParen
  else None.

Fixpoint tokenize (fuel : nat) (s : string) : option (list token) :=
  match fuel with
  | O => None
  | S fuel' =>
      match s with
      | EmptyString => Some []
      | String c s' =>
          let str_lit q body_and_rest :=
            match read_str q body_and_rest with
            | Some (body, rest) => option_map (cons (TStr body)) (tokenize fuel' rest)
            | None => None
            end in
          if Ascii.eqb c " " then tokenize fuel' s'
          else if is_quote c then str_lit c s'
          else if is_digit c then
            let (ds, rest) := span is_digit s in
            if (Ascii.eqb c "0" && (1 <? String.length ds)%nat)
               || (max_str_digits <? String.length ds)%nat
               || starts_with (fun d => is_ident_char d || Ascii.eqb d ".") rest
            then None
            else option_map (cons (TInt (digits_val 0 ds))) (tokenize fuel' rest)
          else if is_ident_start c then
            let (name, rest) := span is_ident_char s in
            match rest with
            | String q rest' =>
                if is_quote q then
                  if String.eqb name "u" || String.eqb name "U"
                  then str_lit q rest' else None
                else option_map (cons (TName name)) (tokenize fuel' rest)
            | EmptyString => Some [TName name]
            end
          else
            match punct c with
            | Some t => option_map (cons t) (tokenize fuel' s')
            | None => None
            end
      end
  end.

Fixpoint parse_expr (fuel : nat) (ts : list token) : option (expr * list token) :=
  match fuel with
  | O => None
  | S f =>
      match parse_atom f ts with
      | Some (a, rest) => parse_adds f a rest
      | None => None
      end
  end
with parse_atom (fuel : nat) (ts : list token) : option (expr * list token) :=
  match fuel with
  | O => None
  | S f =>
      match ts with
      | TInt z :: r => Some (EInt z, r)
      | TStr s :: r => Some (EStr s, r)
      | TName n :: r =>
          if String.eqb n "True" then Some (EBool true, r)
          else if String.eqb n "False" then Some (EBool false, r)
          else if String.eqb n "None" then Some (ENone, r)
          else None
      | TLParen :: r =>
          match parse_expr f r with
          | Some (e, TRParen :: r') => Some (e, r')
          | _ => None
          end
      | TLBrace :: TRBrace :: r => Some (EDict [], r)
      | TLBrace :: r => parse_items f [] r
      | _ => None
      end
  end
with parse_adds (fuel : nat) (lhs : expr) (ts : list token)
  : option (expr * list token) :=
  match fuel with
  | O => None
  | S f =>
      match ts with
      | TPlus :: r =>
          match parse_atom f r with
          | Some (b, r') => parse_adds f (EAdd lhs b) r'
          | None => None
          end
      | _ => Some (lhs, ts)
      end
  end
with parse_items (fuel : nat) (acc : list (expr * expr)) (ts : list token)
  : option (expr * list token) :=
  match fuel with
  | O => None
  | S f =>
      match parse_expr f ts with
      | Some (k, TColon :: r) =>
          match parse_expr f r with
          | Some (v, TRBrace :: r') => Some (EDict (acc ++ [(k, v)]), r')
          | Some (v, TComma :: TRBrace :: r') => Some (EDict (acc ++ [(k, v)]), r')
          | Some (v, TComma :: r') => parse_items f (acc ++ [(k, v)]) r'
          | _ => None
          end
      | _ => None
      end
  end.

Definition parse (s : string) : option expr :=
  match tokenize (S (String.length s)) s with
  | Some ts =>
      match parse_expr (4 * List.length ts + 4) ts with
      | Some (e, []) => Some e
      | _ => None
      end
  | None => None
  end.

(** Equality of dict keys: [True == 1] and [False == 0]. *)
Definition as_int (v : pyvalue) : option Z :=
  match v with
  | VInt z => Some z
  | VBool b => Some (if b then 1 else 0)%Z
  | _ => None
  end.

Definition key_eqb (a b : pyvalue) : bool :=
  match as_int a, as_int b with
  | Some x, Some y => Z.eqb x y
  | _, _ =>
      match a, b with
      | VStr s, VStr t => String.eqb s t
      | VNone, VNone => true
      | _, _ => false
      end
  end.

Definition hashable (v : pyvalue) : bool :=
  match v with
  | VDict _ => false
  | _ => true
  end.

Fixpoint vdict_set (k v : pyvalue) (d : list (pyvalue * pyvalue))
  : list (pyvalue * pyvalue) :=
  match d with
  | [] => [(k, v)]
  | (k', v') :: d' =>
      if key_eqb k k' then (k', v) :: d' else (k', v') :: vdict_set k v d'
  end.

(** [a + b] *)
Definition add (a b : pyvalue) : result pyvalue :=
  match as_int a, as_int b with
  | Some x, Some y =>
      if within_digit_limit (x + y) then Ok (VInt (x + y)) else Raise NotModelled
  | _, _ =>
      match a, b with
      | VStr s, VStr t => Ok (VStr (s ++ t)%string)
      | _, _ => Raise TypeError
      end
  end.

Fixpoint eval_expr (e : expr) : result pyvalue :=
  match e with
  | EInt z => Ok (VInt z)
  | EStr s => Ok (VStr s)
  | EBool b => Ok (VBool b)
  | ENone => Ok VNone
  | EAdd a b =>
      let? x := eval_expr a in
      let? y := eval_expr b in
      add x y
  | EDict items =>
      (fix build (items : list (expr * expr)) (acc : list (pyvalue * pyvalue))
         : result pyvalue :=
         match items with
         | [] => Ok (VDict acc)
         | (k, v) :: rest =>
             let? kv := eval_expr k in
             let? vv := eval_expr v in
             if hashable kv then build rest (vdict_set kv vv acc)
             else Raise TypeError
         end) items []
  end.

(** [eval(s)] *)
Definition eval (s : string) : result pyvalue :=
  match parse s with
  | Some e => eval_expr e
  | None => Raise NotModelled
  end.

Fixpoint escape (q : ascii) (s : string) : string :=
  match s with
  | EmptyString => EmptyString
  | String c s' =>
      if Ascii.eqb c q || Ascii.eqb c backslash
      then String backslash (String c (escape q s'))
      else String c (escape q s')
  end.

(** [repr(s)] for a string of printable characters: double quotes are chosen
    when the string has a single quote and no double quote. *)
Definition repr_str (s : string) : string :=
  let q :=
    if contains (String squote EmptyString) s
       && negb (contains (String dquote EmptyString) s)
    then dquote else squote in
  String q (escape q s ++ String q EmptyString)%string.

Fixpoint repr (v : pyvalue) : string :=
  match v with
  | VInt z => str_of_Z z
  | VStr s => repr_str s
  | VBool b => if b then "True" else "False"
  | VNone => "None"
  | VDict items =>
      ("{" ++
       (fix go (items : list (pyvalue * pyvalue)) : string :=
          match items with
          | [] => EmptyString
          | (k, x) :: rest =>
              (repr k ++ ": " ++ repr x ++
               match rest with
               | [] => EmptyString
               | _ => (", " ++ go rest)%string
               end)%string
          end) items
       ++ "}")%string
  end.

(** [str(v)] *)
Definition str (v : pyvalue) : string :=
  match v with
  | VStr s => s
  | _ => repr v
  end.

End Py.

(** ** utils.py *)

Module Utils.

(** The body of the inner loop of [flatten_dict]:
    [attributes[key + '_' + sub_key] = str(sub_value)] for each item of a
    decoded dict.  Concatenating a string with a key that is not a string
    raises [TypeError]. *)
Fixpoint flatten_sub (key : string) (items : list (Py.pyvalue * Py.pyvalue))
  (attributes : list (string * string)) : result (list (string * string)) :=
  match items with
  | [] => Ok attributes
  | (sub_key, sub_value) :: rest =>
      match sub_key with
      | Py.VStr sk =>
          flatten_sub key rest
            (dict_set (key ++ "_" ++ sk)%string (Py.str sub_value) attributes)
      | _ => Raise TypeError
      end
  end.

(** One iteration of [for key, value in attribute_dict.items()].  [eval] of a
    value that is not a string raises [TypeError]. *)
Definition flatten_item (attributes : list (string * string))
  (item : string * json) : result (list (string * string)) :=
  let (key, value) := item in
  let? value :=
    match value with
    | JStr src => Py.eval src
    | _ => Raise TypeError
    end in
  match value with
  | Py.VDict items => flatten_sub key items attributes
  | _ => Ok (dict_set key (Py.str value) attributes)
  end.

Fixpoint flatten_loop (items : list (string * json))
  (attributes : list (string * string)) : result (list (string * string)) :=
  match items with
  | [] => Ok attributes
  | item :: rest =>
      let? attributes := flatten_item attributes item in
      flatten_loop rest attributes
  end.

(** [flatten_dict(attribute_dict)]: [None] is Python's [None]. *)
Definition flatten_dict (attribute_dict : json)
  : result (option (list (string * string))) :=
  match attribute_dict with
  | JNull => Ok None
  | JObj items =>
      let? attributes := flatten_loop items [] in
      Ok (Some attributes)
  | _ => Raise AttributeError
  end.

(** A file of the raw data folder: its name and its lines, each decoded by
    [json.loads]. *)
Record path : Type := {
  name : string;
  lines : list json
}.

(** [file_line_generator(file_name)] with the default [file_type='json']:
    the decoded lines, in order. *)
Definition file_line_generator (file_name : path) : list json :=
  lines file_name.

End Utils.

(** ** The relational store *)

Module Sql.

(** A value of a cell.  A cell holds the value that was bound to the
    statement; the storage class SQLite picks for it under the column's
    affinity is not modelled.  The columns compared by the code hold strings
    (natural keys, names) or integer ids. *)
Inductive sqlval : Type :=
| Null
| Int (z : Z)
| Real (bits : Z)
| Text (s : string).

Definition sqlval_eqb (a b : sqlval) : bool :=
  match a, b with
  | Null, Null => true
  | Int x, Int y => Z.eqb x y
  | Real x, Real y => Z.eqb x y
  | Text s, Text t => String.eqb s t
  | _, _ => false
  end.

Definition is_null (v : sqlval) : bool :=
  match v with
  | Null => true
  | _ => false
  end.

(** A row maps column names to values; a column that is not listed is NULL. *)
Definition row : Type := list (string * sqlval).

Definition cell (r : row) (c : string) : sqlval :=
  match assoc c r with
  | Some v => v
  | None => Null
  end.

(** What [Table(...)] declares: the columns, the INTEGER PRIMARY KEY column
    (an alias of SQLite's rowid) when there is one, and the uniqueness
    constraints, the primary key among them. *)
Record schema : Type := {
  columns : list string;
  rowid_alias : option string;
  uniques : list (list string)
}.

Definition has_column (sch : schema) (c : string) : bool :=
  existsb (String.eqb c) (columns sch).

(** A Python object handed to a statement: either a value fetched from the
    database or an object decoded from the input. *)
Inductive param : Type :=
| Fetched (v : sqlval)
| Obj (j : json).

Definition in_int64 (z : Z) : bool :=
  ((- 2 ^ 63 <=? z) && (z <? 2 ^ 63))%Z.

(** Binding a parameter, as the sqlite3 driver does: [None] is NULL, a bool
    is an integer, an integer must fit 64 bits, and a list or a dict cannot
    be bound (the driver's error is reported as [InterfaceError]). *)
Definition bind (p : param) : result sqlval :=
  match p with
  | Fetched v => Ok v
  | Obj JNull => Ok Null
  | Obj (JBool b) => Ok (Int (if b then 1 else 0))
  | Obj (JInt z) => if in_int64 z then Ok (Int z) else Raise OverflowError
  | Obj (JFloat bits) => Ok (Real bits)
  | Obj (JStr s) => Ok (Text s)
  | Obj (JArr _) | Obj (JObj _) => Raise InterfaceError
  end.

Definition bind_values (vals : list (string * param)) : result row :=
  rmap (fun kv => let? v := bind (snd kv) in Ok (fst kv, v)) vals.

(** The keys of [.values(...)] that are not columns of the table: the
    statement compiler refuses them ("Unconsumed column names"). *)
Definition unconsumed (sch : schema) (vals : list (string * param)) : list string :=
  filter (fun k => negb (has_column sch k)) (map fst vals).

(** The largest rowid in use. *)
Fixpoint max_rowid (pk : string) (rows : list row) : option Z :=
  match rows with
  | [] => None
  | r :: rest =>
      match cell r pk, max_rowid pk rest with
      | Int z, Some m => Some (Z.max z m)
      | Int z, None => Some z
      | _, m => m
      end
  end.

(** The rowid given to a new row: one more than the largest in use, 1 in an
    empty table.  (Past 2^63 - 1 SQLite draws a random unused rowid; tables of
    that size are not considered.) *)
Definition next_rowid (pk : string) (rows : list row) : Z :=
  match max_rowid pk rows with
  | Some m => m + 1
  | None => 1
  end.

(** The row that an INSERT of [vals] writes: every column of the table, NULL
    where no value is given, and a fresh rowid for the primary key. *)
Definition make_row (sch : schema) (rows : list row) (vals : row) : row :=
  map (fun c =>
         (c, match rowid_alias sch with
             | Some pk =>
                 if String.eqb c pk && is_null (cell vals c)
                 then Int (next_rowid pk rows) else cell vals c
             | None => cell vals c
             end))
      (columns sch).

(** [r] and [new] collide on a uniqueness constraint over [cols]: they agree
    on every column and none of the values is NULL. *)
Definition agrees (cols : list string) (new r : row) : bool :=
  forallb (fun c => negb (is_null (cell new c)) && sqlval_eqb (cell r c) (cell new c))
          cols.

Definition conflicts (sch : schema) (rows : list row) (new : row) : bool :=
  existsb (fun cols => existsb (agrees cols new) rows) (uniques sch).

(** [INSERT INTO t (...) VALUES (...)]: the new rowid and the new table, or
    [IntegrityError]. *)
Definition insert (sch : schema) (rows : list row) (vals : row)
  : result (sqlval * list row) :=
  let new := make_row sch rows vals in
  if conflicts sch rows new then Raise IntegrityError
  else
    Ok (match rowid_alias sch with Some pk => cell new pk | None => Null end,
        rows ++ [new]).

(** [INSERT ... ON CONFLICT DO NOTHING] of one row. *)
Definition insert_or_ignore (sch : schema) (rows : list row) (vals : row)
  : list row :=
  let new := make_row sch rows vals in
  if conflicts sch rows new then rows else rows ++ [new].

(** A multi-row VALUES clause: the rows are written in order; without
    ON CONFLICT a collision fails the whole statement. *)
Fixpoint insert_many (sch : schema) (rows : list row) (valss : list row)
  : result (list row) :=
  match valss with
  | [] => Ok rows
  | vals :: rest =>
      let? r := insert sch rows vals in
      insert_many sch (snd r) rest
  end.

Fixpoint insert_many_or_ignore (sch : schema) (rows : list row) (valss : list row)
  : list row :=
  match valss with
  | [] => rows
  | vals :: rest => insert_many_or_ignore sch (insert_or_ignore sch rows vals) rest
  end.

(** WHERE clauses of the code: [col == value] (rendered IS NULL for [None])
    and [col.in_(values)]. *)
Inductive where_clause : Type :=
| Eq (col : string) (p : param)
| In_ (col : string) (ps : list param).

Definition where_column (w : where_clause) : string :=
  match w with
  | Eq c _ => c
  | In_ c _ => c
  end.

Definition matches (col : string) (vs : list sqlval) (null_ok : bool) (r : row)
  : bool :=
  match cell r col with
  | Null => null_ok
  | v => existsb (sqlval_eqb v) vs
  end.

(** The predicate on rows a WHERE clause stands for, once its parameters are
    bound. *)
Definition compile_where (w : where_clause) : result (row -> bool) :=
  match w with
  | Eq col p =>
      let? v := bind p in
      Ok (if is_null v then (fun r => is_null (cell r col))
          else matches col [v] false)
  | In_ col ps =>
      let? vs := rmap bind ps in
      Ok (matches col (filter (fun v => negb (is_null v)) vs) false)
  end.

(** The order in which a query through the index on [col] yields rows:
    ascending in the key, keys being compared as strings are in SQLite, code
    point by code point; rows with the same key stay in the order of the
    table.  (The keys looked up by the code are strings.) *)
Definition key_leb (a b : sqlval) : bool :=
  match a, b with
  | Text s, Text t => String.leb s t
  | _, _ => true
  end.

Fixpoint insert_by_key (col : string) (r : row) (sorted : list row) : list row :=
  match sorted with
  | [] => [r]
  | r' :: rest =>
      if key_leb (cell r col) (cell r' col) then r :: sorted
      else r' :: insert_by_key col r rest
  end.

Definition index_order (col : string) (rows : list row) : list row :=
  fold_right (insert_by_key col) [] rows.

(** The order in which the rows selected by a WHERE clause are fetched.
    [col IN (...)] on a column with a uniqueness constraint is answered from
    the index of that constraint, one lookup per listed value in ascending
    order; the rows of [col = value] come in the order of the table. *)
Definition fetch_order (w : where_clause) (rows : list row) : list row :=
  match w with
  | Eq _ _ => rows
  | In_ col _ => index_order col rows
  end.

(** [UPDATE t SET c = v, ... WHERE ...] on one row. *)
Fixpoint set_cells (vals : row) (r : row) : row :=
  match vals with
  | [] => r
  | (c, v) :: rest => set_cells rest (dict_set c v r)
  end.

Definition update (rows : list row) (sel : row -> bool) (vals : row) : list row :=
  map (fun r => if sel r then set_cells vals r else r) rows.

End Sql.

(** ** database.py *)

Module Yelp.
Import Sql.

(** *** The tables of [_create_tables_if_not_exist] *)

Inductive table : Type :=
| T_business | T_days | T_hours | T_users | T_elite | T_reviews | T_tips
| T_checkins | T_category | T_category_business | T_friends | T_attributes
| T_business_attributes | T_photos.

Definition schema_of (t : table) : schema :=
  match t with
  | T_business =>
      {| columns := ["id"; "business_id_str"; "name"; "address"; "city"; "state";
                     "postal_code"; "latitude"; "longitude"; "stars";
                     "review_count"; "is_open"];
         rowid_alias := Some "id";
         uniques := [["id"]; ["business_id_str"]] |}
  | T_days =>
      {| columns := ["id"; "day"];
         rowid_alias := Some "id";
         uniques := [["id"]; ["day"]] |}
  | T_hours =>
      {| columns := ["business_id"; "day_id"; "open_hours"];
         rowid_alias := None;
         uniques := [["business_id"; "day_id"]] |}
  | T_users =>
      {| columns := ["id"; "user_id_str"; "name"; "review_count"; "yelping_since";
                     "useful"; "funny"; "cool"; "fans"; "friend_count";
                     "average_stars"; "compliment_hot"; "compliment_more";
                     "compliment_profile"; "compliment_cute"; "compliment_list";
                     "compliment_note"; "compliment_plain"; "compliment_cool";
                     "compliment_funny"; "compliment_writer"; "compliment_photos"];
         rowid_alias := Some "id";
         uniques := [["id"]; ["user_id_str"]] |}
  | T_elite =>
      {| columns := ["user_id"; "year"];
         rowid_alias := None;
         uniques := [] |}
  | T_reviews =>
      {| columns := ["id"; "review_id_str"; "user_id"; "business_id"; "stars";
                     "date"; "text"; "useful"; "funny"; "cool"];
         rowid_alias := Some "id";
         uniques := [["id"]; ["review_id_str"]] |}
  | T_tips =>
      {| columns := ["id"; "business_id"; "user_id"; "text"; "date";
                     "compliment_count"];
         rowid_alias := Some "id";
         uniques := [["id"]] |}
  | T_checkins =>
      {| columns := ["business_id"; "date"];
         rowid_alias := None;
         uniques := [] |}
  | T_category =>
      {| columns := ["id"; "name"];
         rowid_alias := Some "id";
         uniques := [["id"]; ["name"]] |}
  | T_category_business =>
      {| columns := ["category_id"; "business_id"];
         rowid_alias := None;
         uniques := [["category_id"; "business_id"]] |}
  | T_friends =>
      {| columns := ["user1_id"; "user2_id"];
         rowid_alias := None;
         uniques := [["user1_id"; "user2_id"]] |}
  | T_attributes =>
      {| columns := ["id"; "name"];
         rowid_alias := Some "id";
         uniques := [["id"]; ["name"]] |}
  | T_business_attributes =>
      {| columns := ["attribute_id"; "business_id"; "value"];
         rowid_alias := None;
         uniques := [["attribute_id"; "business_id"]] |}
  | T_photos =>
      {| columns := ["id"; "photo_id_str"; "business_id"; "caption"; "label"];
         rowid_alias := Some "id";
         uniques := [["id"]; ["photo_id_str"]] |}
  end.

(** The content of the database file: the rows of each table, in the order
    they were written. *)
Record database : Type := {
  business : list row;
  days : list row;
  hours : list row;
  users : list row;
  elite : list row;
  reviews : list row;
  tips : list row;
  checkins : list row;
  category : list row;
  category_business : list row;
  friends : list row;
  attributes : list row;
  business_attributes : list row;
  photos : list row
}.

Definition empty_database : database :=
  {| business := []; days := []; hours := []; users := []; elite := [];
     reviews := []; tips := []; checkins := []; category := [];
     category_business := []; friends := []; attributes := [];
     business_attributes := []; photos := [] |}.

Definition rows_of (t : table) (db : database) : list row :=
  match t with
  | T_business => business db
  | T_days => days db
  | T_hours => hours db
  | T_users => users db
  | T_elite => elite db
  | T_reviews => reviews db
  | T_tips => tips db
  | T_checkins => checkins db
  | T_category => category db
  | T_category_business => category_business db
  | T_friends => friends db
  | T_attributes => attributes db
  | T_business_attributes => business_attributes db
  | T_photos => photos db
  end.

Definition with_rows (t : table) (rs : list row) (db : database) : database :=
  let 'Build_database b d h u e r ti ch c cb f a ba p := db in
  match t with
  | T_business => Build_database rs d h u e r ti ch c cb f a ba p
  | T_days => Build_database b rs h u e r ti ch c cb f a ba p
  | T_hours => Build_database b d rs u e r ti ch c cb f a ba p
  | T_users => Build_database b d h rs e r ti ch c cb f a ba p
  | T_elite => Build_database b d h u rs r ti ch c cb f a ba p
  | T_reviews => Build_database b d h u e rs ti ch c cb f a ba p
  | T_tips => Build_database b d h u e r rs ch c cb f a ba p
  | T_checkins => Build_database b d h u e r ti rs c cb f a ba p
  | T_category => Build_database b d h u e r ti ch rs cb f a ba p
  | T_category_business => Build_database b d h u e r ti ch c rs f a ba p
  | T_friends => Build_database b d h u e r ti ch c cb rs a ba p
  | T_attributes => Build_database b d h u e r ti ch c cb f rs ba p
  | T_business_attributes => Build_database b d h u e r ti ch c cb f a rs p
  | T_photos => Build_database b d h u e r ti ch c cb f a ba rs
  end.

(** *** Statements executed on a connection

    A computation on a connection takes the database to a result and a new
    database, or raises. *)
Definition conn (A : Type) : Type := database -> result (A * database).

Definition ret {A} (a : A) : conn A := fun db => Ok (a, db).

Definition bind_conn {A B} (m : conn A) (k : A -> conn B) : conn B :=
  fun db =>
    match m db with
    | Ok (a, db') => k a db'
    | Raise e => Raise e
    end.

Definition lift {A} (r : result A) : conn A :=
  fun db =>
    match r with
    | Ok a => Ok (a, db)
    | Raise e => Raise e
    end.

Declare Scope conn_scope.
Delimit Scope conn_scope with conn.
Notation "x <- m ;; k" := (bind_conn m (fun x => k))
  (at level 61, m at next level, right associativity) : conn_scope.
Notation "m ;;; k" := (bind_conn m (fun _ => k))
  (at level 61, right associativity) : conn_scope.
Open Scope conn_scope.

(** [try: m  except IntegrityError: ...]: [None] when the handler ran. *)
Definition except_IntegrityError {A} (m : conn A) : conn (option A) :=
  fun db =>
    match m db with
    | Ok (a, db') => Ok (Some a, db')
    | Raise IntegrityError => Ok (None, db)
    | Raise e => Raise e
    end.

(** [for x in xs: body(x)] *)
Fixpoint for_each {A} (body : A -> conn unit) (xs : list A) : conn unit :=
  match xs with
  | [] => ret tt
  | x :: rest => body x ;;; for_each body rest
  end.

(** The statement compiler's check of the keys of [.values(...)]. *)
Definition check_columns (t : table) (vals : list (string * param)) : result unit :=
  match unconsumed (schema_of t) vals with
  | [] => Ok tt
  | ks => Raise (CompileError ks)
  end.

(** [conn.execute(Insert(t).values(k=v, ...)).inserted_primary_key[0]] *)
Definition execute_insert (t : table) (vals : list (string * param)) : conn sqlval :=
  fun db =>
    let? _ := check_columns t vals in
    let? r := bind_values vals in
    let? res := insert (schema_of t) (rows_of t db) r in
    Ok (fst res, with_rows t (snd res) db).

(** [conn.execute(Insert(t).values(k=v, ...).on_conflict_do_nothing())] *)
Definition execute_insert_or_ignore (t : table) (vals : list (string * param))
  : conn unit :=
  fun db =>
    let? _ := check_columns t vals in
    let? r := bind_values vals in
    Ok (tt, with_rows t (insert_or_ignore (schema_of t) (rows_of t db) r) db).

(** [conn.execute(Insert(t).values([ {...}, ... ]))], with or without
    [.on_conflict_do_nothing()].  From an empty list the statement has no
    values and is compiled to [INSERT INTO t DEFAULT VALUES], which writes one
    row of defaults: NULL in every column, and a fresh rowid.  With the clause
    [ON CONFLICT DO NOTHING] appended SQLite refuses the statement, its grammar
    having no such clause after DEFAULT VALUES; the error is raised as
    [OperationalError]. *)
Definition execute_insert_many (t : table) (on_conflict_do_nothing : bool)
  (valss : list (list (string * param))) : conn unit :=
  fun db =>
    match valss with
    | [] =>
        if on_conflict_do_nothing then Raise OperationalError
        else
          let? res := insert (schema_of t) (rows_of t db) [] in
          Ok (tt, with_rows t (snd res) db)
    | _ =>
        let? _ := rmap (check_columns t) valss in
        let? rs := rmap bind_values valss in
        if on_conflict_do_nothing
        then Ok (tt, with_rows t
                       (insert_many_or_ignore (schema_of t) (rows_of t db) rs) db)
        else
          let? rows' := insert_many (schema_of t) (rows_of t db) rs in
          Ok (tt, with_rows t rows' db)
    end.

(** [table.c.<col>]: a table has no attribute for a column it lacks. *)
Definition column (t : table) (c : string) : result string :=
  if has_column (schema_of t) c then Ok c else Raise AttributeError.

(** [conn.execute(select([t.c.<col>, ...]).where(w)).fetchall()]: the
    selected columns of the matching rows, in the order SQLite fetches
    them. *)
Definition execute_select (t : table) (cols : list string) (w : where_clause)
  : conn (list (list sqlval)) :=
  fun db =>
    let? _ := rmap (column t) cols in
    let? _ := column t (where_column w) in
    let? sel := compile_where w in
    Ok (map (fun r => map (cell r) cols)
            (fetch_order w (filter sel (rows_of t db))), db).

(** [conn.execute(update(t).where(w).values(k=v, ...))] *)
Definition execute_update (t : table) (w : where_clause)
  (vals : list (string * param)) : conn unit :=
  fun db =>
    let? _ := column t (where_column w) in
    let? _ := check_columns t vals in
    let? sel := compile_where w in
    let? r := bind_values vals in
    Ok (tt, with_rows t (update (rows_of t db) sel r) db).

(** *** Helpers for Python expressions on decoded records *)

(** [obj.strip()]: only strings have the method. *)
Definition str_strip (obj : json) : result string :=
  match obj with
  | JStr s => Ok (Py.strip s)
  | _ => Raise AttributeError
  end.

(** [obj.split(sep)] *)
Definition str_split (sep : string) (obj : json) : result (list string) :=
  match obj with
  | JStr s => Ok (Py.split sep s)
  | _ => Raise AttributeError
  end.

(** [row[i]] on a fetched row. *)
Definition index {A} (l : list A) (i : nat) : result A :=
  match nth_error l i with
  | Some a => Ok a
  | None => Raise IndexError
  end.

(** [rows[0][0]] *)
Definition index00 (rows : list (list sqlval)) : result sqlval :=
  let? r := index rows 0 in
  index r 0.

Definition pstr (s : string) : param := Obj (JStr s).

(** A natural key taken from a record as it is, [user['user_id']] say, and
    handed to a statement: a string, or [None], which is bound as NULL.  The
    key columns are VARCHAR columns; what their type affinity makes of a
    number or a bool, and what becomes of a list or a dict, is not
    modelled. *)
Definition natural_key (obj : json) : result param :=
  match obj with
  | JNull => Ok (Obj JNull)
  | JStr s => Ok (Obj (JStr s))
  | _ => Raise NotModelled
  end.

(** *** The methods of [YelpDataBase] *)

(** What a run acts on: the database file and the standard output. *)
Record world : Type := {
  db : database;
  stdout : list string
}.

Definition proc (A : Type) : Type := world -> result (A * world).

Definition pret {A} (a : A) : proc A := fun w => Ok (a, w).

Definition pbind {A B} (m : proc A) (k : A -> proc B) : proc B :=
  fun w =>
    match m w with
    | Ok (a, w') => k a w'
    | Raise e => Raise e
    end.

Declare Scope proc_scope.
Delimit Scope proc_scope with proc.
Notation "x <-- m ;; k" := (pbind m (fun x => k))
  (at level 61, m at next level, right associativity) : proc_scope.
Notation "m ;;;; k" := (pbind m (fun _ => k))
  (at level 61, right associativity) : proc_scope.

Definition print (line : string) : proc unit :=
  fun w => Ok (tt, {| db := db w; stdout := stdout w ++ [line] |}).

(** [with self.engine.begin() as conn: body]: the body runs on the database
    and its writes are committed when it ends; an exception leaves the block
    and propagates. *)
Definition begin {A} (body : conn A) : proc A :=
  fun w =>
    match body (db w) with
    | Ok (a, db') => Ok (a, {| db := db'; stdout := stdout w |})
    | Raise e => Raise e
    end.

Definition verbose_loading (file_name : string) (connecting_frineds verbose : bool)
  : proc unit :=
  if verbose then
    if connecting_frineds then print "Connecting Users"
    else print ("Loading: " ++ file_name)%string
  else pret tt.

Definition week : list string :=
  ["Monday"; "Tuesday"; "Wednesday"; "Thursday"; "Friday"; "Saturday"; "Sunday"].

(** [enumerate(l, start)] *)
Fixpoint enumerate {A} (start : Z) (l : list A) : list (Z * A) :=
  match l with
  | [] => []
  | x :: rest => (start, x) :: enumerate (start + 1) rest
  end.

Definition _initialize_days_table : proc (list (string * Z)) :=
  let day_id_days_dict := map (fun p => (snd p, fst p)) (enumerate 1 week) in
  (begin
     (execute_insert_many T_days true
        (map (fun p => [("id", Obj (JInt (fst p))); ("day", pstr (snd p))])
             (enumerate 1 week))) ;;;;
   pret day_id_days_dict)%proc.

(** [_get_add_user_id(connection, table, id_str)]: the id of the user with
    this natural key; when there is none, a row holding only the key is
    inserted and its id returned. *)
Definition _get_add_user_id (table : table) (id_str : json) : conn sqlval :=
  id_str <- lift (natural_key id_str) ;;
  user_id <- execute_select table ["id"] (Eq "user_id_str" id_str) ;;
  match index00 user_id with
  | Ok user_id => ret user_id
  | Raise IndexError => execute_insert table [("user_id_str", id_str)]
  | Raise e => lift (Raise e)
  end.

(** [_get_add_business_id(connection, table, id_str)], documented as the
    same for businesses.  The INSERT names the column [user_id_str], as the
    source does. *)
Definition _get_add_business_id (table : table) (id_str : json) : conn sqlval :=
  id_str <- lift (natural_key id_str) ;;
  business_id <- execute_select table ["id"] (Eq "business_id_str" id_str) ;;
  match index00 business_id with
  | Ok business_id => ret business_id
  | Raise IndexError => execute_insert table [("user_id_str", id_str)]
  | Raise e => lift (Raise e)
  end.

(** [business_statement]: the values of the INSERT into [business]. *)
Definition business_statement (business : json) : result (list (string * param)) :=
  let? business_id_str := (let? v := getitem business "business_id" in str_strip v) in
  let? name := (let? v := getitem business "name" in str_strip v) in
  let? address := (let? v := getitem business "address" in str_strip v) in
  let? city := (let? v := getitem business "city" in str_strip v) in
  let? state := (let? v := getitem business "state" in str_strip v) in
  let? postal_code := (let? v := getitem business "postal_code" in str_strip v) in
  let? latitude := getitem business "latitude" in
  let? longitude := getitem business "longitude" in
  let? stars := getitem business "stars" in
  let? review_count := getitem business "review_count" in
  let? is_open := getitem business "is_open" in
  Ok [("business_id_str", pstr business_id_str); ("name", pstr name);
      ("address", pstr address); ("city", pstr city); ("state", pstr state);
      ("postal_code", pstr postal_code); ("latitude", Obj latitude);
      ("longitude", Obj longitude); ("stars", Obj stars);
      ("review_count", Obj review_count); ("is_open", Obj is_open)].

(** The block under [# category table]. *)
Definition load_categories (business : json) (business_id : sqlval) : conn unit :=
  categories <- lift (getitem business "categories") ;;
  match categories with
  | JNull => ret tt
  | _ =>
      pieces <- lift (str_split ", " categories) ;;
      let business_categories := map Py.strip pieces in
      execute_insert_many T_category true
        (map (fun category => [("name", pstr (Py.strip category))])
             business_categories) ;;;
      category_ids <- execute_select T_category ["id"]
                        (In_ "name" (map pstr business_categories)) ;;
      (* category business table *)
      pairs <- lift (rmap (fun cat_id =>
                             let? c := index cat_id 0 in
                             Ok [("category_id", Fetched c);
                                 ("business_id", Fetched business_id)])
                          category_ids) ;;
      execute_insert_many T_category_business false pairs
  end.

(** The block under [# attributes table]. *)
Definition load_attributes (business : json) (business_id : sqlval) : conn unit :=
  attrs <- lift (getitem business "attributes") ;;
  match attrs with
  | JNull => ret tt
  | _ =>
      flat <- lift (Utils.flatten_dict attrs) ;;
      match flat with
      | None => lift (Raise AttributeError)
      | Some attributes =>
          execute_insert_many T_attributes true
            (map (fun cat_name => [("name", pstr (Py.strip cat_name))])
                 (map fst attributes)) ;;;
          attribute_ids_terms <-
            execute_select T_attributes (columns (schema_of T_attributes))
              (In_ "name" (map pstr (map fst attributes))) ;;
          (* business attributes table *)
          triples <- lift (rmap (fun entry =>
                             let? a := index entry 0 in
                             let? n := index entry 1 in
                             let? value :=
                               match n with
                               | Text k =>
                                   match assoc k attributes with
                                   | Some v => Ok v
                                   | None => Raise (KeyError k)
                                   end
                               | _ => Raise (KeyError EmptyString)
                               end in
                             Ok [("attribute_id", Fetched a);
                                 ("business_id", Fetched business_id);
                                 ("value", pstr (Py.strip value))])
                          attribute_ids_terms) ;;
          execute_insert_many T_business_attributes false triples
      end
  end.

(** The block under [# hours]. *)
Definition load_hours (day_id_dict : list (string * Z)) (business : json)
  (business_id : sqlval) : conn unit :=
  hours <- lift (getitem business "hours") ;;
  match hours with
  | JNull => ret tt
  | JObj items =>
      (* clean up days *)
      let days_dict :=
        filter (fun dh => match snd dh with
                          | JStr h => negb (String.eqb h "0:0-0:0")
                          | _ => true
                          end) items in
      entries <- lift (rmap (fun dh =>
                         match assoc (fst dh) day_id_dict with
                         | Some day_id =>
                             Ok [("business_id", Fetched business_id);
                                 ("day_id", Obj (JInt day_id));
                                 ("open_hours", Obj (snd dh))]
                         | None => Raise (KeyError (fst dh))
                         end) days_dict) ;;
      execute_insert_many T_hours false entries
  | _ => lift (Raise AttributeError)
  end.

(** The body of the loop of [_load_business_json]. *)
Definition load_business (day_id_dict : list (string * Z)) (business : json)
  : conn unit :=
  business_statement <- lift (business_statement business) ;;
  inserted <- except_IntegrityError (execute_insert T_business business_statement) ;;
  match inserted with
  | None => ret tt                                          (* continue *)
  | Some business_id =>
      load_categories business business_id ;;;
      load_attributes business business_id ;;;
      load_hours day_id_dict business business_id
  end.

Definition _load_business_json (business_file_path : Utils.path) (verbose : bool)
  : proc unit :=
  (verbose_loading (Utils.name business_file_path) false verbose ;;;;
   day_id_dict <-- _initialize_days_table ;;
   begin (for_each (load_business day_id_dict)
                   (Utils.file_line_generator business_file_path)))%proc.

(** [fix_split_elite], local to [_load_users_json].  [re.sub] on anything but
    a string raises [TypeError]. *)
Definition fix_split_elite (elite_str : json) : result (list Z) :=
  match elite_str with
  | JStr elite_str =>
      let elite := Py.re_sub "20,20" "2020" elite_str in
      rmap (fun year => Py.int (Py.strip year)) (Py.split "," elite)
  | _ => Raise TypeError
  end.

Definition user_columns : list string :=
  ["name"; "review_count"; "yelping_since"; "useful"; "funny"; "cool"; "fans";
   "average_stars"; "compliment_hot"; "compliment_more"; "compliment_profile";
   "compliment_cute"; "compliment_list"; "compliment_note"; "compliment_plain";
   "compliment_cool"; "compliment_funny"; "compliment_writer";
   "compliment_photos"].

(** [users_statement]: the values of the INSERT into [users].  Apart from
    [user_id], each column takes the field of the same name. *)
Definition users_statement (user : json) : result (list (string * param)) :=
  let? user_id_str := (let? v := getitem user "user_id" in natural_key v) in
  let? fields := rmap (fun c => let? v := getitem user c in Ok (c, Obj v))
                      user_columns in
  Ok (("user_id_str", user_id_str) :: fields).

(** The elite years of a user, after the INSERT into [users]. *)
Definition load_elite (user : json) (user_id : sqlval) : conn unit :=
  elite <- lift (getitem user "elite") ;;
  match elite with
  | JNull => ret tt
  | JStr EmptyString => ret tt
  | _ =>
      years_elite <- lift (fix_split_elite elite) ;;
      match years_elite with
      | [] => ret tt
      | _ =>
          execute_insert_many T_elite false
            (map (fun year => [("user_id", Fetched user_id);
                               ("year", Obj (JInt year))])
                 years_elite)
      end
  end.

(** The body of the loop of [_load_users_json]. *)
Definition load_user (user : json) : conn unit :=
  users_statement <- lift (users_statement user) ;;
  inserted <- except_IntegrityError (execute_insert T_users users_statement) ;;
  match inserted with
  | None => ret tt                                          (* continue *)
  | Some user_id => load_elite user user_id
  end.

Definition _load_users_json (users_file_path : Utils.path) (verbose : bool)
  : proc unit :=
  (verbose_loading (Utils.name users_file_path) false verbose ;;;;
   begin (for_each load_user (Utils.file_line_generator users_file_path)))%proc.

(** The body of the loop of [_connect_users]. *)
Definition connect_user (user : json) : conn unit :=
  key <- lift (let? v := getitem user "user_id" in natural_key v) ;;
  user_id <- execute_select T_users ["id"] (Eq "user_id_str" key) ;;
  pieces <- lift (let? v := getitem user "friends" in str_split ", " v) ;;
  let friends_list := map Py.strip pieces in
  let friend_count := Z.of_nat (List.length friends_list) in
  uid <- lift (index00 user_id) ;;
  execute_update T_users (Eq "id" (Fetched uid))
                 [("friend_count", Obj (JInt friend_count))] ;;;
  friend_ids <- execute_select T_users ["id"]
                  (In_ "user_id_str" (map pstr friends_list)) ;;
  match friend_ids with
  | [] => ret tt                                            (* continue *)
  | _ =>
      pairs <- lift (rmap (fun friend =>
                             let? uid := index00 user_id in
                             let? fid := index friend 0 in
                             Ok [("user1_id", Fetched uid); ("user2_id", Fetched fid)])
                          friend_ids) ;;
      execute_insert_many T_friends true pairs
  end.

Definition _connect_users (users_file_path : Utils.path) (verbose : bool)
  : proc unit :=
  (verbose_loading EmptyString true verbose ;;;;
   begin (for_each connect_user (Utils.file_line_generator users_file_path)))%proc.

(** [review_statement]: the values of the INSERT into [reviews]. *)
Definition review_statement (review : json) (user_id business_id : sqlval)
  : result (list (string * param)) :=
  let? review_id_str := (let? v := getitem review "review_id" in natural_key v) in
  let? stars := getitem review "stars" in
  let? date := getitem review "date" in
  let? text := getitem review "text" in
  let? useful := getitem review "useful" in
  let? funny := getitem review "funny" in
  let? cool := getitem review "cool" in
  Ok [("review_id_str", review_id_str); ("user_id", Fetched user_id);
      ("business_id", Fetched business_id); ("stars", Obj stars);
      ("date", Obj date); ("text", Obj text); ("useful", Obj useful);
      ("funny", Obj funny); ("cool", Obj cool)].

(** The body of the loop of [_load_review_json]. *)
Definition load_review (review : json) : conn unit :=
  u <- lift (getitem review "user_id") ;;
  user_id <- _get_add_user_id T_users u ;;
  b <- lift (getitem review "business_id") ;;
  business_id <- _get_add_business_id T_business b ;;
  review_statement <- lift (review_statement review user_id business_id) ;;
  execute_insert_or_ignore T_reviews review_statement.

Definition _load_review_json (review_file_path : Utils.path) (verbose : bool)
  : proc unit :=
  (verbose_loading (Utils.name review_file_path) false verbose ;;;;
   begin (for_each load_review (Utils.file_line_generator review_file_path)))%proc.

(** The body of the loop of [_load_checkin_json]. *)
Definition load_checkin (checkin : json) : conn unit :=
  pieces <- lift (let? v := getitem checkin "date" in str_split "," v) ;;
  let checkin_dates := map Py.strip pieces in
  b <- lift (getitem checkin "business_id") ;;
  business_id <- _get_add_business_id T_business b ;;
  execute_insert_many T_checkins false
    (map (fun date => [("business_id", Fetched business_id); ("date", pstr date)])
         checkin_dates).

Definition _load_checkin_json (checkin_file_path : Utils.path) (verbose : bool)
  : proc unit :=
  (verbose_loading (Utils.name checkin_file_path) false verbose ;;;;
   begin (for_each load_checkin (Utils.file_line_generator checkin_file_path)))%proc.

(** [tip_insert_statement]: the values of the INSERT into [tips]. *)
Definition tip_insert_statement (tip : json) (user_id business_id : sqlval)
  : result (list (string * param)) :=
  let? text := getitem tip "text" in
  let? date := getitem tip "date" in
  let? compliment_count := getitem tip "compliment_count" in
  Ok [("business_id", Fetched business_id); ("user_id", Fetched user_id);
      ("text", Obj text); ("date", Obj date);
      ("compliment_count", Obj compliment_count)].

(** The body of the loop of [_load_tip_json]. *)
Definition load_tip (tip : json) : conn unit :=
  u <- lift (getitem tip "user_id") ;;
  user_id <- _get_add_user_id T_users u ;;
  b <- lift (getitem tip "business_id") ;;
  business_id <- _get_add_business_id T_business b ;;
  tip_insert_statement <- lift (tip_insert_statement tip user_id business_id) ;;
  execute_insert_or_ignore T_tips tip_insert_statement.

Definition _load_tip_json (tip_file_path : Utils.path) (verbose : bool)
  : proc unit :=
  (verbose_loading (Utils.name tip_file_path) false verbose ;;;;
   begin (for_each load_tip (Utils.file_line_generator tip_file_path)))%proc.

(** [photo_insert_statement]: the values of the INSERT into [photos]. *)
Definition photo_insert_statement (photo : json) (business_id : sqlval)
  : result (list (string * param)) :=
  let? photo_id_str := (let? v := getitem photo "photo_id" in natural_key v) in
  let? caption := getitem photo "caption" in
  let? label := getitem photo "label" in
  Ok [("photo_id_str", photo_id_str); ("business_id", Fetched business_id);
      ("caption", Obj caption); ("label", Obj label)].

(** The body of the loop of [_load_photos_json]. *)
Definition load_photo (photo : json) : conn unit :=
  b <- lift (getitem photo "business_id") ;;
  business_id <- _get_add_business_id T_business b ;;
  photo_insert_statement <- lift (photo_insert_statement photo business_id) ;;
  execute_insert_or_ignore T_photos photo_insert_statement.

Definition _load_photos_json (photos_file_path : Utils.path) (verbose : bool)
  : proc unit :=
  (verbose_loading (Utils.name photos_file_path) false verbose ;;;;
   begin (for_each load_photo (Utils.file_line_generator photos_file_path)))%proc.

(** The variables set by the discovery loop of [create_full_database]: a
    file path is bound exactly when the flag of its kind is [True]. *)
Record discovered : Type := {
  business_file_path : option Utils.path;
  user_file_path : option Utils.path;
  review_file_path : option Utils.path;
  checkin_file_path : option Utils.path;
  tip_file_path : option Utils.path;
  photo_file_path : option Utils.path
}.

Definition nothing_discovered : discovered :=
  {| business_file_path := None; user_file_path := None;
     review_file_path := None; checkin_file_path := None;
     tip_file_path := None; photo_file_path := None |}.

(** One iteration of [for path in base_path.iterdir()]. *)
Definition discover (found : discovered) (path : Utils.path) : discovered :=
  let 'Build_discovered b u r c t p := found in
  let name := Utils.name path in
  if String.eqb (Py.suffix name) ".json" then
    if Py.contains "business" name then Build_discovered (Some path) u r c t p
    else if Py.contains "user" name then Build_discovered b (Some path) r c t p
    else if Py.contains "review" name then Build_discovered b u (Some path) c t p
    else if Py.contains "checkin" name then Build_discovered b u r (Some path) t p
    else if Py.contains "tip" name then Build_discovered b u r c (Some path) p
    else if Py.contains "photo" name then Build_discovered b u r c t (Some path)
    else found
  else found.

Definition failure_message : string :=
  "failed! data folder must contain business, user, and review json files".

(** [create_full_database(verbose, include_photos)] on the files of the raw
    data folder, in the order [iterdir] yields them.  The tables exist from
    the start ([_create_tables_if_not_exist] writes no row).  The result is
    what the method returns: [None] or [-1]. *)
Definition create_full_database (raw_data_folder : list Utils.path)
  (verbose include_photos : bool) : proc (option Z) :=
  let found := fold_left discover raw_data_folder nothing_discovered in
  match business_file_path found, user_file_path found, review_file_path found with
  | Some business_file, Some user_file, Some review_file =>
      (_load_business_json business_file verbose ;;;;
       _load_users_json user_file verbose ;;;;
       _connect_users user_file verbose ;;;;
       _load_review_json review_file verbose ;;;;
       match checkin_file_path found with
       | Some checkin_file => _load_checkin_json checkin_file verbose
       | None => pret tt
       end ;;;;
       match tip_file_path found with
       | Some tip_file => _load_tip_json tip_file verbose
       | None => pret tt
       end ;;;;
       match photo_file_path found with
       | Some photo_file =>
           if include_photos then _load_photos_json photo_file verbose
           else pret tt
       | None => pret tt
       end ;;;;
       pret None)%proc
  | _, _, _ =>
      (print failure_message ;;;; pret (Some (-1)%Z))%proc
  end.

(** *** Notions used to state the properties *)

(** Some row holds the string [k] in column [c]. *)
Definition has_key (c : string) (k : string) (rows : list row) : bool :=
  existsb (fun r => sqlval_eqb (cell r c) (Text k)) rows.

(** The [friend_count] of the user with natural key [key]. *)
Definition friend_count_of (key : string) (d : database) : option sqlval :=
  match filter (fun r => sqlval_eqb (cell r "user_id_str") (Text key)) (users d) with
  | r :: _ => Some (cell r "friend_count")
  | [] => None
  end.

(** The id that [SELECT id FROM users WHERE user_id_str = key] yields first. *)
Definition user_id_of (key : string) (d : database) : option sqlval :=
  match filter (fun r => sqlval_eqb (cell r "user_id_str") (Text key)) (users d) with
  | r :: _ => Some (cell r "id")
  | [] => None
  end.

(** A friendship junction row. *)
Definition friendship (u f : sqlval) : row := [("user1_id", u); ("user2_id", f)].

Definition is_friendship (u f : sqlval) (r : row) : bool :=
  sqlval_eqb (cell r "user1_id") u && sqlval_eqb (cell r "user2_id") f.

(** The number of junction rows linking [u] to [f]. *)
Definition count_pair (u f : sqlval) (rows : list row) : nat :=
  List.length (filter (is_friendship u f) rows).

(** The kinds of source file that carry a natural key of their own, and
    Tip. *)
Inductive entity : Type := Business | User | Review | Tip | Photo.

Definition loader (e : entity) : Utils.path -> bool -> proc unit :=
  match e with
  | Business => _load_business_json
  | User => _load_users_json
  | Review => _load_review_json
  | Tip => _load_tip_json
  | Photo => _load_photos_json
  end.

Definition table_of (e : entity) : table :=
  match e with
  | Business => T_business
  | User => T_users
  | Review => T_reviews
  | Tip => T_tips
  | Photo => T_photos
  end.

(** The kind [create_full_database] takes a file name for. *)
Inductive file_kind : Type :=
| BusinessFile | UserFile | ReviewFile | CheckinFile | TipFile | PhotoFile.

Definition kind_of_name (name : string) : option file_kind :=
  if String.eqb (Py.suffix name) ".json" then
    if Py.contains "business" name then Some BusinessFile
    else if Py.contains "user" name then Some UserFile
    else if Py.contains "review" name then Some ReviewFile
    else if Py.contains "checkin" name then Some CheckinFile
    else if Py.contains "tip" name then Some TipFile
    else if Py.contains "photo" name then Some PhotoFile
    else None
  else None.

Definition file_kind_eqb (a b : file_kind) : bool :=
  match a, b with
  | BusinessFile, BusinessFile | UserFile, UserFile | ReviewFile, ReviewFile
  | CheckinFile, CheckinFile | TipFile, TipFile | PhotoFile, PhotoFile => true
  | _, _ => false
  end.

(** No file of the folder is of kind [k]. *)
Definition absent (k : file_kind) (folder : list Utils.path) : bool :=
  forallb (fun p => match kind_of_name (Utils.name p) with
                    | Some k' => negb (file_kind_eqb k k')
                    | None => true
                    end) folder.

End Yelp.

Import Sql Yelp.

(** ** Occurrences of a pattern *)

(** In the string [a ++ rest], an occurrence of [pat] starts inside [a]. *)
Fixpoint starts_before (pat a rest : string) : bool :=
  match a with
  | EmptyString => false
  | String c a' =>
      String.prefix pat (a ++ rest) || starts_before pat a' rest
  end.

(** ** Literal syntax *)

(** An expression of the fragment is a literal when it has no operator. *)
Fixpoint is_literal_expr (e : Py.expr) : bool :=
  match e with
  | Py.EAdd _ _ => false
  | Py.EDict items =>
      (fix all (items : list (Py.expr * Py.expr)) : bool :=
         match items with
         | [] => true
         | (k, v) :: rest => is_literal_expr k && is_literal_expr v && all rest
         end) items
  | _ => true
  end.

Definition is_literal (src : string) : bool :=
  match Py.parse src with
  | Some e => is_literal_expr e
  | None => false
  end.

(** The values the flattener is meant for: strings that decode, whose
    decoded mappings have string keys. *)
Definition string_keys (v : Py.pyvalue) : bool :=
  match v with
  | Py.VDict items =>
      forallb (fun kv => match fst kv with Py.VStr _ => true | _ => false end) items
  | _ => true
  end.

Definition decodable (value : json) : bool :=
  match value with
  | JStr src =>
      match Py.eval src with
      | Ok v => string_keys v
      | Raise _ => false
      end
  | _ => false
  end.



(** A table keyed by a rowid [id] and one natural-key column. *)
Definition keyed (sch : schema) (kc : string) : Prop :=
  rowid_alias sch = Some "id" /\ uniques sch = [["id"]; [kc]] /\
  has_column sch "id" = true /\ has_column sch kc = true /\
  String.eqb kc "id" = false.

(** ** Natural keys *)

(** The rows that [WHERE c = v] selects; for [None] the comparison is
    rendered [c IS NULL]. *)
Definition selected (c : string) (v : sqlval) (r : row) : bool :=
  if is_null v then is_null (cell r c) else sqlval_eqb (cell r c) v.

(** The id that [SELECT id FROM t WHERE c = v] yields first. *)
Definition first_id (c : string) (v : sqlval) (rows : list row) : option sqlval :=
  match filter (selected c v) rows with
  | r :: _ => Some (cell r "id")
  | [] => None
  end.

(** The natural key [j] is known in column [c]: the SELECT of the resolver
    finds a row. *)
Definition known (c : string) (j : json) (rows : list row) : Prop :=
  exists p v,
    natural_key j = Ok p /\ bind p = Ok v /\ existsb (selected c v) rows = true.

(** The record has a natural key of its own: the field is not [null]. *)
Definition has_own_key (field : string) (record : json) : bool :=
  match getitem record field with
  | Ok JNull => false
  | _ => true
  end.

(** ** Sample records *)

Definition sample_business (business_id : string) : json :=
  JObj [("business_id", JStr business_id); ("name", JStr " Cafe ");
        ("address", JStr "1 Main St"); ("city", JStr "Tempe");
        ("state", JStr "AZ"); ("postal_code", JStr "85281");
        ("latitude", JFloat 4630114245275585741);
        ("longitude", JFloat 13862633384343426662);
        ("stars", JFloat 4616189618054758400);
        ("review_count", JInt 5); ("is_open", JInt 1);
        ("categories", JStr "Food, Coffee");
        ("attributes",
         JObj [("WiFi", JStr "u'free'");
               ("Parking", JStr "{'garage': False, 'street': True}")]);
        ("hours", JObj [("Monday", JStr "0:0-0:0"); ("Tuesday", JStr "9:0-17:0")])].

Definition sample_user (user_id friends elite : string) : json :=
  JObj ([("user_id", JStr user_id); ("name", JStr "Ann");
         ("yelping_since", JStr "2015-01-01 00:00:00");
         ("average_stars", JFloat 4616189618054758400)]
        ++ map (fun c => (c, JInt 0))
               ["review_count"; "useful"; "funny"; "cool"; "fans";
                "compliment_hot"; "compliment_more"; "compliment_profile";
                "compliment_cute"; "compliment_list"; "compliment_note";
                "compliment_plain"; "compliment_cool"; "compliment_funny";
                "compliment_writer"; "compliment_photos"]
        ++ [("elite", JStr elite); ("friends", JStr friends)]).

(** A user record whose [user_id] is [null]. *)
Definition nameless_user (friends : string) : json :=
  JObj ([("user_id", JNull); ("name", JStr "Ann");
         ("yelping_since", JStr "2015-01-01 00:00:00");
         ("average_stars", JFloat 4616189618054758400)]
        ++ map (fun c => (c, JInt 0))
               ["review_count"; "useful"; "funny"; "cool"; "fans";
                "compliment_hot"; "compliment_more"; "compliment_profile";
                "compliment_cute"; "compliment_list"; "compliment_note";
                "compliment_plain"; "compliment_cool"; "compliment_funny";
                "compliment_writer"; "compliment_photos"]
        ++ [("elite", JStr ""); ("friends", JStr friends)]).

Definition sample_review (review_id user_id business_id : string) : json :=
  JObj [("review_id", JStr review_id); ("user_id", JStr user_id);
        ("business_id", JStr business_id); ("stars", JFloat 4617315517961601024);
        ("date", JStr "2020-01-01 10:00:00"); ("text", JStr "Good coffee.");
        ("useful", JInt 0); ("funny", JInt 0); ("cool", JInt 0)].

Definition sample_tip (user_id business_id : string) : json :=
  JObj [("user_id", JStr user_id); ("business_id", JStr business_id);
        ("text", JStr "Try the espresso."); ("date", JStr "2020-01-02 11:00:00");
        ("compliment_count", JInt 0)].

Definition sample_photo (photo_id business_id : string) : json :=
  JObj [("photo_id", JStr photo_id); ("business_id", JStr business_id);
        ("caption", JStr ""); ("label", JStr "inside")].

(** A database that holds one business, known by its natural key only. *)
Definition one_business (business_id : string) : database :=
  with_rows T_business
    [make_row (schema_of T_business) [] [("business_id_str", Text business_id)]]
    empty_database.

(** A database that holds users known by their natural keys only. *)
Definition some_users (user_ids : list string) : database :=
  with_rows T_users
    (insert_many_or_ignore (schema_of T_users) []
       (map (fun k => [("user_id_str", Text k)]) user_ids))
    empty_database.

(** The row [r] of [users] is one of the listed friends. *)
Definition resolves (keys : list string) (r : row) : bool :=
  existsb (fun k => sqlval_eqb (cell r "user_id_str") (Text k)) keys.

(** The rows that [UPDATE users SET ... WHERE id = uid] touches. *)
Definition has_id (uid : sqlval) : row -> bool :=
  if is_null uid then (fun r => is_null (cell r "id"))
  else matches "id" [uid] false.

(** ** Loading a file several times *)

(** [loader e file verbose], run [n] times in a row. *)
Fixpoint load_times (e : entity) (file : Utils.path) (verbose : bool) (n : nat)
  : proc unit :=
  match n with
  | O => pret tt
  | S n' => pbind (loader e file verbose) (fun _ => load_times e file verbose n')
  end.

(** The number of rows in the table of [e] after a run; [None] if it raised. *)
Definition row_count (e : entity) (run : result (unit * world)) : option nat :=
  match run with
  | Ok (_, w) => Some (List.length (rows_of (table_of e) (db w)))
  | Raise _ => None
  end.

(** Every record of the file has a natural key of its own: the field is not
    [null].  (A business record that is loaded always has one, as its key is
    stripped, which only a string can be; a tip has no key.) *)
Definition own_keys (e : entity) (file : Utils.path) : bool :=
  match e with
  | User => forallb (has_own_key "user_id") (Utils.lines file)
  | Review => forallb (has_own_key "review_id") (Utils.lines file)
  | Photo => forallb (has_own_key "photo_id") (Utils.lines file)
  | Business | Tip => true
  end.

(** ** Footprints of computations *)

(** A computation that only appends rows. *)
Definition grows {A} (m : conn A) : Prop :=
  forall d a d', m d = Ok (a, d') ->
    forall t, exists l, rows_of t d' = rows_of t d ++ l.

(** A computation that leaves the table [t] as it is. *)
Definition preserves (t : table) {A} (m : conn A) : Prop :=
  forall d a d', m d = Ok (a, d') -> rows_of t d' = rows_of t d.

(** ** Records that a loader has already taken in

    A record is settled in a database when its values evaluate and bind, its
    own natural key is a string, and the natural keys it names are in their
    tables. *)

Definition settled_business (record : json) (d : database) : Prop :=
  exists vals r k,
    business_statement record = Ok vals /\
    getitem record "business_id" = Ok (JStr k) /\
    bind_values vals = Ok r /\
    has_key "business_id_str" (Py.strip k) (business d) = true.

Definition settled_user (record : json) (d : database) : Prop :=
  exists vals r k,
    users_statement record = Ok vals /\
    getitem record "user_id" = Ok (JStr k) /\
    bind_values vals = Ok r /\
    has_key "user_id_str" k (users d) = true.

Definition settled_review (record : json) (d : database) : Prop :=
  exists ju jb kr rest r,
    getitem record "user_id" = Ok ju /\
    getitem record "business_id" = Ok jb /\
    (forall u b,
       review_statement record u b
       = Ok (("review_id_str", Obj (JStr kr)) :: ("user_id", Fetched u)
             :: ("business_id", Fetched b) :: rest)) /\
    map fst rest = ["stars"; "date"; "text"; "useful"; "funny"; "cool"] /\
    bind_values rest = Ok r /\
    known "user_id_str" ju (users d) /\
    known "business_id_str" jb (business d) /\
    has_key "review_id_str" kr (reviews d) = true.

Definition settled_photo (record : json) (d : database) : Prop :=
  exists jb kp rest r,
    getitem record "business_id" = Ok jb /\
    (forall b,
       photo_insert_statement record b
       = Ok (("photo_id_str", Obj (JStr kp)) :: ("business_id", Fetched b) :: rest)) /\
    map fst rest = ["caption"; "label"] /\
    bind_values rest = Ok r /\
    known "business_id_str" jb (business d) /\
    has_key "photo_id_str" kp (photos d) = true.

(** The rows that [_initialize_days_table] writes. *)
Definition day_rows : list row :=
  map (fun p => [("id", Int (fst p)); ("day", Text (snd p))]) (enumerate 1 week).

(** The dict that [_initialize_days_table] returns. *)
Definition day_id_days_dict : list (string * Z) :=
  map (fun p => (snd p, fst p)) (enumerate 1 week).

(** A tip file with one tip, and a database that knows its business. *)
Definition sample_tip_file : Utils.path :=
  {| Utils.name := "tip.json"; Utils.lines := [sample_tip "u1" "b1"] |}.

Definition sample_review_file : Utils.path :=
  {| Utils.name := "review.json";
     Utils.lines := [sample_review "r1" "u1" "b1"; sample_review "r2" "u2" "b1";
                     sample_review "r1" "u1" "b1"] |}.

Definition sample_world : world :=
  {| db := one_business "b1"; stdout := [] |}.

(** The elite rows of the user [uid] for the years [years]. *)
Definition elite_rows (uid : sqlval) (years : list Z) : list row :=
  map (fun year => [("user_id", uid); ("year", Int year)]) years.

(** ** What the discovery loop ends with *)

(** [create_full_database] takes the file [p] for one of kind [k]. *)
Definition is_kind (k : file_kind) (p : Utils.path) : bool :=
  match kind_of_name (Utils.name p) with
  | Some k' => file_kind_eqb k k'
  | None => false
  end.

(** The last file of kind [k] that [iterdir] yields. *)
Definition last_of_kind (k : file_kind) (folder : list Utils.path)
  : option Utils.path :=
  find (is_kind k) (rev folder).

(** ** The passes over the source files *)

(** The passes that [create_full_database] makes. *)
Inductive pass : Type :=
| LoadBusiness | LoadUsers | ConnectUsers | LoadReviews | LoadCheckins
| LoadTips | LoadPhotos.

Definition run_pass (p : pass) : Utils.path -> bool -> proc unit :=
  match p with
  | LoadBusiness => _load_business_json
  | LoadUsers => _load_users_json
  | ConnectUsers => _connect_users
  | LoadReviews => _load_review_json
  | LoadCheckins => _load_checkin_json
  | LoadTips => _load_tip_json
  | LoadPhotos => _load_photos_json
  end.

(** The tables a pass has statements for. *)
Definition writes_to (p : pass) (t : table) : bool :=
  match p, t with
  | LoadBusiness, (T_business | T_days | T_category | T_category_business
                  | T_attributes | T_business_attributes | T_hours) => true
  | LoadUsers, (T_users | T_elite) => true
  | ConnectUsers, (T_users | T_friends) => true
  | LoadReviews, (T_users | T_reviews) => true
  | LoadCheckins, T_checkins => true
  | LoadTips, (T_users | T_tips) => true
  | LoadPhotos, T_photos => true
  | _, _ => false
  end.

(** The line [verbose_loading] prints, if any. *)
Definition announcement (file_name : string) (connecting_frineds verbose : bool)
  : list string :=
  if verbose then
    [if connecting_frineds then "Connecting Users"
     else ("Loading: " ++ file_name)%string]
  else [].


(** The line a pass prints, if any. *)
Definition pass_announcement (p : pass) (file : Utils.path) (verbose : bool)
  : list string :=
  announcement (Utils.name file)
               (match p with ConnectUsers => true | _ => false end) verbose.

Definition optional_announcement (file : option Utils.path) (verbose : bool)
  : list string :=
  match file with
  | Some file => announcement (Utils.name file) false verbose
  | None => []
  end.

(** What a run returns or raises and the database it leaves, without what it
    printed. *)
Definition outcome {A} (run : result (A * world)) : result (A * database) :=
  match run with
  | Ok (a, w) => Ok (a, db w)
  | Raise e => Raise e
  end.

Definition sample_checkin (business_id dates : string) : json :=
  JObj [("business_id", JStr business_id); ("date", JStr dates)].

(** A raw data folder with the six files and a file that is not one. *)
Definition sample_folder : list Utils.path :=
  [ {| Utils.name := "yelp_academic_dataset_tip.json";
       Utils.lines := [sample_tip "u1" "b1"; sample_tip "u9" "b1"] |};
    {| Utils.name := "Dataset_User_Agreement.pdf"; Utils.lines := [] |};
    {| Utils.name := "yelp_academic_dataset_review.json";
       Utils.lines := [sample_review "r1" "u1" "b1"; sample_review "r2" "u3" "b1"] |};
    {| Utils.name := "yelp_academic_dataset_business.json";
       Utils.lines := [sample_business "b1"] |};
    {| Utils.name := "photos.json";
       Utils.lines := [sample_photo "p1" "b1"] |};
    {| Utils.name := "yelp_academic_dataset_checkin.json";
       Utils.lines :=
         [sample_checkin "b1" "2020-01-01 10:00:00, 2020-01-02 11:00:00"] |};
    {| Utils.name := "yelp_academic_dataset_user.json";
       Utils.lines := [sample_user "u1" "u2, u7" "2019,20,20";
                       sample_user "u2" "u1" ""] |} ].

Definition empty_world : world := {| db := empty_database; stdout := [] |}.

(** ** Rows written for a business and for a check-in *)

(** The days of an [hours] dict that are kept: those whose hours are not
    ['0:0-0:0']. *)
Definition open_days (items : list (string * json)) : list (string * json) :=
  filter (fun dh => match snd dh with
                    | JStr h => negb (String.eqb h "0:0-0:0")
                    | _ => true
                    end) items.

(** [r] is the [hours] row of the day [dh] for a business. *)
Definition hours_row_of (day_id_dict : list (string * Z)) (business_id : sqlval)
  (dh : string * json) (r : row) : Prop :=
  exists day_id,
    assoc (fst dh) day_id_dict = Some day_id /\
    cell r "day_id" = Int day_id /\
    cell r "business_id" = business_id /\
    bind (Obj (snd dh)) = Ok (cell r "open_hours").

(** The row of defaults that [INSERT INTO t DEFAULT VALUES] writes into a
    table without rowid alias: NULL in every column. *)
Definition null_row (t : table) : row :=
  map (fun c => (c, Null)) (columns (schema_of t)).

(** The rows that a multi-row INSERT leaves in a table without rowid alias:
    those it is given, or one row of NULLs when it is given none. *)
Definition written (t : table) (rs : list row) : list row :=
  match rs with
  | [] => [null_row t]
  | _ => rs
  end.

(** The first day of [items] that is kept and that [day_id_dict] does not
    know. *)
Definition first_unknown_day (day_id_dict : list (string * Z))
  (items : list (string * json)) : option string :=
  option_map fst
    (find (fun dh => match assoc (fst dh) day_id_dict with
                     | Some _ => false
                     | None => true
                     end) (open_days items)).

(** The id that [SELECT id FROM business WHERE business_id_str = key] yields
    first. *)
Definition business_id_of (key : string) (d : database) : option sqlval :=
  match filter (fun r => sqlval_eqb (cell r "business_id_str") (Text key))
               (business d) with
  | r :: _ => Some (cell r "id")
  | [] => None
  end.

Definition checkin_row (business_id : sqlval) (date : string) : row :=
  [("business_id", business_id); ("date", Text (Py.strip date))].

(** The number of dates of a check-in record. *)
Definition date_count (checkin : json) : nat :=
  match getitem checkin "date" with
  | Ok (JStr dates) => List.length (Py.split "," dates)
  | _ => 0
  end.

(** The row that the resolver of users writes for an unknown key. *)
Definition user_stub (key : string) (rows : list row) : row :=
  make_row (schema_of T_users) rows [("user_id_str", Text key)].

(** ** The linker after the loader *)


(** The [friend_count] of the first user that
    [WHERE user_id_str = v] selects. *)
Definition friend_count_by (v : sqlval) (d : database) : option sqlval :=
  match filter (selected "user_id_str" v) (users d) with
  | r :: _ => Some (cell r "friend_count")
  | [] => None
  end.

(** That user has a friend count, and it is at least 1. *)
Definition counted_by (v : sqlval) (d : database) : Prop :=
  exists n, friend_count_by v d = Some (Int n) /\ (1 <= n)%Z.

(** The user with natural key [key] has a friend count, and it is at least
    1. *)
Definition counted (key : string) (d : database) : Prop :=
  exists n, friend_count_of key d = Some (Int n) /\ (1 <= n)%Z.


(** ** Categories *)

Definition no_leading_space (s : string) : Prop :=
  match s with
  | String c _ => Py.is_space c = false
  | EmptyString => True
  end.

(** The row [r] of [category] bears one of the names. *)
Definition named (names : list string) (r : row) : bool :=
  existsb (fun n => sqlval_eqb (cell r "name") (Text n)) names.

(** A junction row of [category_business]. *)
Definition category_link (business_id : sqlval) (r : row) : row :=
  [("category_id", cell r "id"); ("business_id", business_id)].

(** ** Uniqueness constraints as an invariant *)

(** No row of the table collides with an earlier one on the constraint
    [cols]. *)
Fixpoint unique_onb (cols : list string) (rows : list row) : bool :=
  match rows with
  | [] => true
  | r :: rest =>
      forallb (fun r' => negb (agrees cols r' r)) rest && unique_onb cols rest
  end.

Definition consistentb (sch : schema) (rows : list row) : bool :=
  forallb (fun cols => unique_onb cols rows) (uniques sch).

Definition all_tables : list table :=
  [T_business; T_days; T_hours; T_users; T_elite; T_reviews; T_tips; T_checkins;
   T_category; T_category_business; T_friends; T_attributes;
   T_business_attributes; T_photos].

(** Every table of the database satisfies its uniqueness constraints. *)
Definition db_consistentb (d : database) : bool :=
  forallb (fun t => consistentb (schema_of t) (rows_of t d)) all_tables.

(** A computation that keeps the constraints. *)
Definition keeps {A} (m : conn A) : Prop :=
  forall d a d', m d = Ok (a, d') ->
                 db_consistentb d = true -> db_consistentb d' = true.

(** ** Attributes *)

(** The flattened value under the name that the row [r] of [attributes]
    bears. *)
Definition value_of (flat : list (string * string)) (r : row) : string :=
  match cell r "name" with
  | Text k =>
      match assoc k flat with
      | Some v => v
      | None => EmptyString
      end
  | _ => EmptyString
  end.

(** A junction row of [business_attributes]. *)
Definition attribute_link (flat : list (string * string)) (business_id : sqlval)
  (r : row) : row :=
  [("attribute_id", cell r "id"); ("business_id", business_id);
   ("value", Text (Py.strip (value_of flat r)))].

(** * Properties *)

(** ** Dicts *)


Lemma assoc_dict_set {V} (k k0 : string) (v0 : V) (d : list (string * V)) :
  assoc k (dict_set k0 v0 d) = if String.eqb k k0 then Some v0 else assoc k d.
Proof.
  induction d as [|[k1 v1] d IH]; simpl.
  - reflexivity.
  - destruct (String.eqb k0 k1) eqn:E; simpl.
    + apply String.eqb_eq in E. subst k1.
      destruct (String.eqb k k0); reflexivity.
    + rewrite IH. destruct (String.eqb k k1) eqn:E1; [|reflexivity].
      apply String.eqb_eq in E1. subst k1.
      destruct (String.eqb k k0) eqn:E2; [|reflexivity].
      apply String.eqb_eq in E2. subst k0. rewrite String.eqb_refl in E. discriminate.
Qed.

(** ** The attribute flattener *)















(** C3 fails on the code: the flattener hands each value to the general
    evaluator, so the string ['1+1'], which is not a literal, is reduced to
    the computed result ['2']. *)
Lemma flatten_dict_reduces_sum :
  is_literal "1+1" = false /\
  Utils.flatten_dict (JObj [("a", JStr "1+1")]) = Ok (Some [("a", "2")]).
Proof. split; reflexivity. Qed.

(** C3, amended.  The flattener decodes a value string with the
    interpreter's expression evaluator: whenever the string parses as an
    expression, literal or not, whose value is not a mapping, the flat mapping
    holds the string of that value under the entry's key. *)
Theorem flatten_dict_evaluates key src e v :
  Py.parse src = Some e ->
  Py.eval_expr e = Ok v ->
  (forall m, v <> Py.VDict m) ->
  Utils.flatten_dict (JObj [(key, JStr src)]) = Ok (Some [(key, Py.str v)]).
Proof.
  intros Hp He Hv. unfold Utils.flatten_dict, Utils.flatten_loop, Utils.flatten_item.
  unfold Py.eval. rewrite Hp, He. simpl.
  destruct v; try reflexivity. exfalso. eapply Hv. reflexivity.
Qed.

Lemma flatten_dict_evaluates_witness :
  Utils.flatten_dict (JObj [("a", JStr "1+1")]) = Ok (Some [("a", Py.str (Py.VInt 2))]).
Proof.
  apply (flatten_dict_evaluates "a" "1+1" (Py.EAdd (Py.EInt 1) (Py.EInt 1)) (Py.VInt 2)).
  - reflexivity.
  - reflexivity.
  - intros m H. discriminate H.
Defined.

(** ** [re.sub] with a literal pattern *)

Lemma prefix_app pat b : String.prefix pat (pat ++ b)%string = true.
Proof.
  induction pat as [|c pat IH]; simpl.
  - destruct b; reflexivity.
  - destruct (ascii_dec c c) as [_|n]; [exact IH | contradiction].
Qed.

Lemma re_sub_aux_skip pat repl a :
  forall b, Py.re_sub_aux pat repl (String.length a) (a ++ b)%string
            = Py.re_sub_aux pat repl 0 b.
Proof.
  induction a as [|c a IH]; simpl; intros b.
  - destruct b; reflexivity.
  - apply IH.
Qed.

Lemma re_sub_first pat repl a b :
  pat <> EmptyString ->
  starts_before pat a (pat ++ b) = false ->
  Py.re_sub pat repl (a ++ pat ++ b)%string
  = (a ++ repl ++ Py.re_sub pat repl b)%string.
Proof.
  intros Hne. unfold Py.re_sub. induction a as [|c a IH]; intros H.
  - destruct pat as [|p pat]; [contradiction|].
    change (EmptyString ++ String p pat ++ b)%string with (String p (pat ++ b)%string).
    cbn [Py.re_sub_aux].
    change (String p (pat ++ b)%string) with (String p pat ++ b)%string.
    rewrite prefix_app. cbn [String.length]. rewrite Nat.sub_succ, Nat.sub_0_r.
    change (EmptyString ++ repl ++ Py.re_sub_aux (String p pat) repl 0 b)%string
      with (repl ++ Py.re_sub_aux (String p pat) repl 0 b)%string.
    f_equal. apply re_sub_aux_skip.
  - cbn [starts_before] in H. apply orb_false_elim in H. destruct H as [Hp Hrest].
    change (String c a ++ pat ++ b)%string
      with (String c (a ++ pat ++ b)%string) in *.
    cbn [Py.re_sub_aux]. rewrite Hp.
    change (String c a ++ repl ++ Py.re_sub_aux pat repl 0 b)%string
      with (String c (a ++ repl ++ Py.re_sub_aux pat repl 0 b)%string).
    f_equal. apply IH. exact Hrest.
Qed.

Lemma re_sub_none pat repl s :
  Py.contains pat s = false -> Py.re_sub pat repl s = s.
Proof.
  unfold Py.re_sub. induction s as [|c s IH]; simpl; intros H.
  - reflexivity.
  - apply orb_false_elim in H. destruct H as [Hp Hrest].
    rewrite Hp. f_equal. apply IH. exact Hrest.
Qed.

(** ** Rows and tables *)

Lemma sqlval_eqb_eq a b : sqlval_eqb a b = true <-> a = b.
Proof.
  destruct a, b; simpl; split; intros H; try discriminate; try reflexivity;
    try (apply Z.eqb_eq in H; subst; reflexivity);
    try (apply String.eqb_eq in H; subst; reflexivity);
    try (inversion H; subst; first [apply Z.eqb_refl | apply String.eqb_refl]).
Qed.

Lemma sqlval_eqb_refl a : sqlval_eqb a a = true.
Proof. apply sqlval_eqb_eq. reflexivity. Qed.

Lemma rows_of_with_rows t rs d : rows_of t (with_rows t rs d) = rs.
Proof. destruct d, t; reflexivity. Qed.

Lemma rows_of_with_rows_other t t' rs d :
  t <> t' -> rows_of t' (with_rows t rs d) = rows_of t' d.
Proof. intros H. destruct d, t, t'; try reflexivity; contradiction. Qed.

Lemma with_rows_same t d : with_rows t (rows_of t d) d = d.
Proof. destruct d, t; reflexivity. Qed.

Lemma assoc_map_columns {V} (f : string -> V) c cols :
  assoc c (map (fun c => (c, f c)) cols)
  = if existsb (String.eqb c) cols then Some (f c) else None.
Proof.
  induction cols as [|c0 cols IH]; simpl; [reflexivity|].
  destruct (String.eqb c c0) eqn:E; simpl.
  - apply String.eqb_eq in E. subst c0. reflexivity.
  - exact IH.
Qed.

(** The cell of a written row: the value given for the column, and a fresh
    rowid for a primary key left out. *)
Lemma cell_make_row sch rows vals c :
  has_column sch c = true ->
  cell (make_row sch rows vals) c =
  match rowid_alias sch with
  | Some pk =>
      if String.eqb c pk && is_null (cell vals c)
      then Int (next_rowid pk rows) else cell vals c
  | None => cell vals c
  end.
Proof.
  unfold has_column. intros H. unfold make_row, cell at 1.
  rewrite assoc_map_columns, H. reflexivity.
Qed.

Lemma max_rowid_ge pk rows r z :
  In r rows -> cell r pk = Int z ->
  exists m, max_rowid pk rows = Some m /\ (z <= m)%Z.
Proof.
  induction rows as [|r0 rows IH]; simpl; [intros []|].
  intros [->|Hin] Hz.
  - rewrite Hz. destruct (max_rowid pk rows) as [m|].
    + exists (Z.max z m). split; [reflexivity | lia].
    + exists z. split; [reflexivity | lia].
  - destruct (IH Hin Hz) as (m & Hm & Hle). rewrite Hm.
    destruct (cell r0 pk); try (exists m; split; [reflexivity | exact Hle]).
    exists (Z.max z0 m). split; [reflexivity | lia].
Qed.

(** No row of the table holds the rowid given to the next one. *)
Lemma next_rowid_fresh pk rows r :
  In r rows -> sqlval_eqb (cell r pk) (Int (next_rowid pk rows)) = false.
Proof.
  intros Hin. destruct (cell r pk) as [|z| |] eqn:Hc; try reflexivity.
  destruct (max_rowid_ge _ _ _ _ Hin Hc) as (m & Hm & Hle).
  unfold next_rowid. rewrite Hm. simpl. apply Z.eqb_neq. lia.
Qed.

(** The order of an index: the same rows, in another order. *)
Lemma insert_by_key_In col r rows x :
  In x (insert_by_key col r rows) <-> x = r \/ In x rows.
Proof.
  induction rows as [|r' rows IH]; simpl.
  - split; intros [H|H]; auto.
  - destruct (key_leb (cell r col) (cell r' col)); simpl.
    + split; intros [H|H]; auto.
    + rewrite IH. split; intros [H|[H|H]]; auto.
Qed.

Lemma index_order_In col rows x : In x (index_order col rows) <-> In x rows.
Proof.
  induction rows as [|r rows IH]; simpl; [tauto|].
  rewrite insert_by_key_In, IH. split; intros [H|H]; auto.
Qed.

Lemma insert_by_key_length col r rows :
  List.length (insert_by_key col r rows) = S (List.length rows).
Proof.
  induction rows as [|r' rows IH]; simpl; [reflexivity|].
  destruct (key_leb (cell r col) (cell r' col)); simpl; [reflexivity|].
  rewrite IH. reflexivity.
Qed.

Lemma index_order_length col rows :
  List.length (index_order col rows) = List.length rows.
Proof.
  induction rows as [|r rows IH]; simpl; [reflexivity|].
  rewrite insert_by_key_length, IH. reflexivity.
Qed.

Lemma index_order_nil col rows : index_order col rows = [] -> rows = [].
Proof.
  intros H. apply length_zero_iff_nil.
  rewrite <- (index_order_length col), H. reflexivity.
Qed.

Lemma insert_by_key_map col (f : row -> row) r rows :
  (forall x, cell (f x) col = cell x col) ->
  insert_by_key col (f r) (map f rows) = map f (insert_by_key col r rows).
Proof.
  intros H. induction rows as [|r' rows IH]; simpl; [reflexivity|].
  rewrite !H. destruct (key_leb (cell r col) (cell r' col)); simpl;
    [reflexivity|]. rewrite IH. reflexivity.
Qed.

Lemma index_order_map col (f : row -> row) rows :
  (forall x, cell (f x) col = cell x col) ->
  index_order col (map f rows) = map f (index_order col rows).
Proof.
  intros H. induction rows as [|r rows IH]; simpl; [reflexivity|].
  rewrite IH. apply insert_by_key_map, H.
Qed.

Lemma has_key_app c k rows l :
  has_key c k (rows ++ l) = has_key c k rows || has_key c k l.
Proof. unfold has_key. apply existsb_app. Qed.

Lemma has_key_mono c k rows l :
  has_key c k rows = true -> has_key c k (rows ++ l) = true.
Proof. intros H. rewrite has_key_app, H. reflexivity. Qed.

Lemma existsb_agrees_key kc k new rows :
  cell new kc = Text k ->
  existsb (agrees [kc] new) rows = has_key kc k rows.
Proof.
  intros Hk. unfold has_key.
  induction rows as [|r rows IH]; simpl; [reflexivity|].
  rewrite IH. f_equal. unfold agrees. simpl. rewrite Hk. simpl.
  apply andb_true_r.
Qed.

Lemma keyed_conflicts sch kc rows vals k :
  keyed sch kc ->
  cell vals "id" = Null -> cell vals kc = Text k ->
  conflicts sch rows (make_row sch rows vals) = has_key kc k rows.
Proof.
  intros (Hpk & Hu & Hid & Hkc & Hne) Hvid Hvk.
  unfold conflicts. rewrite Hu. simpl. rewrite orb_false_r.
  assert (H1 : existsb (agrees ["id"] (make_row sch rows vals)) rows = false).
  { apply not_true_is_false. intros H. apply existsb_exists in H.
    destruct H as (r & Hin & Ha). unfold agrees in Ha. simpl in Ha.
    rewrite (cell_make_row _ _ _ _ Hid), Hpk, Hvid in Ha. simpl in Ha.
    rewrite (next_rowid_fresh _ _ _ Hin) in Ha. discriminate. }
  rewrite H1. simpl. apply existsb_agrees_key.
  rewrite (cell_make_row _ _ _ _ Hkc), Hpk, Hne, Hvk. reflexivity.
Qed.

Lemma keyed_insert sch kc rows vals k :
  keyed sch kc ->
  cell vals "id" = Null -> cell vals kc = Text k ->
  insert sch rows vals =
  if has_key kc k rows then Raise IntegrityError
  else Ok (Int (next_rowid "id" rows), rows ++ [make_row sch rows vals]).
Proof.
  intros Hk Hvid Hvk. unfold insert.
  rewrite (keyed_conflicts _ _ _ _ _ Hk Hvid Hvk).
  destruct (has_key kc k rows); [reflexivity|].
  destruct Hk as (Hpk & _ & Hid & _). rewrite Hpk.
  rewrite (cell_make_row _ _ _ _ Hid), Hpk, Hvid. reflexivity.
Qed.

Lemma keyed_insert_or_ignore sch kc rows vals k :
  keyed sch kc ->
  cell vals "id" = Null -> cell vals kc = Text k ->
  insert_or_ignore sch rows vals =
  if has_key kc k rows then rows else rows ++ [make_row sch rows vals].
Proof.
  intros Hk Hvid Hvk. unfold insert_or_ignore.
  rewrite (keyed_conflicts _ _ _ _ _ Hk Hvid Hvk). reflexivity.
Qed.

Lemma keyed_has_key_after sch kc rows vals k :
  keyed sch kc ->
  cell vals "id" = Null -> cell vals kc = Text k ->
  has_key kc k (rows ++ [make_row sch rows vals]) = true.
Proof.
  intros (Hpk & Hu & Hid & Hkc & Hne) Hvid Hvk.
  rewrite has_key_app. unfold has_key at 2. simpl.
  rewrite (cell_make_row _ _ _ _ Hkc), Hpk, Hne, Hvk. simpl.
  rewrite String.eqb_refl. apply orb_true_r.
Qed.

Lemma keyed_business : keyed (schema_of T_business) "business_id_str".
Proof. repeat split. Qed.

Lemma keyed_users : keyed (schema_of T_users) "user_id_str".
Proof. repeat split. Qed.

Lemma keyed_reviews : keyed (schema_of T_reviews) "review_id_str".
Proof. repeat split. Qed.

Lemma keyed_photos : keyed (schema_of T_photos) "photo_id_str".
Proof. repeat split. Qed.

(** ** Computations on a connection *)

Lemma rbind_inv {A B} (m : result A) (k : A -> result B) b :
  rbind m k = Ok b -> exists a, m = Ok a /\ k a = Ok b.
Proof. destruct m as [a|e]; simpl; [eauto | discriminate]. Qed.

Lemma bind_conn_inv {A B} (m : conn A) (k : A -> conn B) d r :
  bind_conn m k d = Ok r -> exists a d1, m d = Ok (a, d1) /\ k a d1 = Ok r.
Proof.
  unfold bind_conn. destruct (m d) as [[a d1]|e]; [eauto | discriminate].
Qed.

Lemma bind_conn_ok {A B} (m : conn A) (k : A -> conn B) d a d1 :
  m d = Ok (a, d1) -> bind_conn m k d = k a d1.
Proof. unfold bind_conn. intros ->. reflexivity. Qed.

Lemma lift_inv {A} (r : result A) d a d' :
  lift r d = Ok (a, d') -> r = Ok a /\ d' = d.
Proof.
  unfold lift. destruct r; [|discriminate]. intros H. inversion H. auto.
Qed.

Lemma lift_ok {A} (r : result A) d a : r = Ok a -> lift r d = Ok (a, d).
Proof. intros ->. reflexivity. Qed.

Lemma ret_inv {A} (a a' : A) d d' : ret a d = Ok (a', d') -> a' = a /\ d' = d.
Proof. unfold ret. intros H. inversion H. auto. Qed.

Lemma except_inv {A} (m : conn A) d o d' :
  except_IntegrityError m d = Ok (o, d') ->
  (o = None /\ d' = d /\ m d = Raise IntegrityError)
  \/ (exists a, o = Some a /\ m d = Ok (a, d')).
Proof.
  unfold except_IntegrityError. destruct (m d) as [[a d1]|e].
  - intros H. inversion H. subst. right. eauto.
  - destruct e; try discriminate. intros H. inversion H. subst. left. auto.
Qed.

Lemma for_each_cons_inv {A} (body : A -> conn unit) x xs d d' :
  for_each body (x :: xs) d = Ok (tt, d') ->
  exists d1, body x d = Ok (tt, d1) /\ for_each body xs d1 = Ok (tt, d').
Proof.
  simpl. intros H. apply bind_conn_inv in H.
  destruct H as ([] & d1 & H1 & H2). eauto.
Qed.

(** Taking apart a successful run of a sequence of statements. *)
Ltac inv_conn H :=
  lazymatch type of H with
  | bind_conn _ _ _ = Ok _ =>
      let a := fresh "a" in
      let d := fresh "d" in
      let H1 := fresh "H" in
      let H2 := fresh "H" in
      apply bind_conn_inv in H; destruct H as (a & d & H1 & H2);
      inv_conn H1; inv_conn H2
  | lift _ _ = Ok _ =>
      let E := fresh "E" in
      let D := fresh "D" in
      apply lift_inv in H; destruct H as [E D]; try subst
  | ret _ _ = Ok _ =>
      let E := fresh "E" in
      let D := fresh "D" in
      apply ret_inv in H; destruct H as [E D]; try subst
  | _ => idtac
  end.

Ltac inv_result H :=
  lazymatch type of H with
  | rbind _ _ = Ok _ =>
      let a := fresh "v" in
      let H1 := fresh "H" in
      let H2 := fresh "H" in
      apply rbind_inv in H; destruct H as (a & H1 & H2);
      inv_result H1; inv_result H2
  | Ok _ = Ok _ => inversion H; subst; clear H
  | _ => idtac
  end.

(** ** The key resolver *)

Lemma matches_text col k r :
  matches col [Text k] false r = sqlval_eqb (cell r col) (Text k).
Proof.
  unfold matches. destruct (cell r col); simpl; try reflexivity.
  apply orb_false_r.
Qed.

Lemma filter_matches_text col k rows :
  filter (matches col [Text k] false) rows
  = filter (fun r => sqlval_eqb (cell r col) (Text k)) rows.
Proof. apply filter_ext. intros r. apply matches_text. Qed.

Lemma has_key_filter c k rows :
  has_key c k rows = false <->
  filter (fun r => sqlval_eqb (cell r c) (Text k)) rows = [].
Proof.
  unfold has_key. induction rows as [|r rows IH]; simpl; [tauto|].
  destruct (sqlval_eqb (cell r c) (Text k)); simpl.
  - split; discriminate.
  - exact IH.
Qed.

Lemma natural_key_inv j p :
  natural_key j = Ok p -> p = Obj JNull \/ exists k, p = Obj (JStr k).
Proof.
  destruct j; simpl; intros H; try discriminate H; inversion H; eauto.
Qed.

Lemma natural_key_binds j p :
  natural_key j = Ok p -> exists v, bind p = Ok v.
Proof.
  intros H. destruct (natural_key_inv _ _ H) as [->|(k & ->)]; simpl; eauto.
Qed.

Lemma natural_key_own j p :
  natural_key j = Ok p -> j <> JNull -> exists k, j = JStr k /\ p = Obj (JStr k).
Proof.
  destruct j; simpl; intros H Hn; try discriminate H.
  - contradiction.
  - inversion H. eauto.
Qed.

Lemma has_own_key_inv field record j :
  has_own_key field record = true -> getitem record field = Ok j -> j <> JNull.
Proof. unfold has_own_key. intros H Hj. rewrite Hj in H. intros ->. discriminate. Qed.

Lemma selected_matches c v :
  forall r,
    (if is_null v then (fun r => is_null (cell r c)) else matches c [v] false) r
    = selected c v r.
Proof.
  intros r. unfold selected, matches.
  destruct v; simpl; try reflexivity;
    destruct (cell r c); simpl; try reflexivity; apply orb_false_r.
Qed.

(** [SELECT id FROM t WHERE kc = v]. *)
Lemma select_id_by_value t kc p v d :
  has_column (schema_of t) "id" = true ->
  has_column (schema_of t) kc = true ->
  bind p = Ok v ->
  execute_select t ["id"] (Eq kc p) d
  = Ok (map (fun r => [cell r "id"]) (filter (selected kc v) (rows_of t d)), d).
Proof.
  intros Hid Hkc Hb. unfold execute_select, column. simpl.
  rewrite Hid, Hkc. simpl. rewrite Hb. simpl.
  rewrite (filter_ext _ _ (selected_matches kc v)). reflexivity.
Qed.

Lemma first_id_known c v rows id :
  first_id c v rows = Some id -> existsb (selected c v) rows = true.
Proof.
  unfold first_id. destruct (filter (selected c v) rows) as [|r rs] eqn:E;
    [discriminate|]. intros _.
  assert (Hin : In r (filter (selected c v) rows)) by (rewrite E; left; reflexivity).
  apply filter_In in Hin. apply existsb_exists. exists r. exact Hin.
Qed.

Lemma known_first_id c v rows :
  existsb (selected c v) rows = true -> exists id, first_id c v rows = Some id.
Proof.
  intros H. unfold first_id.
  destruct (filter (selected c v) rows) as [|r rs] eqn:E; [|eauto].
  apply existsb_exists in H. destruct H as (r & Hin & Hs).
  assert (Hf : In r (filter (selected c v) rows)) by (apply filter_In; auto).
  rewrite E in Hf. destruct Hf.
Qed.

Lemma existsb_selected_app c v rows l :
  existsb (selected c v) rows = true -> existsb (selected c v) (rows ++ l) = true.
Proof. intros H. rewrite existsb_app, H. reflexivity. Qed.

Lemma known_mono c j rows l : known c j rows -> known c j (rows ++ l).
Proof.
  intros (p & v & Hp & Hv & H). exists p, v.
  split; [exact Hp|]. split; [exact Hv|]. apply existsb_selected_app, H.
Qed.

(** [SELECT id FROM t WHERE kc = k] for a string [k]. *)
Lemma select_id_by_key t kc k d :
  has_column (schema_of t) "id" = true ->
  has_column (schema_of t) kc = true ->
  execute_select t ["id"] (Eq kc (Obj (JStr k))) d
  = Ok (map (fun r => [cell r "id"])
            (filter (fun r => sqlval_eqb (cell r kc) (Text k)) (rows_of t d)), d).
Proof.
  intros Hid Hkc. apply (select_id_by_value t kc _ (Text k) d Hid Hkc).
  reflexivity.
Qed.

Lemma execute_insert_keyed t kc vals r k d :
  keyed (schema_of t) kc ->
  check_columns t vals = Ok tt ->
  bind_values vals = Ok r ->
  cell r "id" = Null -> cell r kc = Text k ->
  execute_insert t vals d =
  if has_key kc k (rows_of t d) then Raise IntegrityError
  else Ok (Int (next_rowid "id" (rows_of t d)),
           with_rows t (rows_of t d ++ [make_row (schema_of t) (rows_of t d) r]) d).
Proof.
  intros Hk Hc Hb Hid Hkc. unfold execute_insert. rewrite Hc, Hb. simpl.
  rewrite (keyed_insert _ _ _ _ k Hk Hid Hkc).
  destruct (has_key kc k (rows_of t d)); reflexivity.
Qed.

Lemma execute_insert_or_ignore_keyed t kc vals r k d :
  keyed (schema_of t) kc ->
  check_columns t vals = Ok tt ->
  bind_values vals = Ok r ->
  cell r "id" = Null -> cell r kc = Text k ->
  execute_insert_or_ignore t vals d =
  Ok (tt, if has_key kc k (rows_of t d) then d
          else with_rows t (rows_of t d ++ [make_row (schema_of t) (rows_of t d) r]) d).
Proof.
  intros Hk Hc Hb Hid Hkc. unfold execute_insert_or_ignore. rewrite Hc, Hb. simpl.
  rewrite (keyed_insert_or_ignore _ _ _ _ k Hk Hid Hkc).
  destruct (has_key kc k (rows_of t d)); [rewrite with_rows_same|]; reflexivity.
Qed.

Lemma get_add_business_id_absent d k :
  has_key "business_id_str" k (business d) = false ->
  _get_add_business_id T_business (JStr k) d = Raise (CompileError ["user_id_str"]).
Proof.
  intros H. apply has_key_filter in H.
  unfold _get_add_business_id, bind_conn, lift. simpl natural_key. cbv iota beta.
  rewrite select_id_by_key by reflexivity.
  change (rows_of T_business d) with (business d). rewrite H. reflexivity.
Qed.

Lemma get_add_business_id_present d k :
  has_key "business_id_str" k (business d) = true ->
  exists id, _get_add_business_id T_business (JStr k) d = Ok (id, d).
Proof.
  intros H.
  unfold _get_add_business_id, bind_conn, lift. simpl natural_key. cbv iota beta.
  rewrite select_id_by_key by reflexivity.
  change (rows_of T_business d) with (business d).
  destruct (filter (fun r => sqlval_eqb (cell r "business_id_str") (Text k))
                   (business d)) as [|r rs] eqn:E.
  - apply has_key_filter in E. congruence.
  - simpl. eexists. reflexivity.
Qed.

(** The resolver of businesses on any natural key: the id of the first row
    that the SELECT finds, or the refused INSERT. *)
Lemma get_add_business_id_run j p v d :
  natural_key j = Ok p -> bind p = Ok v ->
  _get_add_business_id T_business j d
  = match first_id "business_id_str" v (business d) with
    | Some id => Ok (id, d)
    | None => Raise (CompileError ["user_id_str"])
    end.
Proof.
  intros Hp Hv. unfold _get_add_business_id, bind_conn, lift. rewrite Hp.
  rewrite (select_id_by_value T_business "business_id_str" p v d) by
    (try reflexivity; exact Hv).
  change (rows_of T_business d) with (business d). unfold first_id.
  destruct (filter (selected "business_id_str" v) (business d)); reflexivity.
Qed.

(** The resolver raises or leaves the database as it is: it never adds a
    business. *)
Lemma get_add_business_id_inv j d id d' :
  _get_add_business_id T_business j d = Ok (id, d') ->
  d' = d /\
  exists p v, natural_key j = Ok p /\ bind p = Ok v /\
              first_id "business_id_str" v (business d) = Some id.
Proof.
  intros H. destruct (natural_key j) as [p|e] eqn:Hp.
  - destruct (natural_key_binds _ _ Hp) as (v & Hv).
    rewrite (get_add_business_id_run _ _ _ _ Hp Hv) in H.
    destruct (first_id "business_id_str" v (business d)) as [id0|] eqn:E;
      [|discriminate H].
    inversion H. subst. split; [reflexivity|]. exists p, v. auto.
  - unfold _get_add_business_id, bind_conn, lift in H. rewrite Hp in H.
    discriminate H.
Qed.

Lemma get_add_business_id_known j d id d' :
  _get_add_business_id T_business j d = Ok (id, d') ->
  d' = d /\ known "business_id_str" j (business d).
Proof.
  intros H. destruct (get_add_business_id_inv _ _ _ _ H) as (-> & p & v & Hp & Hv & Hf).
  split; [reflexivity|]. exists p, v. split; [exact Hp|]. split; [exact Hv|].
  apply (first_id_known _ _ _ _ Hf).
Qed.

Lemma get_add_business_id_again j d :
  known "business_id_str" j (business d) ->
  exists id, _get_add_business_id T_business j d = Ok (id, d).
Proof.
  intros (p & v & Hp & Hv & H).
  destruct (known_first_id _ _ _ H) as (id & Hid). exists id.
  rewrite (get_add_business_id_run _ _ _ _ Hp Hv), Hid. reflexivity.
Qed.

Lemma get_add_user_id_spec d k :
  exists id d',
    _get_add_user_id T_users (JStr k) d = Ok (id, d') /\
    user_id_of k d' = Some id /\
    (if has_key "user_id_str" k (users d) then d' = d
     else d' = with_rows T_users
                 (users d ++ [make_row (schema_of T_users) (users d)
                                       [("user_id_str", Text k)]]) d
          /\ id = Int (next_rowid "id" (users d))).
Proof.
  unfold _get_add_user_id, bind_conn, lift. simpl natural_key. cbv iota beta.
  rewrite select_id_by_key by reflexivity.
  change (rows_of T_users d) with (users d). unfold user_id_of.
  destruct (has_key "user_id_str" k (users d)) eqn:E.
  - destruct (filter (fun r => sqlval_eqb (cell r "user_id_str") (Text k))
                     (users d)) as [|r rs] eqn:F.
    + apply has_key_filter in F. congruence.
    + simpl. exists (cell r "id"), d. rewrite F. auto.
  - pose proof E as F. apply has_key_filter in F. rewrite F. simpl.
    rewrite (execute_insert_keyed T_users "user_id_str" _
               [("user_id_str", Text k)] k d keyed_users) by reflexivity.
    change (rows_of T_users d) with (users d). rewrite E.
    eexists. eexists. split; [reflexivity|].
    split; [|split; reflexivity].
    change (users (with_rows T_users ?x d)) with (rows_of T_users (with_rows T_users x d)).
    rewrite rows_of_with_rows, filter_app, F. simpl.
    rewrite String.eqb_refl. reflexivity.
Qed.

Lemma existsb_agrees_null kc new rows :
  cell new kc = Null -> existsb (agrees [kc] new) rows = false.
Proof.
  intros Hk. induction rows as [|r rows IH]; simpl; [reflexivity|].
  rewrite IH. unfold agrees. simpl. rewrite Hk. reflexivity.
Qed.

Lemma keyed_conflicts_null sch kc rows vals :
  keyed sch kc ->
  cell vals "id" = Null -> cell vals kc = Null ->
  conflicts sch rows (make_row sch rows vals) = false.
Proof.
  intros (Hpk & Hu & Hid & Hkc & Hne) Hvid Hvk. unfold conflicts.
  rewrite Hu. simpl. rewrite orb_false_r.
  assert (H1 : existsb (agrees ["id"] (make_row sch rows vals)) rows = false).
  { apply not_true_is_false. intros H. apply existsb_exists in H.
    destruct H as (r & Hin & Ha). unfold agrees in Ha. simpl in Ha.
    rewrite (cell_make_row _ _ _ _ Hid), Hpk, Hvid in Ha. simpl in Ha.
    rewrite (next_rowid_fresh _ _ _ Hin) in Ha. discriminate. }
  rewrite H1. apply existsb_agrees_null.
  rewrite (cell_make_row _ _ _ _ Hkc), Hpk, Hne, Hvk. reflexivity.
Qed.

Lemma keyed_insert_null sch kc rows vals :
  keyed sch kc ->
  cell vals "id" = Null -> cell vals kc = Null ->
  insert sch rows vals
  = Ok (Int (next_rowid "id" rows), rows ++ [make_row sch rows vals]).
Proof.
  intros Hk Hvid Hvk. unfold insert.
  rewrite (keyed_conflicts_null _ _ _ _ Hk Hvid Hvk).
  destruct Hk as (Hpk & _ & Hid & _).
  rewrite Hpk, (cell_make_row _ _ _ _ Hid), Hpk, Hvid. reflexivity.
Qed.

Lemma keyed_insert_or_ignore_null sch kc rows vals :
  keyed sch kc ->
  cell vals "id" = Null -> cell vals kc = Null ->
  insert_or_ignore sch rows vals = rows ++ [make_row sch rows vals].
Proof.
  intros Hk Hvid Hvk. unfold insert_or_ignore.
  rewrite (keyed_conflicts_null _ _ _ _ Hk Hvid Hvk). reflexivity.
Qed.

Lemma execute_insert_null t kc vals r d :
  keyed (schema_of t) kc ->
  check_columns t vals = Ok tt ->
  bind_values vals = Ok r ->
  cell r "id" = Null -> cell r kc = Null ->
  execute_insert t vals d =
  Ok (Int (next_rowid "id" (rows_of t d)),
      with_rows t (rows_of t d ++ [make_row (schema_of t) (rows_of t d) r]) d).
Proof.
  intros Hk Hc Hb Hid Hkc. unfold execute_insert. rewrite Hc, Hb. simpl.
  rewrite (keyed_insert_null _ _ _ _ Hk Hid Hkc). reflexivity.
Qed.

(** The resolver of users on a key that is [null]: the first user without a
    natural key, or a new one. *)
Lemma get_add_user_id_null d :
  exists id d',
    _get_add_user_id T_users JNull d = Ok (id, d') /\
    first_id "user_id_str" Null (users d') = Some id /\
    (if existsb (selected "user_id_str" Null) (users d) then d' = d
     else d' = with_rows T_users
                 (users d ++ [make_row (schema_of T_users) (users d)
                                       [("user_id_str", Null)]]) d
          /\ id = Int (next_rowid "id" (users d))).
Proof.
  unfold _get_add_user_id, bind_conn, lift. simpl natural_key. cbv iota beta.
  rewrite (select_id_by_value T_users "user_id_str" _ Null d) by reflexivity.
  change (rows_of T_users d) with (users d). unfold first_id.
  destruct (existsb (selected "user_id_str" Null) (users d)) eqn:E.
  - destruct (known_first_id _ _ _ E) as (id & Hid). unfold first_id in Hid.
    destruct (filter (selected "user_id_str" Null) (users d)) as [|r rs] eqn:F;
      [discriminate Hid|].
    simpl. exists (cell r "id"), d. rewrite F. auto.
  - assert (F : filter (selected "user_id_str" Null) (users d) = []).
    { destruct (filter (selected "user_id_str" Null) (users d)) as [|r rs] eqn:F;
        [reflexivity|].
      assert (Hin : In r (filter (selected "user_id_str" Null) (users d)))
        by (rewrite F; left; reflexivity).
      apply filter_In in Hin. destruct Hin as [Hin Hs].
      assert (Hex : existsb (selected "user_id_str" Null) (users d) = true)
        by (apply existsb_exists; eauto).
      congruence. }
    rewrite F. simpl.
    rewrite (execute_insert_null T_users "user_id_str" _
               [("user_id_str", Null)] d keyed_users) by reflexivity.
    change (rows_of T_users d) with (users d).
    eexists. eexists. split; [reflexivity|].
    split; [|split; reflexivity].
    change (users (with_rows T_users ?x d)) with (rows_of T_users (with_rows T_users x d)).
    rewrite rows_of_with_rows, filter_app, F. reflexivity.
Qed.

Lemma user_id_of_has_key k d id :
  user_id_of k d = Some id -> has_key "user_id_str" k (users d) = true.
Proof.
  unfold user_id_of. intros H.
  destruct (has_key "user_id_str" k (users d)) eqn:E; [reflexivity|].
  apply has_key_filter in E. rewrite E in H. discriminate.
Qed.

(** The resolver of users always answers, and answers the same when asked
    again; the second call writes nothing. *)
Lemma get_add_user_id_twice d k :
  exists id d',
    _get_add_user_id T_users (JStr k) d = Ok (id, d') /\
    _get_add_user_id T_users (JStr k) d' = Ok (id, d') /\
    List.length (users d')
    = (List.length (users d)
       + if has_key "user_id_str" k (users d) then 0 else 1)%nat.
Proof.
  destruct (get_add_user_id_spec d k) as (id & d' & H1 & Hid & Hd).
  exists id, d'. split; [exact H1|]. split.
  - destruct (get_add_user_id_spec d' k) as (id2 & d2 & H2 & Hid2 & Hd2).
    rewrite (user_id_of_has_key _ _ _ Hid) in Hd2. subst d2.
    rewrite H2. congruence.
  - destruct (has_key "user_id_str" k (users d)).
    + subst d'. lia.
    + destruct Hd as [-> _].
      change (users (with_rows T_users ?x d))
        with (rows_of T_users (with_rows T_users x d)).
      rewrite rows_of_with_rows, length_app. reflexivity.
Qed.

(** C1.  The resolver of businesses does not create the stub row: for a
    natural key that the business table does not hold, its INSERT names the
    column [user_id_str], which the table lacks, and the statement is
    refused.  A review, a tip, a check-in or a photo referring to such a key
    aborts its loader.  The resolver of users, on the same input, inserts the
    row holding only the natural key and returns its id. *)
Theorem get_add_business_id_unknown_key :
  _get_add_business_id T_business (JStr "b7") empty_database
  = Raise (CompileError ["user_id_str"])
  /\ load_review
       (JObj [("review_id", JStr "r1"); ("user_id", JStr "u9");
              ("business_id", JStr "b7"); ("stars", JInt 5);
              ("date", JStr "2020-01-01"); ("text", JStr "good");
              ("useful", JInt 0); ("funny", JInt 0); ("cool", JInt 0)])
       empty_database
     = Raise (CompileError ["user_id_str"])
  /\ load_tip
       (JObj [("user_id", JStr "u9"); ("business_id", JStr "b7");
              ("text", JStr "try it"); ("date", JStr "2020-01-01");
              ("compliment_count", JInt 0)])
       empty_database
     = Raise (CompileError ["user_id_str"])
  /\ load_checkin
       (JObj [("business_id", JStr "b7"); ("date", JStr "2020-01-01 10:00:00")])
       empty_database
     = Raise (CompileError ["user_id_str"])
  /\ load_photo
       (JObj [("photo_id", JStr "p1"); ("business_id", JStr "b7");
              ("caption", JStr ""); ("label", JStr "food")])
       empty_database
     = Raise (CompileError ["user_id_str"])
  /\ _get_add_user_id T_users (JStr "u9") empty_database
     = Ok (Int 1,
           with_rows T_users
             [make_row (schema_of T_users) [] [("user_id_str", Text "u9")]]
             empty_database).
Proof. repeat split. Qed.

(** C4.  Asked twice for the same natural key, the resolver of users returns
    the same id both times and inserts one row if the key was unknown, none
    otherwise.  The resolver of businesses does not: on an unknown key its
    first call already raises. *)
Theorem resolver_twice :
  (forall d k,
     exists id d',
       _get_add_user_id T_users (JStr k) d = Ok (id, d') /\
       _get_add_user_id T_users (JStr k) d' = Ok (id, d') /\
       List.length (users d')
       = (List.length (users d)
          + if has_key "user_id_str" k (users d) then 0 else 1)%nat)
  /\ _get_add_business_id T_business (JStr "b7") empty_database
     = Raise (CompileError ["user_id_str"]).
Proof.
  split; [exact get_add_user_id_twice | reflexivity].
Qed.

(** ** The orchestrator *)

Lemma discover_business found p :
  kind_of_name (Utils.name p) <> Some BusinessFile ->
  business_file_path (discover found p) = business_file_path found.
Proof.
  unfold kind_of_name, discover. destruct found. simpl.
  destruct (String.eqb (Py.suffix (Utils.name p)) ".json"); [|reflexivity].
  destruct (Py.contains "business" (Utils.name p)); [congruence|].
  repeat match goal with
         | |- context [if ?b then _ else _] => destruct b
         end; reflexivity.
Qed.

Lemma discover_user found p :
  kind_of_name (Utils.name p) <> Some UserFile ->
  user_file_path (discover found p) = user_file_path found.
Proof.
  unfold kind_of_name, discover. destruct found. simpl.
  destruct (String.eqb (Py.suffix (Utils.name p)) ".json"); [|reflexivity].
  destruct (Py.contains "business" (Utils.name p)); [reflexivity|].
  destruct (Py.contains "user" (Utils.name p)); [congruence|].
  repeat match goal with
         | |- context [if ?b then _ else _] => destruct b
         end; reflexivity.
Qed.

Lemma discover_review found p :
  kind_of_name (Utils.name p) <> Some ReviewFile ->
  review_file_path (discover found p) = review_file_path found.
Proof.
  unfold kind_of_name, discover. destruct found. simpl.
  destruct (String.eqb (Py.suffix (Utils.name p)) ".json"); [|reflexivity].
  destruct (Py.contains "business" (Utils.name p)); [reflexivity|].
  destruct (Py.contains "user" (Utils.name p)); [reflexivity|].
  destruct (Py.contains "review" (Utils.name p)); [congruence|].
  repeat match goal with
         | |- context [if ?b then _ else _] => destruct b
         end; reflexivity.
Qed.

Lemma absent_cons k p folder :
  absent k (p :: folder) = true ->
  kind_of_name (Utils.name p) <> Some k /\ absent k folder = true.
Proof.
  unfold absent. simpl. intros H. apply andb_prop in H. destruct H as [H1 H2].
  split; [|exact H2].
  destruct (kind_of_name (Utils.name p)) as [k'|]; [|discriminate].
  intros E. inversion E. subst k'. destruct k; discriminate.
Qed.

Lemma fold_discover_absent (field : discovered -> option Utils.path) k folder :
  (forall found p, kind_of_name (Utils.name p) <> Some k ->
                   field (discover found p) = field found) ->
  absent k folder = true ->
  forall found, field (fold_left discover folder found) = field found.
Proof.
  intros Hstep. induction folder as [|p folder IH]; simpl; intros Ha found.
  - reflexivity.
  - apply absent_cons in Ha. destruct Ha as [Hp Hrest].
    rewrite (IH Hrest). apply Hstep, Hp.
Qed.

(** C7.  When the folder has no Business file, no User file or no Review
    file, [create_full_database] prints the failure message and returns -1;
    no loader runs and the database is left as it was, whatever other files
    the folder holds. *)
Theorem missing_mandatory_file_aborts folder verbose include_photos w :
  absent BusinessFile folder = true \/ absent UserFile folder = true
  \/ absent ReviewFile folder = true ->
  create_full_database folder verbose include_photos w
  = Ok (Some (-1)%Z, {| db := db w; stdout := stdout w ++ [failure_message] |}).
Proof.
  intros H. unfold create_full_database.
  destruct H as [H|[H|H]].
  - rewrite (fold_discover_absent business_file_path _ _ discover_business H).
    reflexivity.
  - rewrite (fold_discover_absent user_file_path _ _ discover_user H).
    destruct (business_file_path _); reflexivity.
  - rewrite (fold_discover_absent review_file_path _ _ discover_review H).
    destruct (business_file_path _); [|reflexivity].
    destruct (user_file_path _); reflexivity.
Qed.

Lemma missing_mandatory_file_aborts_witness :
  create_full_database
    [ {| Utils.name := "business.json"; Utils.lines := [] |};
      {| Utils.name := "tip.json"; Utils.lines := [JObj []] |} ]
    true true {| db := empty_database; stdout := [] |}
  = Ok (Some (-1)%Z, {| db := empty_database; stdout := [failure_message] |}).
Proof.
  apply (missing_mandatory_file_aborts
           [ {| Utils.name := "business.json"; Utils.lines := [] |};
             {| Utils.name := "tip.json"; Utils.lines := [JObj []] |} ]
           true true {| db := empty_database; stdout := [] |}).
  right. left. reflexivity.
Defined.

(** ** Primary rows *)

Lemma bind_not_integrity p : bind p <> Raise IntegrityError.
Proof.
  destruct p as [v|j]; [discriminate|].
  destruct j; simpl; try discriminate.
  destruct (in_int64 z); discriminate.
Qed.

Lemma bind_values_not_integrity vals : bind_values vals <> Raise IntegrityError.
Proof.
  unfold bind_values. induction vals as [|[c p] vals IH]; simpl; [discriminate|].
  destruct (bind p) as [v|e] eqn:E; simpl.
  - destruct (rmap _ vals) as [r|e]; simpl; [discriminate|].
    intros H. apply IH. exact H.
  - intros H. apply (bind_not_integrity p). congruence.
Qed.

Lemma bind_values_keys vals r :
  bind_values vals = Ok r -> map fst r = map fst vals.
Proof.
  unfold bind_values. revert r.
  induction vals as [|[c p] vals IH]; simpl; intros r H.
  - inversion H. reflexivity.
  - inv_result H. simpl. f_equal. apply IH. assumption.
Qed.

Lemma bind_values_head c k vals r :
  bind_values ((c, Obj (JStr k)) :: vals) = Ok r -> cell r c = Text k.
Proof.
  unfold bind_values. simpl. intros H. inv_result H.
  unfold cell. simpl. rewrite String.eqb_refl. reflexivity.
Qed.


Lemma bind_values_head_null c vals r :
  bind_values ((c, Obj JNull) :: vals) = Ok r -> cell r c = Null.
Proof.
  unfold bind_values. simpl. intros H. inv_result H.
  unfold cell. simpl. rewrite String.eqb_refl. reflexivity.
Qed.

Lemma assoc_not_key {V} k (d : list (string * V)) :
  existsb (String.eqb k) (map fst d) = false -> assoc k d = None.
Proof.
  induction d as [|[k' v] d IH]; simpl; [reflexivity|].
  destruct (String.eqb k k'); simpl; [discriminate | exact IH].
Qed.

Lemma cell_not_key k (r : row) :
  existsb (String.eqb k) (map fst r) = false -> cell r k = Null.
Proof. intros H. unfold cell. rewrite (assoc_not_key _ _ H). reflexivity. Qed.

(** What the INSERT of a primary row does, for values that name the natural
    key first and leave the id out. *)
Lemma execute_insert_primary t kc k rest d :
  keyed (schema_of t) kc ->
  check_columns t ((kc, Obj (JStr k)) :: rest) = Ok tt ->
  existsb (String.eqb "id") (map fst ((kc, Obj (JStr k)) :: rest)) = false ->
  match bind_values ((kc, Obj (JStr k)) :: rest) with
  | Ok r =>
      execute_insert t ((kc, Obj (JStr k)) :: rest) d =
      if has_key kc k (rows_of t d) then Raise IntegrityError
      else Ok (Int (next_rowid "id" (rows_of t d)),
               with_rows t (rows_of t d
                            ++ [make_row (schema_of t) (rows_of t d) r]) d)
  | Raise e =>
      execute_insert t ((kc, Obj (JStr k)) :: rest) d = Raise e
      /\ e <> IntegrityError
  end.
Proof.
  intros Hk Hc Hid.
  destruct (bind_values ((kc, Obj (JStr k)) :: rest)) as [r|e] eqn:Hb.
  - apply (execute_insert_keyed _ _ _ _ _ _ Hk Hc Hb).
    + apply cell_not_key. rewrite (bind_values_keys _ _ Hb). exact Hid.
    + apply (bind_values_head _ _ _ _ Hb).
  - split.
    + unfold execute_insert. rewrite Hc, Hb. reflexivity.
    + intros ->. apply (bind_values_not_integrity _ Hb).
Qed.

Lemma rmap_fields_keys (user : json) cols fields :
  rmap (fun c => let? v := getitem user c in Ok (c, Obj v)) cols = Ok fields ->
  map fst fields = cols.
Proof.
  revert fields. induction cols as [|c cols IH]; simpl; intros fields H.
  - inversion H. reflexivity.
  - inv_result H. simpl. f_equal. apply IH. assumption.
Qed.

Ltac inv_str_strip :=
  repeat match goal with
         | H : str_strip ?j = Ok _ |- _ =>
             destruct j; try discriminate H; simpl in H; inversion H; subst; clear H
         end.

Lemma users_statement_inv user vals :
  users_statement user = Ok vals ->
  exists j p rest,
    getitem user "user_id" = Ok j /\ natural_key j = Ok p /\
    vals = ("user_id_str", p) :: rest /\
    check_columns T_users vals = Ok tt /\
    existsb (String.eqb "id") (map fst vals) = false.
Proof.
  unfold users_statement. intros H. inv_result H.
  match goal with
  | H : rmap _ user_columns = Ok ?f |- _ =>
      pose proof (rmap_fields_keys _ _ _ H) as Hkeys
  end.
  eexists. eexists. eexists. split; [eassumption|]. split; [eassumption|].
  split; [reflexivity|].
  unfold check_columns, unconsumed. simpl map.
  rewrite Hkeys. split; reflexivity.
Qed.

(** The same for a record whose key is the string [k]. *)
Lemma users_statement_str user vals k :
  users_statement user = Ok vals ->
  getitem user "user_id" = Ok (JStr k) ->
  exists rest,
    vals = ("user_id_str", Obj (JStr k)) :: rest /\
    check_columns T_users vals = Ok tt /\
    existsb (String.eqb "id") (map fst vals) = false.
Proof.
  intros Hs Hj.
  destruct (users_statement_inv _ _ Hs) as (j' & p & rest & Hj' & Hp & -> & Hc & Hid).
  rewrite Hj in Hj'. inversion Hj'. subst j'. simpl in Hp. inversion Hp. subst p.
  exists rest. auto.
Qed.

Lemma business_statement_inv business vals :
  business_statement business = Ok vals ->
  exists k rest,
    getitem business "business_id" = Ok (JStr k) /\
    vals = ("business_id_str", Obj (JStr (Py.strip k))) :: rest /\
    check_columns T_business vals = Ok tt /\
    existsb (String.eqb "id") (map fst vals) = false.
Proof.
  unfold business_statement. intros H. inv_result H. inv_str_strip.
  match goal with
  | H : getitem business "business_id" = Ok (JStr ?k) |- _ => exists k
  end.
  eexists. split; [assumption|]. split; [reflexivity|].
  split; reflexivity.
Qed.

Lemma load_business_skip day_id_dict business vals d :
  business_statement business = Ok vals ->
  execute_insert T_business vals d = Raise IntegrityError ->
  load_business day_id_dict business d = Ok (tt, d).
Proof.
  intros Hs Hi. unfold load_business.
  rewrite (bind_conn_ok _ _ _ _ _ (lift_ok _ d _ Hs)).
  unfold bind_conn at 1, except_IntegrityError. rewrite Hi. reflexivity.
Qed.

Lemma load_user_skip user vals d :
  users_statement user = Ok vals ->
  execute_insert T_users vals d = Raise IntegrityError ->
  load_user user d = Ok (tt, d).
Proof.
  intros Hs Hi. unfold load_user.
  rewrite (bind_conn_ok _ _ _ _ _ (lift_ok _ d _ Hs)).
  unfold bind_conn at 1, except_IntegrityError. rewrite Hi. reflexivity.
Qed.

Lemma for_each_skip {A} (body : A -> conn unit) x xs d :
  body x d = Ok (tt, d) -> for_each body (x :: xs) d = for_each body xs d.
Proof. intros H. simpl. unfold bind_conn. rewrite H. reflexivity. Qed.

Lemma business_duplicate record vals k r d :
  business_statement record = Ok vals ->
  getitem record "business_id" = Ok (JStr k) ->
  bind_values vals = Ok r ->
  has_key "business_id_str" (Py.strip k) (business d) = true ->
  execute_insert T_business vals d = Raise IntegrityError.
Proof.
  intros Hs Hk Hb Hd.
  destruct (business_statement_inv _ _ Hs) as (k' & rest & Hk' & -> & Hc & Hid).
  rewrite Hk in Hk'. inversion Hk'. subst k'.
  pose proof (execute_insert_primary T_business _ _ rest d keyed_business Hc Hid) as H.
  rewrite Hb in H. change (rows_of T_business d) with (business d) in H.
  rewrite Hd in H. exact H.
Qed.

Lemma user_duplicate user vals k r d :
  users_statement user = Ok vals ->
  getitem user "user_id" = Ok (JStr k) ->
  bind_values vals = Ok r ->
  has_key "user_id_str" k (users d) = true ->
  execute_insert T_users vals d = Raise IntegrityError.
Proof.
  intros Hs Hk Hb Hd.
  destruct (users_statement_str _ _ _ Hs Hk) as (rest & -> & Hc & Hid).
  pose proof (execute_insert_primary T_users _ _ rest d keyed_users Hc Hid) as H.
  rewrite Hb in H. change (rows_of T_users d) with (users d) in H.
  rewrite Hd in H. exact H.
Qed.

(** C8.  A business or user record whose natural key is already in its
    table: the INSERT of the primary row raises [IntegrityError], the record
    is left without any write (the database is the same afterwards: no
    category, attribute, hours or elite row, no update of the existing row)
    and the loop goes on with the next record. *)
Theorem duplicate_record_skipped (is_user : bool) day_id_dict record rest vals k r d :
  (if is_user then users_statement record else business_statement record) = Ok vals ->
  getitem record (if is_user then "user_id" else "business_id") = Ok (JStr k) ->
  bind_values vals = Ok r ->
  (if is_user then has_key "user_id_str" k (users d)
   else has_key "business_id_str" (Py.strip k) (business d)) = true ->
  let body := if is_user then load_user else load_business day_id_dict in
  execute_insert (if is_user then T_users else T_business) vals d
  = Raise IntegrityError
  /\ body record d = Ok (tt, d)
  /\ for_each body (record :: rest) d = for_each body rest d.
Proof.
  destruct is_user; intros Hs Hk Hb Hd body; subst body.
  - pose proof (user_duplicate _ _ _ _ _ Hs Hk Hb Hd) as Hi.
    pose proof (load_user_skip _ _ _ Hs Hi) as Hskip.
    split; [exact Hi|]. split; [exact Hskip|]. apply for_each_skip, Hskip.
  - pose proof (business_duplicate _ _ _ _ _ Hs Hk Hb Hd) as Hi.
    pose proof (load_business_skip day_id_dict _ _ _ Hs Hi) as Hskip.
    split; [exact Hi|]. split; [exact Hskip|]. apply for_each_skip, Hskip.
Qed.

Lemma duplicate_record_skipped_witness :
  load_business [] (sample_business " b1 ") (one_business "b1")
  = Ok (tt, one_business "b1")
  /\ load_user (sample_user "u1" "" "") (some_users ["u1"])
     = Ok (tt, some_users ["u1"]).
Proof.
  split.
  - refine (proj1 (proj2 (duplicate_record_skipped false []
                            (sample_business " b1 ") [] _ " b1 " _
                            (one_business "b1") _ _ _ _))); reflexivity.
  - refine (proj1 (proj2 (duplicate_record_skipped true []
                            (sample_user "u1" "" "") [] _ "u1" _
                            (some_users ["u1"]) _ _ _ _))); reflexivity.
Defined.

(** ** Elite years *)

Lemma load_user_inv user d d' k :
  getitem user "user_id" = Ok (JStr k) ->
  load_user user d = Ok (tt, d') ->
  exists rest,
    users_statement user = Ok (("user_id_str", Obj (JStr k)) :: rest) /\
    ((has_key "user_id_str" k (users d) = true /\ d' = d)
     \/ (has_key "user_id_str" k (users d) = false /\
         exists r,
           bind_values (("user_id_str", Obj (JStr k)) :: rest) = Ok r /\
           load_elite user (Int (next_rowid "id" (users d)))
             (with_rows T_users
                (users d ++ [make_row (schema_of T_users) (users d) r]) d)
           = Ok (tt, d'))).
Proof.
  unfold load_user. intros Hk H. inv_conn H.
  match goal with
  | Hs : users_statement user = Ok _ |- _ =>
      destruct (users_statement_str _ _ _ Hs Hk) as (rest & -> & Hc & Hid);
      exists rest; split; [exact Hs|]
  end.
  pose proof (execute_insert_primary T_users _ _ rest d keyed_users Hc Hid) as Hins.
  change (rows_of T_users d) with (users d) in Hins.
  match goal with
  | Hx : except_IntegrityError _ _ = Ok _ |- _ =>
      apply except_inv in Hx; destruct Hx as [(-> & -> & Hi)|(id & -> & Hi)]
  end.
  - match goal with Hr : ret tt _ = Ok _ |- _ => inv_conn Hr end.
    left. split; [|reflexivity].
    destruct (bind_values _) as [r|e].
    + rewrite Hins in Hi. destruct (has_key _ _ _); [reflexivity | discriminate].
    + destruct Hins as [Hr Hne]. rewrite Hr in Hi. inversion Hi. contradiction.
  - right. destruct (bind_values _) as [r|e].
    + rewrite Hins in Hi. destruct (has_key _ _ _); [discriminate|].
      inversion Hi. subst. split; [reflexivity|]. exists r. auto.
    + destruct Hins as [Hr _]. rewrite Hr in Hi. discriminate.
Qed.

Lemma elite_rows_bound uid years rs :
  rmap bind_values
    (map (fun year => [("user_id", Fetched uid); ("year", Obj (JInt year))]) years)
  = Ok rs ->
  rs = elite_rows uid years.
Proof.
  revert rs. induction years as [|y years IH]; simpl; intros rs H.
  - inversion H. reflexivity.
  - unfold bind_values at 1 in H. simpl in H.
    destruct (in_int64 y); [|discriminate H]. simpl in H.
    destruct (rmap bind_values _) as [rs'|] eqn:E; [|discriminate H].
    simpl in H. inversion H. rewrite (IH rs' eq_refl). reflexivity.
Qed.

Lemma insert_many_elite uid years :
  forall rows,
    insert_many (schema_of T_elite) rows (elite_rows uid years)
    = Ok (rows ++ elite_rows uid years).
Proof.
  induction years as [|y years IH]; intros rows.
  - simpl. rewrite app_nil_r. reflexivity.
  - cbn [elite_rows map insert_many]. fold (elite_rows uid years).
    change (insert (schema_of T_elite) rows [("user_id", uid); ("year", Int y)])
      with (Ok (Null, rows ++ [[("user_id", uid); ("year", Int y)]])).
    cbn [rbind snd]. rewrite IH, <- app_assoc. reflexivity.
Qed.

Lemma load_elite_rows user uid s d d' :
  getitem user "elite" = Ok (JStr s) -> s <> EmptyString ->
  load_elite user uid d = Ok (tt, d') ->
  exists years,
    fix_split_elite (JStr s) = Ok years /\
    elite d' = elite d ++ elite_rows uid years.
Proof.
  intros He Hne H. unfold load_elite in H.
  rewrite (bind_conn_ok _ _ _ _ _ (lift_ok _ d _ He)) in H.
  destruct s as [|c s]; [contradiction|]. cbv beta iota in H.
  inv_conn H. rename a into years.
  exists years. split; [exact E|].
  destruct years as [|y ys].
  - inv_conn H1. symmetry. apply app_nil_r.
  - cbv iota in H1. unfold execute_insert_many in H1.
    change (map ?f (y :: ys)) with (f y :: map f ys) in H1 at 1.
    cbv iota in H1.
    change (?f y :: map ?f ys) with (map f (y :: ys)) in H1.
    inv_result H1.
    match goal with
    | Hb : rmap bind_values _ = Ok _ |- _ =>
        apply elite_rows_bound in Hb; subst
    end.
    match goal with
    | Hi : insert_many _ _ _ = Ok _ |- _ =>
        rewrite insert_many_elite in Hi; inversion Hi; subst; clear Hi
    end.
    apply (rows_of_with_rows T_elite).
Qed.

Lemma load_user_elite user d d' k s :
  getitem user "user_id" = Ok (JStr k) ->
  getitem user "elite" = Ok (JStr s) -> s <> EmptyString ->
  has_key "user_id_str" k (users d) = false ->
  load_user user d = Ok (tt, d') ->
  exists years,
    fix_split_elite (JStr s) = Ok years /\
    elite d' = elite d ++ elite_rows (Int (next_rowid "id" (users d))) years.
Proof.
  intros Hk He Hne Hfresh H.
  destruct (load_user_inv _ _ _ _ Hk H) as (rest & _ & Hcase).
  destruct Hcase as [[Hdup _]|(_ & r & _ & Hl)]; [congruence|].
  destruct (load_elite_rows _ _ _ _ _ He Hne Hl) as (years & Hy & Hrows).
  exists years. split; [exact Hy|]. rewrite Hrows. f_equal.
  apply (rows_of_with_rows_other T_users T_elite). discriminate.
Qed.

(** C9.  [fix_split_elite] replaces the occurrences of ["20,20"] by ["2020"],
    leftmost first and without overlap, before it splits on commas: a string
    without the pattern is left as it is, the first occurrence is replaced and
    the scan resumes behind it; ["2019,20,20"] gives the years 2019 and 2020.
    A new user whose elite field is a non-empty string gets one elite row per
    year of the repaired string, so exactly the rows 2019 and 2020 for
    ["2019,20,20"]. *)
Theorem elite_2020_repaired :
  (forall s, fix_split_elite (JStr s)
             = rmap (fun year => Py.int (Py.strip year))
                    (Py.split "," (Py.re_sub "20,20" "2020" s)))
  /\ (forall s, Py.contains "20,20" s = false -> Py.re_sub "20,20" "2020" s = s)
  /\ (forall a b,
        starts_before "20,20" a ("20,20" ++ b) = false ->
        Py.re_sub "20,20" "2020" (a ++ "20,20" ++ b)%string
        = (a ++ "2020" ++ Py.re_sub "20,20" "2020" b)%string)
  /\ fix_split_elite (JStr "2019,20,20") = Ok [2019%Z; 2020%Z]
  /\ (forall user d d' k s,
        getitem user "user_id" = Ok (JStr k) ->
        getitem user "elite" = Ok (JStr s) -> s <> EmptyString ->
        has_key "user_id_str" k (users d) = false ->
        load_user user d = Ok (tt, d') ->
        exists years,
          fix_split_elite (JStr s) = Ok years /\
          elite d' = elite d ++ elite_rows (Int (next_rowid "id" (users d))) years).
Proof.
  split; [reflexivity|].
  split; [intros s; apply re_sub_none|].
  split; [intros a b; apply re_sub_first; discriminate|].
  split; [reflexivity|].
  exact load_user_elite.
Qed.

Lemma elite_2020_repaired_witness :
  Py.re_sub "20,20" "2020" "2019,20,20" = "2019,2020"
  /\ exists d',
       load_user (sample_user "u1" "" "2019,20,20") empty_database = Ok (tt, d')
       /\ elite d' = [[("user_id", Int 1); ("year", Int 2019)];
                      [("user_id", Int 1); ("year", Int 2020)]].
Proof.
  split.
  - apply (proj1 (proj2 (proj2 elite_2020_repaired)) "2019," ""). reflexivity.
  - eexists. split; [vm_compute; reflexivity|].
    match goal with
    | |- elite ?d' = _ =>
        assert (Hrun : load_user (sample_user "u1" "" "2019,20,20") empty_database
                       = Ok (tt, d')) by (vm_compute; reflexivity)
    end.
    destruct (proj2 (proj2 (proj2 (proj2 elite_2020_repaired)))
                (sample_user "u1" "" "2019,20,20") empty_database _ "u1"
                "2019,20,20" eq_refl eq_refl ltac:(discriminate) eq_refl Hrun)
      as (years & Hy & Hrows).
    vm_compute in Hy. inversion Hy. subst years. exact Hrows.
Defined.

(** ** The friend-graph linker *)

Lemma cell_dict_set c v (r : row) c' :
  cell (dict_set c v r) c' = if String.eqb c' c then v else cell r c'.
Proof.
  unfold cell. rewrite assoc_dict_set. destruct (String.eqb c' c); reflexivity.
Qed.

Lemma rmap_bind_pstr keys : rmap bind (map pstr keys) = Ok (map Text keys).
Proof.
  induction keys as [|k keys IH]; simpl; [reflexivity|].
  rewrite IH. reflexivity.
Qed.

Lemma filter_not_null_text keys :
  filter (fun v => negb (is_null v)) (map Text keys) = map Text keys.
Proof.
  induction keys as [|k keys IH]; simpl; [reflexivity|]. rewrite IH. reflexivity.
Qed.

Lemma existsb_map_text v keys :
  existsb (sqlval_eqb v) (map Text keys)
  = existsb (fun k => sqlval_eqb v (Text k)) keys.
Proof.
  induction keys as [|k keys IH]; simpl; [reflexivity|]. rewrite IH. reflexivity.
Qed.

Lemma matches_texts keys r :
  matches "user_id_str" (map Text keys) false r = resolves keys r.
Proof.
  unfold matches, resolves.
  destruct (cell r "user_id_str") eqn:E; try apply existsb_map_text.
  induction keys; simpl; auto.
Qed.

Lemma select_friend_ids keys d :
  execute_select T_users ["id"] (In_ "user_id_str" (map pstr keys)) d
  = Ok (map (fun r => [cell r "id"])
            (index_order "user_id_str" (filter (resolves keys) (users d))), d).
Proof.
  unfold execute_select, compile_where. rewrite rmap_bind_pstr.
  rewrite (filter_ext _ _ (matches_texts keys)) || idtac.
  change (column T_users "user_id_str") with (Ok (A:=string) "user_id_str").
  change (rmap (column T_users) ["id"]) with (Ok (A:=list string) ["id"]).
  unfold rbind. rewrite filter_not_null_text.
  rewrite (filter_ext _ _ (matches_texts keys)). reflexivity.
Qed.

Lemma update_friend_count uid n d :
  execute_update T_users (Eq "id" (Fetched uid)) [("friend_count", Obj (JInt n))] d
  = if in_int64 n
    then Ok (tt, with_rows T_users
                   (update (users d) (has_id uid) [("friend_count", Int n)]) d)
    else Raise OverflowError.
Proof.
  unfold execute_update, has_id, bind_values. simpl.
  destruct (in_int64 n); reflexivity.
Qed.

Lemma friendship_rows uid (rows : list row) :
  rmap (fun friend : list sqlval =>
          let? u := Ok uid in
          let? fid := index friend 0 in
          Ok [("user1_id", Fetched u); ("user2_id", Fetched fid)])
       (map (fun r => [cell r "id"]) rows)
  = Ok (map (fun r => [("user1_id", Fetched uid); ("user2_id", Fetched (cell r "id"))])
            rows).
Proof.
  induction rows as [|r rows IH]; simpl; [reflexivity|].
  simpl in IH. rewrite IH. reflexivity.
Qed.

Lemma bind_friendships uid (rows : list row) :
  rmap bind_values
    (map (fun r => [("user1_id", Fetched uid); ("user2_id", Fetched (cell r "id"))])
         rows)
  = Ok (map (fun r => friendship uid (cell r "id")) rows).
Proof.
  induction rows as [|r rows IH]; simpl; [reflexivity|].
  rewrite IH. reflexivity.
Qed.

Lemma check_friendships uid (rows : list row) :
  exists us,
    rmap (check_columns T_friends)
      (map (fun r => [("user1_id", Fetched uid); ("user2_id", Fetched (cell r "id"))])
           rows) = Ok us.
Proof.
  induction rows as [|r rows [us IH]]; simpl; [eauto|].
  rewrite IH. simpl. eauto.
Qed.

Lemma insert_friendships uid (rows : list row) d :
  rows <> [] ->
  execute_insert_many T_friends true
    (map (fun r => [("user1_id", Fetched uid); ("user2_id", Fetched (cell r "id"))])
         rows) d
  = Ok (tt, with_rows T_friends
              (insert_many_or_ignore (schema_of T_friends) (friends d)
                 (map (fun r => friendship uid (cell r "id")) rows)) d).
Proof.
  intros Hne. unfold execute_insert_many.
  destruct (check_friendships uid rows) as (us & Hus). rewrite Hus.
  rewrite bind_friendships.
  destruct rows as [|r rows]; [contradiction|]. reflexivity.
Qed.

(** The closed form of one iteration of [_connect_users]. *)
Lemma connect_user_inv_value user d d' j p v fs :
  getitem user "user_id" = Ok j -> natural_key j = Ok p -> bind p = Ok v ->
  getitem user "friends" = Ok (JStr fs) ->
  connect_user user d = Ok (tt, d') ->
  exists uid,
    first_id "user_id_str" v (users d) = Some uid /\
    let keys := map Py.strip (Py.split ", " fs) in
    let d1 := with_rows T_users
                (update (users d) (has_id uid)
                   [("friend_count", Int (Z.of_nat (List.length (Py.split ", " fs))))])
                d in
    d' = with_rows T_friends
           (insert_many_or_ignore (schema_of T_friends) (friends d)
              (map (fun r => friendship uid (cell r "id"))
                   (index_order "user_id_str" (filter (resolves keys) (users d1)))))
           d1.
Proof.
  intros Hj Hp Hv Hf H. unfold connect_user in H. inv_conn H.
  rewrite Hj in E. simpl in E. rewrite Hp in E. inversion E. subst a. clear E.
  rewrite (select_id_by_value T_users "user_id_str" p v) in H
    by (try reflexivity; exact Hv).
  inversion H. subst a0 d0. clear H.
  rewrite Hf in E0. simpl in E0. inversion E0. subst a1. clear E0.
  change (rows_of T_users d) with (users d) in *.
  unfold first_id.
  destruct (filter (selected "user_id_str" v) (users d))
    as [|r0 rs] eqn:F; [discriminate E1|].
  simpl in E1. inversion E1. subst a2.
  exists (cell r0 "id"). split; [reflexivity|].
  rewrite length_map, update_friend_count in H0.
  destruct (in_int64 _); [|discriminate H0].
  inversion H0. subst d1. clear H0.
  rewrite select_friend_ids in H1. inversion H1. subst a4 d2. clear H1.
  cbv zeta.
  set (d1 := with_rows T_users _ d) in *.
  assert (Hfd : friends d1 = friends d)
    by (apply (rows_of_with_rows_other T_users T_friends); discriminate).
  destruct (index_order "user_id_str"
              (filter (resolves (map Py.strip (Py.split ", " fs))) (users d1)))
    as [|f1 fr] eqn:G.
  - simpl in H3. inversion H3. simpl. rewrite <- Hfd.
    symmetry. apply (with_rows_same T_friends).
  - rewrite <- G in H3. 
    assert (Hne : index_order "user_id_str"
                    (filter (resolves (map Py.strip (Py.split ", " fs))) (users d1))
                  <> [])
      by (rewrite G; discriminate).
    assert (H3' : bind_conn
                    (lift (rmap
                       (fun friend : list sqlval =>
                        let? uid := Ok (cell r0 "id") in
                        let? fid := index friend 0 in
                        Ok [("user1_id", Fetched uid); ("user2_id", Fetched fid)])
                       (map (fun r => [cell r "id"])
                            (index_order "user_id_str"
                               (filter (resolves (map Py.strip (Py.split ", " fs)))
                                       (users d1))))))
                    (fun pairs => execute_insert_many T_friends true pairs) d1
                  = Ok (tt, d')).
    { rewrite G in H3 |- *. exact H3. }
    clear H3. rewrite friendship_rows in H3'.
    rewrite (bind_conn_ok _ _ _ _ _ (lift_ok _ d1 _ eq_refl)) in H3'.
    rewrite (insert_friendships _ _ _ Hne) in H3'.
    inversion H3'. rewrite Hfd, G. reflexivity.
Qed.

Lemma connect_user_inv user d d' k fs :
  getitem user "user_id" = Ok (JStr k) ->
  getitem user "friends" = Ok (JStr fs) ->
  connect_user user d = Ok (tt, d') ->
  exists uid,
    user_id_of k d = Some uid /\
    let keys := map Py.strip (Py.split ", " fs) in
    let d1 := with_rows T_users
                (update (users d) (has_id uid)
                   [("friend_count", Int (Z.of_nat (List.length (Py.split ", " fs))))])
                d in
    d' = with_rows T_friends
           (insert_many_or_ignore (schema_of T_friends) (friends d)
              (map (fun r => friendship uid (cell r "id"))
                   (index_order "user_id_str" (filter (resolves keys) (users d1)))))
           d1.
Proof.
  intros Hk Hf H.
  exact (connect_user_inv_value user d d' (JStr k) _ (Text k) fs Hk eq_refl eq_refl Hf H).
Qed.

Lemma filter_map_commute {A} (p : A -> bool) (f : A -> A) l :
  (forall x, p (f x) = p x) -> filter p (map f l) = map f (filter p l).
Proof.
  intros H. induction l as [|x l IH]; simpl; [reflexivity|].
  rewrite H. destruct (p x); simpl; rewrite IH; reflexivity.
Qed.

(** Setting [friend_count] changes no other column. *)
Lemma cell_set_friend_count (sel : row -> bool) v r c :
  String.eqb c "friend_count" = false ->
  cell (if sel r then set_cells [("friend_count", v)] r else r) c = cell r c.
Proof.
  intros H. destruct (sel r); [|reflexivity]. simpl.
  rewrite cell_dict_set, H. reflexivity.
Qed.

Lemma update_friend_count_column (sel : row -> bool) v rows c :
  String.eqb c "friend_count" = false ->
  map (fun r => cell r c) (update rows sel [("friend_count", v)])
  = map (fun r => cell r c) rows.
Proof.
  intros H. unfold update. rewrite map_map. apply map_ext.
  intros r. apply cell_set_friend_count, H.
Qed.

Lemma update_friend_count_filter (p sel : row -> bool) v rows :
  (forall r, p (if sel r then set_cells [("friend_count", v)] r else r) = p r) ->
  filter p (update rows sel [("friend_count", v)])
  = update (filter p rows) sel [("friend_count", v)].
Proof. intros H. unfold update. apply filter_map_commute, H. Qed.

Lemma resolves_set_friend_count keys (sel : row -> bool) v r :
  resolves keys (if sel r then set_cells [("friend_count", v)] r else r)
  = resolves keys r.
Proof.
  unfold resolves. rewrite cell_set_friend_count by reflexivity. reflexivity.
Qed.

Lemma has_id_own r : has_id (cell r "id") r = true.
Proof.
  unfold has_id, matches. destruct (cell r "id") eqn:E; simpl; rewrite ?E; simpl;
    rewrite ?Z.eqb_refl, ?String.eqb_refl; reflexivity.
Qed.

(** *** Junction rows *)

Lemma insert_friendship rows u f :
  insert_or_ignore (schema_of T_friends) rows (friendship u f)
  = if negb (is_null u) && negb (is_null f)
       && existsb (is_friendship u f) rows
    then rows else rows ++ [friendship u f].
Proof.
  unfold insert_or_ignore, conflicts.
  change (make_row (schema_of T_friends) rows (friendship u f)) with (friendship u f).
  change (uniques (schema_of T_friends)) with [["user1_id"; "user2_id"]].
  cbn [existsb]. rewrite orb_false_r.
  assert (He : existsb (agrees ["user1_id"; "user2_id"] (friendship u f)) rows
               = negb (is_null u) && negb (is_null f)
                 && existsb (is_friendship u f) rows).
  { induction rows as [|r rows IH]; simpl existsb.
    - rewrite andb_false_r. reflexivity.
    - rewrite IH. unfold agrees, is_friendship. cbn [forallb].
      change (cell (friendship u f) "user1_id") with u.
      change (cell (friendship u f) "user2_id") with f.
      destruct (is_null u), (is_null f), (sqlval_eqb (cell r "user1_id") u),
        (sqlval_eqb (cell r "user2_id") f), (existsb (is_friendship u f) rows);
        reflexivity. }
  rewrite He. reflexivity.
Qed.

Lemma count_pair_app u f rows l :
  count_pair u f (rows ++ l) = (count_pair u f rows + count_pair u f l)%nat.
Proof. unfold count_pair. rewrite filter_app, length_app. reflexivity. Qed.

Lemma count_pair_zero u f rows :
  existsb (is_friendship u f) rows = false <-> count_pair u f rows = 0%nat.
Proof.
  unfold count_pair. induction rows as [|r rows IH]; simpl; [tauto|].
  destruct (is_friendship u f r); simpl.
  - split; discriminate.
  - exact IH.
Qed.

Lemma is_friendship_own u f a b :
  is_friendship u f (friendship a b) = sqlval_eqb a u && sqlval_eqb b f.
Proof. reflexivity. Qed.

(** Writing one junction row keeps a pair that is there once, there once. *)
Lemma insert_friendship_count u f a b rows :
  is_null u = false -> is_null f = false ->
  (count_pair u f rows <= 1)%nat ->
  count_pair u f (insert_or_ignore (schema_of T_friends) rows (friendship a b))
  = if sqlval_eqb a u && sqlval_eqb b f then 1%nat else count_pair u f rows.
Proof.
  intros Hu Hf Hle. rewrite insert_friendship.
  destruct (sqlval_eqb a u && sqlval_eqb b f) eqn:E.
  - apply andb_prop in E. destruct E as [Ea Eb].
    apply sqlval_eqb_eq in Ea. apply sqlval_eqb_eq in Eb. subst a b.
    rewrite Hu, Hf. simpl.
    destruct (existsb (is_friendship u f) rows) eqn:Ex.
    + destruct (count_pair u f rows) as [|[|n]] eqn:C; [|reflexivity|lia].
      apply count_pair_zero in C. congruence.
    + apply count_pair_zero in Ex. rewrite count_pair_app, Ex.
      unfold count_pair. cbn [filter].
      rewrite is_friendship_own, !sqlval_eqb_refl. reflexivity.
  - destruct (negb (is_null a) && negb (is_null b)
              && existsb (is_friendship a b) rows); [reflexivity|].
    rewrite count_pair_app. unfold count_pair at 2. cbn [filter].
    rewrite is_friendship_own, E. simpl. lia.
Qed.

Lemma insert_friendships_count u f a (us : list row) :
  is_null u = false -> is_null f = false ->
  forall rows,
    (count_pair u f rows <= 1)%nat ->
    let rows' := insert_many_or_ignore (schema_of T_friends) rows
                   (map (fun r => friendship a (cell r "id")) us) in
    (count_pair u f rows' <= 1)%nat /\
    (a = u -> (exists r, In r us /\ cell r "id" = f) -> count_pair u f rows' = 1%nat).
Proof.
  intros Hu Hf. induction us as [|r us IH]; cbn [map insert_many_or_ignore]; intros rows Hle.
  - split; [exact Hle|]. intros _ (r & [] & _).
  - pose proof (insert_friendship_count u f a (cell r "id") rows Hu Hf Hle) as Hc.
    assert (Hle' : (count_pair u f
                      (insert_or_ignore (schema_of T_friends) rows
                         (friendship a (cell r "id"))) <= 1)%nat).
    { rewrite Hc. destruct (_ && _); lia. }
    destruct (IH _ Hle') as [Hb Hone]. split; [exact Hb|].
    intros Ha (r' & [->|Hin] & Hid).
    + subst a. rewrite Hid in *. rewrite !sqlval_eqb_refl in Hc. simpl in Hc.
      clear Hone.
      (* the pair is there once after this row, and stays *)
      assert (Hstay : forall us' rows0,
                 count_pair u f rows0 = 1%nat ->
                 count_pair u f
                   (insert_many_or_ignore (schema_of T_friends) rows0
                      (map (fun r => friendship u (cell r "id")) us')) = 1%nat).
      { induction us' as [|r1 us' IH']; cbn [map insert_many_or_ignore];
          intros rows0 H1; [exact H1|].
        apply IH'.
        rewrite (insert_friendship_count u f u (cell r1 "id") rows0 Hu Hf) by lia.
        destruct (_ && _); [reflexivity | exact H1]. }
      apply Hstay. exact Hc.
    + apply Hone; [exact Ha | eauto].
Qed.

Lemma insert_friendships_new a (us : list row) :
  forall rows,
  exists new,
    insert_many_or_ignore (schema_of T_friends) rows
      (map (fun r => friendship a (cell r "id")) us) = rows ++ new
    /\ forall x, In x new -> exists r, In r us /\ x = friendship a (cell r "id").
Proof.
  induction us as [|r us IH]; cbn [map insert_many_or_ignore]; intros rows.
  - exists []. rewrite app_nil_r. split; [reflexivity | intros x []].
  - rewrite insert_friendship.
    destruct (negb (is_null a) && negb (is_null (cell r "id"))
              && existsb (is_friendship a (cell r "id")) rows).
    + destruct (IH rows) as (new & Hn & Hin). exists new. split; [exact Hn|].
      intros x Hx. destruct (Hin x Hx) as (r' & Hr & ->).
      exists r'. split; [right; exact Hr | reflexivity].
    + destruct (IH (rows ++ [friendship a (cell r "id")])) as (new & Hn & Hin).
      exists (friendship a (cell r "id") :: new). split.
      * rewrite Hn, <- app_assoc. reflexivity.
      * intros x [<-|Hx].
        -- exists r. split; [left; reflexivity | reflexivity].
        -- destruct (Hin x Hx) as (r' & Hr & ->).
           exists r'. split; [right; exact Hr | reflexivity].
Qed.

Lemma friendship_of_updated uid (sel : row -> bool) v rows :
  map (fun r => friendship uid (cell r "id")) (update rows sel [("friend_count", v)])
  = map (fun r => friendship uid (cell r "id")) rows.
Proof.
  unfold update. rewrite map_map. apply map_ext. intros r.
  rewrite cell_set_friend_count by reflexivity. reflexivity.
Qed.

(** What one iteration of [_connect_users] leaves in [users] and
    [friends]. *)
Lemma connect_user_tables_value user d d' j p v fs :
  getitem user "user_id" = Ok j -> natural_key j = Ok p -> bind p = Ok v ->
  getitem user "friends" = Ok (JStr fs) ->
  connect_user user d = Ok (tt, d') ->
  exists uid,
    first_id "user_id_str" v (users d) = Some uid /\
    users d' = update (users d) (has_id uid)
                 [("friend_count", Int (Z.of_nat (List.length (Py.split ", " fs))))] /\
    friends d' = insert_many_or_ignore (schema_of T_friends) (friends d)
                   (map (fun r => friendship uid (cell r "id"))
                        (index_order "user_id_str"
                           (filter (resolves (map Py.strip (Py.split ", " fs)))
                                   (users d)))).
Proof.
  intros Hj Hp Hv Hf H.
  destruct (connect_user_inv_value _ _ _ _ _ _ _ Hj Hp Hv Hf H) as (uid & Hu & Hd).
  cbv zeta in Hd. exists uid. split; [exact Hu|].
  set (d1 := with_rows T_users _ d) in Hd.
  assert (Hu1 : users d1 = update (users d) (has_id uid)
                  [("friend_count", Int (Z.of_nat (List.length (Py.split ", " fs))))])
    by apply (rows_of_with_rows T_users).
  split.
  - rewrite Hd, <- Hu1.
    apply (rows_of_with_rows_other T_friends T_users). discriminate.
  - rewrite Hd.
    change (friends (with_rows T_friends ?x d1))
      with (rows_of T_friends (with_rows T_friends x d1)).
    rewrite rows_of_with_rows, Hu1.
    rewrite update_friend_count_filter
      by (intros r; apply resolves_set_friend_count).
    unfold update at 1.
    rewrite index_order_map
      by (intros r; apply cell_set_friend_count; reflexivity).
    fold (update (index_order "user_id_str"
                    (filter (resolves (map Py.strip (Py.split ", " fs))) (users d)))
                 (has_id uid)
                 [("friend_count", Int (Z.of_nat (List.length (Py.split ", " fs))))]).
    rewrite friendship_of_updated. reflexivity.
Qed.

Lemma connect_user_tables user d d' k fs :
  getitem user "user_id" = Ok (JStr k) ->
  getitem user "friends" = Ok (JStr fs) ->
  connect_user user d = Ok (tt, d') ->
  exists uid,
    user_id_of k d = Some uid /\
    users d' = update (users d) (has_id uid)
                 [("friend_count", Int (Z.of_nat (List.length (Py.split ", " fs))))] /\
    friends d' = insert_many_or_ignore (schema_of T_friends) (friends d)
                   (map (fun r => friendship uid (cell r "id"))
                        (index_order "user_id_str"
                           (filter (resolves (map Py.strip (Py.split ", " fs)))
                                   (users d)))).
Proof.
  intros Hk Hf H.
  exact (connect_user_tables_value user d d' (JStr k) _ (Text k) fs
           Hk eq_refl eq_refl Hf H).
Qed.


Lemma connect_user_fields record d d' :
  connect_user record d = Ok (tt, d') ->
  exists j p v fs,
    getitem record "user_id" = Ok j /\ natural_key j = Ok p /\ bind p = Ok v /\
    getitem record "friends" = Ok (JStr fs).
Proof.
  unfold connect_user. intros H. inv_conn H.
  repeat match goal with
         | Hx : rbind (getitem record _) _ = Ok _ |- _ =>
             apply rbind_inv in Hx; destruct Hx as (? & ? & Hx)
         end.
  repeat match goal with
         | Hx : str_split _ ?j = Ok _ |- _ =>
             destruct j; try discriminate Hx; clear Hx
         end.
  match goal with
  | Hp : natural_key ?j = Ok ?p |- _ =>
      destruct (natural_key_binds _ _ Hp) as (v & Hv); exists j, p, v
  end.
  eauto.
Qed.

Lemma selected_set_friend_count c v (sel : row -> bool) x r :
  String.eqb c "friend_count" = false ->
  selected c v (if sel r then set_cells [("friend_count", x)] r else r)
  = selected c v r.
Proof.
  intros Hc. unfold selected. rewrite (cell_set_friend_count _ _ _ _ Hc).
  reflexivity.
Qed.

Lemma friend_count_after_update_value v uid n d rows' :
  first_id "user_id_str" v (users d) = Some uid ->
  rows' = update (users d) (has_id uid) [("friend_count", Int n)] ->
  match filter (selected "user_id_str" v) rows' with
  | r :: _ => Some (cell r "friend_count")
  | [] => None
  end = Some (Int n).
Proof.
  unfold first_id. intros Hu ->.
  rewrite update_friend_count_filter
    by (intros r; apply selected_set_friend_count; reflexivity).
  destruct (filter _ (users d)) as [|r0 rs]; [discriminate|].
  inversion Hu. subst uid. cbn [update map]. rewrite has_id_own.
  cbn [set_cells]. rewrite cell_dict_set. reflexivity.
Qed.

Lemma friend_count_after_update k uid n d rows' :
  user_id_of k d = Some uid ->
  rows' = update (users d) (has_id uid) [("friend_count", Int n)] ->
  match filter (fun r => sqlval_eqb (cell r "user_id_str") (Text k)) rows' with
  | r :: _ => Some (cell r "friend_count")
  | [] => None
  end = Some (Int n).
Proof. exact (friend_count_after_update_value (Text k) uid n d rows'). Qed.

(** C6.  For a user record that the linker processes: [friend_count] becomes
    the number of pieces of the friends field split on [", "], whatever they
    resolve to; the users table keeps its rows, so no stub is created; the
    junction rows added all link the user to a listed friend that exists; and
    each existing listed friend is linked to the user by exactly one junction
    row afterwards (when the table held at most one before, as its uniqueness
    constraint ensures). *)
Theorem friend_count_and_links user d d' k fs :
  getitem user "user_id" = Ok (JStr k) ->
  getitem user "friends" = Ok (JStr fs) ->
  connect_user user d = Ok (tt, d') ->
  let keys := map Py.strip (Py.split ", " fs) in
  exists uid,
    user_id_of k d = Some uid /\
    friend_count_of k d' = Some (Int (Z.of_nat (List.length (Py.split ", " fs)))) /\
    map (fun r => cell r "user_id_str") (users d')
    = map (fun r => cell r "user_id_str") (users d) /\
    (exists new,
       friends d' = friends d ++ new /\
       forall x, In x new ->
         exists r, In r (users d) /\ resolves keys r = true
                   /\ x = friendship uid (cell r "id")) /\
    (forall r,
       In r (users d) -> resolves keys r = true ->
       is_null uid = false -> is_null (cell r "id") = false ->
       (count_pair uid (cell r "id") (friends d) <= 1)%nat ->
       count_pair uid (cell r "id") (friends d') = 1%nat).
Proof.
  intros Hk Hf H keys.
  destruct (connect_user_tables _ _ _ _ _ Hk Hf H) as (uid & Hu & Hus & Hfr).
  fold keys in Hfr. exists uid. split; [exact Hu|]. split; [|split; [|split]].
  - unfold friend_count_of. apply (friend_count_after_update _ _ _ _ _ Hu Hus).
  - rewrite Hus. apply update_friend_count_column. reflexivity.
  - destruct (insert_friendships_new uid
                (index_order "user_id_str" (filter (resolves keys) (users d)))
                (friends d))
      as (new & Hn & Hin).
    exists new. split; [rewrite Hfr; exact Hn|].
    intros x Hx. destruct (Hin x Hx) as (r & Hr & ->).
    apply index_order_In, filter_In in Hr. destruct Hr as [Hr1 Hr2]. eauto.
  - intros r Hin Hres Hnu Hnf Hle. rewrite Hfr.
    apply (insert_friendships_count uid (cell r "id") uid
             (index_order "user_id_str" (filter (resolves keys) (users d)))
             Hnu Hnf (friends d) Hle).
    + reflexivity.
    + exists r. split; [apply index_order_In, filter_In; auto | reflexivity].
Qed.

(** C10 fails on the code when some user has the empty string for natural
    key, which the loader of users accepts: the one piece of the empty
    friends field is the empty string, the lookup of the friends finds that
    user, and a junction row is inserted. *)
Lemma empty_friends_linked_to_empty_key :
  exists d0 d',
    for_each load_user [sample_user "u1" "" ""; sample_user "" "" ""] empty_database
    = Ok (tt, d0)
    /\ getitem (sample_user "u1" "" "") "friends" = Ok (JStr "")
    /\ connect_user (sample_user "u1" "" "") d0 = Ok (tt, d')
    /\ friend_count_of "u1" d' = Some (Int 1)
    /\ friends d0 = []
    /\ friends d' = [friendship (Int 1) (Int 2)].
Proof.
  eexists. eexists. split; [vm_compute; reflexivity|].
  split; [reflexivity|]. split; [vm_compute; reflexivity|].
  split; [vm_compute; reflexivity|]. split; vm_compute; reflexivity.
Qed.

(** C10, amended.  A user whose friends field is the empty string: splitting
    it gives the one-element list of the empty string, so the [friend_count]
    of the user that the lookup by [user_id] finds becomes 1; the junction
    rows added link that user to the users whose natural key is the empty
    string, and to no other; when no user has the empty string for natural
    key, no junction row is added. *)
Theorem empty_friends_counted_once user d d' :
  getitem user "friends" = Ok (JStr "") ->
  connect_user user d = Ok (tt, d') ->
  Py.split ", " "" = [""]
  /\ (exists j p v uid new,
        getitem user "user_id" = Ok j /\ natural_key j = Ok p /\ bind p = Ok v /\
        first_id "user_id_str" v (users d) = Some uid /\
        friend_count_by v d' = Some (Int 1) /\
        friends d' = friends d ++ new /\
        forall x, In x new ->
          exists r, In r (users d) /\ cell r "user_id_str" = Text ""
                    /\ x = friendship uid (cell r "id"))
  /\ (forall k, getitem user "user_id" = Ok (JStr k) ->
                friend_count_of k d' = Some (Int 1))
  /\ (has_key "user_id_str" "" (users d) = false -> friends d' = friends d).
Proof.
  intros Hf H. split; [reflexivity|].
  destruct (connect_user_fields _ _ _ H) as (j & p & v & fs & Hj & Hp & Hv & Hf').
  rewrite Hf in Hf'. inversion Hf'. subst fs. clear Hf'.
  destruct (connect_user_tables_value _ _ _ _ _ _ _ Hj Hp Hv Hf H)
    as (uid & Hu & Hus & Hfr).
  assert (Hres : forall r, resolves (map Py.strip (Py.split ", " "")) r
                           = sqlval_eqb (cell r "user_id_str") (Text "")).
  { intros r. unfold resolves. simpl. apply orb_false_r. }
  assert (Hcount : friend_count_by v d' = Some (Int 1)).
  { unfold friend_count_by.
    apply (friend_count_after_update_value _ _ _ _ _ Hu Hus). }
  split; [|split].
  - destruct (insert_friendships_new uid
                (index_order "user_id_str"
                   (filter (resolves (map Py.strip (Py.split ", " ""))) (users d)))
                (friends d))
      as (new & Hn & Hin).
    exists j, p, v, uid, new. split; [exact Hj|]. split; [exact Hp|].
    split; [exact Hv|]. split; [exact Hu|]. split; [exact Hcount|].
    split; [rewrite Hfr; exact Hn|].
    intros x Hx. destruct (Hin x Hx) as (r & Hr & ->).
    apply index_order_In, filter_In in Hr. destruct Hr as [Hr1 Hr2].
    exists r. split; [exact Hr1|]. split; [|reflexivity].
    rewrite Hres in Hr2. apply sqlval_eqb_eq, Hr2.
  - intros k Hk. rewrite Hk in Hj. inversion Hj. subst j.
    simpl in Hp. inversion Hp. subst p. simpl in Hv. inversion Hv. subst v.
    exact Hcount.
  - intros Hnone. rewrite Hfr.
    assert (Hno : filter (resolves (map Py.strip (Py.split ", " ""))) (users d) = []).
    { apply has_key_filter in Hnone. rewrite <- Hnone. apply filter_ext. exact Hres. }
    rewrite Hno. reflexivity.
Qed.

Lemma friend_count_and_links_witness :
  exists d',
    connect_user (sample_user "u1" "u2, u3, u4" "") (some_users ["u1"; "u2"])
    = Ok (tt, d')
    /\ friend_count_of "u1" d' = Some (Int 3)
    /\ count_pair (Int 1) (Int 2) (friends d') = 1%nat.
Proof.
  eexists. split; [vm_compute; reflexivity|].
  match goal with
  | |- friend_count_of _ ?d' = _ /\ _ =>
      assert (Hrun : connect_user (sample_user "u1" "u2, u3, u4" "")
                       (some_users ["u1"; "u2"]) = Ok (tt, d'))
        by (vm_compute; reflexivity)
  end.
  destruct (friend_count_and_links (sample_user "u1" "u2, u3, u4" "")
              (some_users ["u1"; "u2"]) _ "u1" "u2, u3, u4" eq_refl eq_refl Hrun)
    as (uid & Hu & Hfc & _ & _ & Hcount).
  split; [exact Hfc|].
  inversion Hu. subst uid.
  apply (Hcount (make_row (schema_of T_users)
                   [make_row (schema_of T_users) [] [("user_id_str", Text "u1")]]
                   [("user_id_str", Text "u2")])).
  - right. left. reflexivity.
  - reflexivity.
  - reflexivity.
  - reflexivity.
  - vm_compute. lia.
Defined.

Lemma empty_friends_counted_once_witness :
  exists d',
    connect_user (sample_user "u2" "" "") (some_users ["u1"; "u2"]) = Ok (tt, d')
    /\ friend_count_of "u2" d' = Some (Int 1)
    /\ friends d' = [].
Proof.
  eexists. split; [vm_compute; reflexivity|].
  match goal with
  | |- friend_count_of _ ?d' = _ /\ _ =>
      assert (Hrun : connect_user (sample_user "u2" "" "")
                       (some_users ["u1"; "u2"]) = Ok (tt, d'))
        by (vm_compute; reflexivity)
  end.
  destruct (empty_friends_counted_once (sample_user "u2" "" "")
              (some_users ["u1"; "u2"]) _ eq_refl Hrun)
    as (_ & _ & Hcount & Hnone).
  split; [exact (Hcount "u2" eq_refl)|]. exact (Hnone eq_refl).
Defined.

(** ** Footprints *)

Section Footprint.

Context {A B : Type}.

Lemma grows_ret (a : A) : grows (ret a).
Proof.
  intros d a' d' H t. apply ret_inv in H. destruct H as [_ ->].
  exists []. symmetry. apply app_nil_r.
Qed.

Lemma grows_lift (r : result A) : grows (lift r).
Proof.
  intros d a' d' H t. apply lift_inv in H. destruct H as [_ ->].
  exists []. symmetry. apply app_nil_r.
Qed.

Lemma grows_bind (m : conn A) (k : A -> conn B) :
  grows m -> (forall a, grows (k a)) -> grows (bind_conn m k).
Proof.
  intros Hm Hk d b d' H t. apply bind_conn_inv in H.
  destruct H as (a & d1 & H1 & H2).
  destruct (Hm _ _ _ H1 t) as (l1 & E1). destruct (Hk a _ _ _ H2 t) as (l2 & E2).
  exists (l1 ++ l2). rewrite E2, E1. symmetry. apply app_assoc.
Qed.

Lemma preserves_ret t (a : A) : preserves t (ret a).
Proof. intros d a' d' H. apply ret_inv in H. destruct H as [_ ->]. reflexivity. Qed.

Lemma preserves_lift t (r : result A) : preserves t (lift r).
Proof. intros d a' d' H. apply lift_inv in H. destruct H as [_ ->]. reflexivity. Qed.

Lemma preserves_bind t (m : conn A) (k : A -> conn B) :
  preserves t m -> (forall a, preserves t (k a)) -> preserves t (bind_conn m k).
Proof.
  intros Hm Hk d b d' H. apply bind_conn_inv in H.
  destruct H as (a & d1 & H1 & H2).
  rewrite (Hk a _ _ _ H2). apply (Hm _ _ _ H1).
Qed.

Lemma grows_except (m : conn A) : grows m -> grows (except_IntegrityError m).
Proof.
  intros Hm d o d' H t. apply except_inv in H.
  destruct H as [(_ & -> & _)|(a & _ & H)].
  - exists []. symmetry. apply app_nil_r.
  - apply (Hm _ _ _ H t).
Qed.

Lemma preserves_except t (m : conn A) :
  preserves t m -> preserves t (except_IntegrityError m).
Proof.
  intros Hm d o d' H. apply except_inv in H.
  destruct H as [(_ & -> & _)|(a & _ & H)]; [reflexivity|].
  apply (Hm _ _ _ H).
Qed.

End Footprint.

Lemma grows_for_each {A} (body : A -> conn unit) xs :
  (forall x, grows (body x)) -> grows (for_each body xs).
Proof.
  intros Hb. induction xs as [|x xs IH]; simpl.
  - apply grows_ret.
  - apply grows_bind; [apply Hb | intros _; exact IH].
Qed.

Lemma preserves_for_each {A} t (body : A -> conn unit) xs :
  (forall x, preserves t (body x)) -> preserves t (for_each body xs).
Proof.
  intros Hb. induction xs as [|x xs IH]; simpl.
  - apply preserves_ret.
  - apply preserves_bind; [apply Hb | intros _; exact IH].
Qed.

Lemma rows_of_with_rows_app t t' d l :
  exists l', rows_of t' (with_rows t (rows_of t d ++ l) d) = rows_of t' d ++ l'.
Proof.
  destruct d, t, t'; simpl;
    first [ exists l; reflexivity | exists []; symmetry; apply app_nil_r ].
Qed.

Lemma insert_appends sch rows vals id rows' :
  insert sch rows vals = Ok (id, rows') -> exists l, rows' = rows ++ l.
Proof.
  unfold insert. destruct (conflicts _ _ _); [discriminate|].
  intros H. inversion H. eauto.
Qed.

Lemma insert_or_ignore_appends sch rows vals :
  exists l, insert_or_ignore sch rows vals = rows ++ l.
Proof.
  unfold insert_or_ignore. destruct (conflicts _ _ _).
  - exists []. symmetry. apply app_nil_r.
  - eauto.
Qed.

Lemma insert_many_appends sch valss :
  forall rows rows', insert_many sch rows valss = Ok rows' ->
                     exists l, rows' = rows ++ l.
Proof.
  induction valss as [|vals valss IH]; simpl; intros rows rows' H.
  - inversion H. exists []. symmetry. apply app_nil_r.
  - apply rbind_inv in H. destruct H as ([id rows1] & H1 & H2).
    apply insert_appends in H1. destruct H1 as (l1 & ->).
    apply IH in H2. destruct H2 as (l2 & ->). simpl.
    exists (l1 ++ l2). symmetry. apply app_assoc.
Qed.

Lemma insert_many_or_ignore_appends sch valss :
  forall rows, exists l, insert_many_or_ignore sch rows valss = rows ++ l.
Proof.
  induction valss as [|vals valss IH]; simpl; intros rows.
  - exists []. symmetry. apply app_nil_r.
  - destruct (insert_or_ignore_appends sch rows vals) as (l1 & ->).
    destruct (IH (rows ++ l1)) as (l2 & ->).
    exists (l1 ++ l2). symmetry. apply app_assoc.
Qed.

(** Every statement but UPDATE writes to one table, and only appends. *)
Lemma execute_insert_writes t vals d id d' :
  execute_insert t vals d = Ok (id, d') ->
  exists l, d' = with_rows t (rows_of t d ++ l) d.
Proof.
  unfold execute_insert. intros H. inv_result H.
  match goal with
  | Hi : insert _ _ _ = Ok ?p |- _ =>
      destruct p as [id' rows']; apply insert_appends in Hi;
      destruct Hi as (l & ->)
  end.
  simpl. eauto.
Qed.

Lemma execute_insert_or_ignore_writes t vals d u d' :
  execute_insert_or_ignore t vals d = Ok (u, d') ->
  exists l, d' = with_rows t (rows_of t d ++ l) d.
Proof.
  unfold execute_insert_or_ignore. intros H. inv_result H.
  match goal with
  | |- context [insert_or_ignore ?s ?r ?v] =>
      destruct (insert_or_ignore_appends s r v) as (l & ->)
  end.
  eauto.
Qed.

Lemma execute_insert_many_writes t ignore valss d u d' :
  execute_insert_many t ignore valss d = Ok (u, d') ->
  exists l, d' = with_rows t (rows_of t d ++ l) d.
Proof.
  unfold execute_insert_many. destruct valss as [|vals valss].
  { destruct ignore; [discriminate|]. intros H. inv_result H.
    match goal with
    | Hi : insert _ _ _ = Ok ?p |- _ =>
        destruct p as [id' rows']; apply insert_appends in Hi;
        destruct Hi as (l & ->)
    end.
    simpl. eauto. }
  intros H. inv_result H. destruct ignore.
  - match goal with
    | Hi : Ok _ = Ok _ |- _ => inversion Hi
    end.
    match goal with
    | |- context [insert_many_or_ignore ?s ?r ?v] =>
        destruct (insert_many_or_ignore_appends s v r) as (l & ->)
    end.
    eauto.
  - match goal with
    | Hi : rbind _ _ = Ok _ |- _ => inv_result Hi
    end.
    match goal with
    | Hi : insert_many _ _ _ = Ok _ |- _ =>
        apply insert_many_appends in Hi; destruct Hi as (l & ->)
    end.
    eauto.
Qed.

Lemma execute_select_reads t cols w d res d' :
  execute_select t cols w d = Ok (res, d') -> d' = d.
Proof.
  unfold execute_select. intros H. inv_result H. reflexivity.
Qed.

Lemma writes_grow d d' t l :
  d' = with_rows t (rows_of t d ++ l) d ->
  forall t', exists l', rows_of t' d' = rows_of t' d ++ l'.
Proof. intros -> t'. apply rows_of_with_rows_app. Qed.

Lemma writes_preserve d d' t l t' :
  d' = with_rows t (rows_of t d ++ l) d -> t <> t' ->
  rows_of t' d' = rows_of t' d.
Proof. intros -> H. apply rows_of_with_rows_other, H. Qed.

Lemma grows_execute_insert t vals : grows (execute_insert t vals).
Proof.
  intros d a d' H. apply execute_insert_writes in H. destruct H as (l & H).
  apply (writes_grow _ _ _ _ H).
Qed.

Lemma grows_execute_insert_or_ignore t vals : grows (execute_insert_or_ignore t vals).
Proof.
  intros d a d' H. apply execute_insert_or_ignore_writes in H. destruct H as (l & H).
  apply (writes_grow _ _ _ _ H).
Qed.

Lemma grows_execute_insert_many t ignore valss :
  grows (execute_insert_many t ignore valss).
Proof.
  intros d a d' H. apply execute_insert_many_writes in H. destruct H as (l & H).
  apply (writes_grow _ _ _ _ H).
Qed.

Lemma grows_execute_select t cols w : grows (execute_select t cols w).
Proof.
  intros d a d' H. apply execute_select_reads in H. subst d'.
  intros t'. exists []. symmetry. apply app_nil_r.
Qed.

Lemma preserves_execute_insert t' t vals :
  t <> t' -> preserves t' (execute_insert t vals).
Proof.
  intros Hne d a d' H. apply execute_insert_writes in H. destruct H as (l & H).
  apply (writes_preserve _ _ _ _ _ H Hne).
Qed.

Lemma preserves_execute_insert_or_ignore t' t vals :
  t <> t' -> preserves t' (execute_insert_or_ignore t vals).
Proof.
  intros Hne d a d' H. apply execute_insert_or_ignore_writes in H.
  destruct H as (l & H). apply (writes_preserve _ _ _ _ _ H Hne).
Qed.

Lemma preserves_execute_insert_many t' t ignore valss :
  t <> t' -> preserves t' (execute_insert_many t ignore valss).
Proof.
  intros Hne d a d' H. apply execute_insert_many_writes in H.
  destruct H as (l & H). apply (writes_preserve _ _ _ _ _ H Hne).
Qed.

Lemma preserves_execute_select t' t cols w : preserves t' (execute_select t cols w).
Proof. intros d a d' H. apply execute_select_reads in H. subst d'. reflexivity. Qed.

Create HintDb footprint.
#[export] Hint Resolve grows_ret grows_lift grows_execute_insert
  grows_execute_insert_or_ignore grows_execute_insert_many grows_execute_select
  preserves_ret preserves_lift preserves_execute_select : footprint.

(** Going through the statements of a loader. *)
Ltac footprint :=
  repeat first
    [ progress intros
    | apply grows_bind
    | apply preserves_bind
    | apply grows_except
    | apply preserves_except
    | solve [auto with footprint]
    | apply preserves_execute_insert; discriminate
    | apply preserves_execute_insert_or_ignore; discriminate
    | apply preserves_execute_insert_many; discriminate
    | match goal with
      | |- grows (match ?x with _ => _ end) => destruct x
      | |- preserves _ (match ?x with _ => _ end) => destruct x
      end ].

Lemma grows_get_add_user_id t j : grows (_get_add_user_id t j).
Proof. unfold _get_add_user_id. footprint. Qed.

Lemma grows_get_add_business_id t j : grows (_get_add_business_id t j).
Proof. unfold _get_add_business_id. footprint. Qed.

Lemma grows_load_business dict record : grows (load_business dict record).
Proof.
  unfold load_business, load_categories, load_attributes, load_hours. footprint.
Qed.

Lemma grows_load_user record : grows (load_user record).
Proof. unfold load_user, load_elite. footprint. Qed.

Lemma grows_load_review record : grows (load_review record).
Proof.
  unfold load_review. footprint;
    first [apply grows_get_add_user_id | apply grows_get_add_business_id].
Qed.

Lemma grows_load_photo record : grows (load_photo record).
Proof. unfold load_photo. footprint; apply grows_get_add_business_id. Qed.

Lemma preserves_children t dict record id :
  t = T_business \/ t = T_days ->
  preserves t (load_categories record id ;;; load_attributes record id ;;;
               load_hours dict record id)%conn.
Proof.
  intros [-> | ->];
    unfold load_categories, load_attributes, load_hours; footprint.
Qed.

Lemma preserves_load_elite record id : preserves T_users (load_elite record id).
Proof. unfold load_elite. footprint. Qed.

(** ** Loading a file again *)

Section Loop.

Context {A : Type} (body : A -> conn unit) (settled : A -> database -> Prop)
        (good : A -> Prop).

Hypothesis settled_after :
  forall x d d', good x -> body x d = Ok (tt, d') -> settled x d'.
Hypothesis settled_mono :
  forall x y d d', settled x d -> body y d = Ok (tt, d') -> settled x d'.
Hypothesis settled_noop :
  forall x d, settled x d -> body x d = Ok (tt, d).

Lemma loop_keeps x xs :
  forall d d', settled x d -> for_each body xs d = Ok (tt, d') -> settled x d'.
Proof.
  induction xs as [|y xs IH]; intros d d' Hs H.
  - apply ret_inv in H. destruct H as [_ ->]. exact Hs.
  - apply for_each_cons_inv in H. destruct H as (d1 & H1 & H2).
    apply (IH d1 d'); [|exact H2]. apply (settled_mono x y d d1 Hs H1).
Qed.

Lemma loop_settles xs :
  forall d d', Forall good xs -> for_each body xs d = Ok (tt, d') ->
               Forall (fun x => settled x d') xs.
Proof.
  induction xs as [|x xs IH]; intros d d' Hg H; [constructor|].
  inversion Hg as [|? ? Hx Hxs]. subst.
  apply for_each_cons_inv in H. destruct H as (d1 & H1 & H2).
  constructor.
  - apply (loop_keeps x xs d1 d'); [|exact H2]. apply (settled_after x d d1 Hx H1).
  - apply (IH d1 d' Hxs H2).
Qed.

Lemma loop_noop xs d :
  Forall (fun x => settled x d) xs -> for_each body xs d = Ok (tt, d).
Proof.
  induction 1 as [|x xs Hx _ IH]; [reflexivity|].
  rewrite (for_each_skip body x xs d (settled_noop x d Hx)). exact IH.
Qed.

(** A loop over good records that went through goes through again, and
    writes nothing. *)
Lemma loop_twice xs d d' :
  Forall good xs ->
  for_each body xs d = Ok (tt, d') -> for_each body xs d' = Ok (tt, d').
Proof. intros Hg H. apply loop_noop. apply (loop_settles xs d d' Hg H). Qed.

End Loop.

(** *** Business *)

Lemma load_business_cases dict record d d' :
  load_business dict record d = Ok (tt, d') ->
  exists k rest r,
    getitem record "business_id" = Ok (JStr k) /\
    business_statement record
    = Ok (("business_id_str", Obj (JStr (Py.strip k))) :: rest) /\
    bind_values (("business_id_str", Obj (JStr (Py.strip k))) :: rest) = Ok r /\
    ((has_key "business_id_str" (Py.strip k) (business d) = true /\ d' = d)
     \/ (has_key "business_id_str" (Py.strip k) (business d) = false /\
         (load_categories record (Int (next_rowid "id" (business d))) ;;;
          load_attributes record (Int (next_rowid "id" (business d))) ;;;
          load_hours dict record (Int (next_rowid "id" (business d))))%conn
           (with_rows T_business
              (business d ++ [make_row (schema_of T_business) (business d) r]) d)
         = Ok (tt, d'))).
Proof.
  unfold load_business. intros H. inv_conn H.
  match goal with
  | Hs : business_statement record = Ok _ |- _ =>
      destruct (business_statement_inv _ _ Hs) as (k & rest & Hk & -> & Hc & Hid);
      exists k, rest
  end.
  pose proof (execute_insert_primary T_business _ _ rest d keyed_business Hc Hid)
    as Hins.
  change (rows_of T_business d) with (business d) in Hins.
  match goal with
  | Hx : except_IntegrityError _ _ = Ok _ |- _ =>
      apply except_inv in Hx; destruct Hx as [(-> & -> & Hi)|(id & -> & Hi)]
  end.
  - match goal with Hr : ret tt _ = Ok _ |- _ => inv_conn Hr end.
    destruct (bind_values _) as [r|e].
    + exists r. repeat split; try assumption. left. split; [|reflexivity].
      rewrite Hins in Hi. destruct (has_key _ _ _); [reflexivity | discriminate].
    + destruct Hins as [Hr Hne]. rewrite Hr in Hi. inversion Hi. contradiction.
  - destruct (bind_values _) as [r|e].
    + exists r. repeat split; try assumption. right.
      rewrite Hins in Hi. destruct (has_key _ _ _); [discriminate|].
      inversion Hi. subst. split; [reflexivity | assumption].
    + destruct Hins as [Hr _]. rewrite Hr in Hi. discriminate.
Qed.

Lemma settled_business_after dict record d d' :
  True -> load_business dict record d = Ok (tt, d') -> settled_business record d'.
Proof.
  intros _ H. destruct (load_business_cases _ _ _ _ H)
    as (k & rest & r & Hk & Hs & Hb & [[Hdup ->]|[Hnew Hch]]).
  - eexists. exists r, k. repeat split; eassumption.
  - eexists. exists r, k. repeat split; try eassumption.
    pose proof (preserves_children T_business dict record _ (or_introl eq_refl)
                  _ _ _ Hch) as Hp.
    change (business d') with (rows_of T_business d'). rewrite Hp.
    rewrite rows_of_with_rows.
    apply (keyed_has_key_after _ _ _ _ _ keyed_business).
    + apply cell_not_key. rewrite (bind_values_keys _ _ Hb).
      destruct (business_statement_inv _ _ Hs) as (k' & rest' & _ & E & _ & Hid).
      exact Hid.
    + apply (bind_values_head _ _ _ _ Hb).
Qed.

Lemma settled_business_mono dict x y d d' :
  settled_business x d -> load_business dict y d = Ok (tt, d') ->
  settled_business x d'.
Proof.
  intros (vals & r & k & Hs & Hk & Hb & Hkey) H.
  exists vals, r, k. repeat split; try assumption.
  destruct (grows_load_business dict y _ _ _ H T_business) as (l & Hl).
  change (business d') with (rows_of T_business d'). rewrite Hl.
  apply has_key_mono, Hkey.
Qed.

Lemma settled_business_noop dict x d :
  settled_business x d -> load_business dict x d = Ok (tt, d).
Proof.
  intros (vals & r & k & Hs & Hk & Hb & Hkey).
  apply (load_business_skip dict _ _ _ Hs).
  apply (business_duplicate _ _ _ _ _ Hs Hk Hb Hkey).
Qed.

(** *** Users *)

Lemma load_user_cases record d d' k :
  getitem record "user_id" = Ok (JStr k) ->
  load_user record d = Ok (tt, d') ->
  exists rest r,
    users_statement record = Ok (("user_id_str", Obj (JStr k)) :: rest) /\
    bind_values (("user_id_str", Obj (JStr k)) :: rest) = Ok r /\
    ((has_key "user_id_str" k (users d) = true /\ d' = d)
     \/ (has_key "user_id_str" k (users d) = false /\
         load_elite record (Int (next_rowid "id" (users d)))
           (with_rows T_users
              (users d ++ [make_row (schema_of T_users) (users d) r]) d)
         = Ok (tt, d'))).
Proof.
  unfold load_user. intros Hk H. inv_conn H.
  match goal with
  | Hs : users_statement record = Ok _ |- _ =>
      destruct (users_statement_str _ _ _ Hs Hk) as (rest & -> & Hc & Hid);
      exists rest
  end.
  pose proof (execute_insert_primary T_users _ _ rest d keyed_users Hc Hid) as Hins.
  change (rows_of T_users d) with (users d) in Hins.
  match goal with
  | Hx : except_IntegrityError _ _ = Ok _ |- _ =>
      apply except_inv in Hx; destruct Hx as [(-> & -> & Hi)|(id & -> & Hi)]
  end.
  - match goal with Hr : ret tt _ = Ok _ |- _ => inv_conn Hr end.
    destruct (bind_values _) as [r|e].
    + exists r. repeat split; try assumption. left. split; [|reflexivity].
      rewrite Hins in Hi. destruct (has_key _ _ _); [reflexivity | discriminate].
    + destruct Hins as [Hr Hne]. rewrite Hr in Hi. inversion Hi. contradiction.
  - destruct (bind_values _) as [r|e].
    + exists r. repeat split; try assumption. right.
      rewrite Hins in Hi. destruct (has_key _ _ _); [discriminate|].
      inversion Hi. subst. split; [reflexivity | assumption].
    + destruct Hins as [Hr _]. rewrite Hr in Hi. discriminate.
Qed.

(** A record that [load_user] takes in and that has a key of its own has a
    string for key. *)
Lemma load_user_names_key record d d' :
  has_own_key "user_id" record = true ->
  load_user record d = Ok (tt, d') ->
  exists k, getitem record "user_id" = Ok (JStr k).
Proof.
  intros Hown H. unfold load_user in H. inv_conn H.
  match goal with
  | Hs : users_statement record = Ok _ |- _ =>
      destruct (users_statement_inv _ _ Hs) as (j & p & rest & Hj & Hp & _)
  end.
  destruct (natural_key_own _ _ Hp (has_own_key_inv _ _ _ Hown Hj)) as (k & -> & _).
  eauto.
Qed.

Lemma settled_user_after record d d' :
  has_own_key "user_id" record = true ->
  load_user record d = Ok (tt, d') -> settled_user record d'.
Proof.
  intros Hown H.
  destruct (load_user_names_key _ _ _ Hown H) as (k & Hk).
  destruct (load_user_cases _ _ _ _ Hk H)
    as (rest & r & Hs & Hb & [[Hdup ->]|[Hnew Hch]]).
  - eexists. exists r, k. repeat split; eassumption.
  - eexists. exists r, k. repeat split; try eassumption.
    pose proof (preserves_load_elite record _ _ _ _ Hch) as Hp.
    change (users d') with (rows_of T_users d'). rewrite Hp.
    rewrite rows_of_with_rows.
    apply (keyed_has_key_after _ _ _ _ _ keyed_users).
    + apply cell_not_key. rewrite (bind_values_keys _ _ Hb).
      destruct (users_statement_str _ _ _ Hs Hk) as (rest' & E & _ & Hid).
      exact Hid.
    + apply (bind_values_head _ _ _ _ Hb).
Qed.

Lemma settled_user_mono x y d d' :
  settled_user x d -> load_user y d = Ok (tt, d') -> settled_user x d'.
Proof.
  intros (vals & r & k & Hs & Hk & Hb & Hkey) H.
  exists vals, r, k. repeat split; try assumption.
  destruct (grows_load_user y _ _ _ H T_users) as (l & Hl).
  change (users d') with (rows_of T_users d'). rewrite Hl.
  apply has_key_mono, Hkey.
Qed.

Lemma settled_user_noop x d :
  settled_user x d -> load_user x d = Ok (tt, d).
Proof.
  intros (vals & r & k & Hs & Hk & Hb & Hkey).
  apply (load_user_skip _ _ _ Hs).
  apply (user_duplicate _ _ _ _ _ Hs Hk Hb Hkey).
Qed.

(** *** Reviews and photos *)

Lemma bind_values_cons c p vals :
  bind_values ((c, p) :: vals)
  = let? v := bind p in let? r := bind_values vals in Ok ((c, v) :: r).
Proof. unfold bind_values. simpl. destruct (bind p); reflexivity. Qed.

Ltac rewrite_getitems :=
  repeat match goal with
         | Hg : getitem _ _ = Ok _ |- _ => rewrite Hg; clear Hg
         end.

Lemma review_statement_inv record u b vals :
  review_statement record u b = Ok vals ->
  exists j p rest,
    getitem record "review_id" = Ok j /\ natural_key j = Ok p /\
    map fst rest = ["stars"; "date"; "text"; "useful"; "funny"; "cool"] /\
    forall u' b',
      review_statement record u' b'
      = Ok (("review_id_str", p) :: ("user_id", Fetched u')
            :: ("business_id", Fetched b') :: rest).
Proof.
  unfold review_statement. intros H. inv_result H.
  match goal with
  | Hp : natural_key ?j = Ok ?p |- _ => exists j, p
  end.
  eexists. split; [eassumption|]. split; [eassumption|].
  split; [|intros u' b'; rewrite_getitems; cbn [rbind];
           match goal with Hp : natural_key _ = Ok _ |- _ => rewrite Hp end;
           reflexivity].
  reflexivity.
Qed.

Lemma photo_insert_statement_inv record b vals :
  photo_insert_statement record b = Ok vals ->
  exists j p rest,
    getitem record "photo_id" = Ok j /\ natural_key j = Ok p /\
    map fst rest = ["caption"; "label"] /\
    forall b',
      photo_insert_statement record b'
      = Ok (("photo_id_str", p) :: ("business_id", Fetched b') :: rest).
Proof.
  unfold photo_insert_statement. intros H. inv_result H.
  match goal with
  | Hp : natural_key ?j = Ok ?p |- _ => exists j, p
  end.
  eexists. split; [eassumption|]. split; [eassumption|].
  split; [|intros b'; rewrite_getitems; cbn [rbind];
           match goal with Hp : natural_key _ = Ok _ |- _ => rewrite Hp end;
           reflexivity].
  reflexivity.
Qed.

Lemma get_add_user_id_key t j j' d :
  natural_key j = natural_key j' -> _get_add_user_id t j d = _get_add_user_id t j' d.
Proof.
  intros H. unfold _get_add_user_id, bind_conn, lift. rewrite H. reflexivity.
Qed.

(** The resolver of users on any natural key: the id of the first row that
    the SELECT finds, or of the row it inserts. *)
Lemma get_add_user_id_run j p v d :
  natural_key j = Ok p -> bind p = Ok v ->
  exists id d',
    _get_add_user_id T_users j d = Ok (id, d') /\
    first_id "user_id_str" v (users d') = Some id /\
    (if existsb (selected "user_id_str" v) (users d) then d' = d
     else d' = with_rows T_users
                 (users d ++ [make_row (schema_of T_users) (users d)
                                       [("user_id_str", v)]]) d
          /\ id = Int (next_rowid "id" (users d))).
Proof.
  intros Hp Hv. destruct (natural_key_inv _ _ Hp) as [->|(k & ->)];
    simpl in Hv; inversion Hv; subst v.
  - rewrite (get_add_user_id_key T_users j JNull d Hp). apply get_add_user_id_null.
  - rewrite (get_add_user_id_key T_users j (JStr k) d Hp).
    exact (get_add_user_id_spec d k).
Qed.

Lemma get_add_user_id_inv j d id d' :
  _get_add_user_id T_users j d = Ok (id, d') ->
  known "user_id_str" j (users d') /\ exists l, users d' = users d ++ l.
Proof.
  intros H. destruct (natural_key j) as [p|e] eqn:Hp.
  - destruct (natural_key_binds _ _ Hp) as (v & Hv).
    destruct (get_add_user_id_run j p v d Hp Hv) as (id0 & d0 & H0 & Hid & Hd).
    rewrite H0 in H. inversion H. subst. split.
    + exists p, v. split; [exact Hp|]. split; [exact Hv|].
      apply (first_id_known _ _ _ _ Hid).
    + destruct (existsb (selected "user_id_str" v) (users d)).
      * subst d'. exists []. symmetry. apply app_nil_r.
      * destruct Hd as [-> _]. eexists. apply (rows_of_with_rows T_users).
  - unfold _get_add_user_id, bind_conn, lift in H. rewrite Hp in H. discriminate H.
Qed.

Lemma get_add_user_id_again j d :
  known "user_id_str" j (users d) ->
  exists id, _get_add_user_id T_users j d = Ok (id, d).
Proof.
  intros (p & v & Hp & Hv & H).
  destruct (get_add_user_id_run j p v d Hp Hv) as (id & d' & H0 & _ & Hd).
  rewrite H in Hd. subst d'. eauto.
Qed.

Lemma get_add_user_id_present d k :
  has_key "user_id_str" k (users d) = true ->
  exists id, _get_add_user_id T_users (JStr k) d = Ok (id, d).
Proof.
  intros H. destruct (get_add_user_id_spec d k) as (id & d' & H0 & _ & Hd).
  rewrite H in Hd. subst d'. eauto.
Qed.

(** The INSERT .. ON CONFLICT DO NOTHING of a row that names its natural key
    first and leaves the id out. *)
Lemma execute_insert_or_ignore_primary t kc k rest d :
  keyed (schema_of t) kc ->
  check_columns t ((kc, Obj (JStr k)) :: rest) = Ok tt ->
  existsb (String.eqb "id") (map fst ((kc, Obj (JStr k)) :: rest)) = false ->
  match bind_values ((kc, Obj (JStr k)) :: rest) with
  | Ok r =>
      execute_insert_or_ignore t ((kc, Obj (JStr k)) :: rest) d =
      Ok (tt, if has_key kc k (rows_of t d) then d
              else with_rows t (rows_of t d
                                ++ [make_row (schema_of t) (rows_of t d) r]) d)
  | Raise e => execute_insert_or_ignore t ((kc, Obj (JStr k)) :: rest) d = Raise e
  end.
Proof.
  intros Hk Hc Hid.
  destruct (bind_values ((kc, Obj (JStr k)) :: rest)) as [r|e] eqn:Hb.
  - apply (execute_insert_or_ignore_keyed _ _ _ _ _ _ Hk Hc Hb).
    + apply cell_not_key. rewrite (bind_values_keys _ _ Hb). exact Hid.
    + apply (bind_values_head _ _ _ _ Hb).
  - unfold execute_insert_or_ignore. rewrite Hc, Hb. reflexivity.
Qed.

Lemma has_key_after_ignore t kc k rest r d :
  keyed (schema_of t) kc ->
  existsb (String.eqb "id") (map fst ((kc, Obj (JStr k)) :: rest)) = false ->
  bind_values ((kc, Obj (JStr k)) :: rest) = Ok r ->
  has_key kc k
    (rows_of t (if has_key kc k (rows_of t d) then d
                else with_rows t (rows_of t d
                                  ++ [make_row (schema_of t) (rows_of t d) r]) d))
  = true.
Proof.
  intros Hk Hid Hb. destruct (has_key kc k (rows_of t d)) eqn:E; [exact E|].
  rewrite rows_of_with_rows. apply (keyed_has_key_after _ _ _ _ _ Hk).
  - apply cell_not_key. rewrite (bind_values_keys _ _ Hb). exact Hid.
  - apply (bind_values_head _ _ _ _ Hb).
Qed.

Lemma review_values_checked kr u b rest :
  map fst rest = ["stars"; "date"; "text"; "useful"; "funny"; "cool"] ->
  check_columns T_reviews
    (("review_id_str", Obj (JStr kr)) :: ("user_id", Fetched u)
     :: ("business_id", Fetched b) :: rest) = Ok tt
  /\ existsb (String.eqb "id")
       (map fst (("review_id_str", Obj (JStr kr)) :: ("user_id", Fetched u)
                 :: ("business_id", Fetched b) :: rest)) = false.
Proof.
  intros Hr. unfold check_columns, unconsumed. simpl map. rewrite Hr.
  split; reflexivity.
Qed.

Lemma photo_values_checked kp b rest :
  map fst rest = ["caption"; "label"] ->
  check_columns T_photos
    (("photo_id_str", Obj (JStr kp)) :: ("business_id", Fetched b) :: rest) = Ok tt
  /\ existsb (String.eqb "id")
       (map fst (("photo_id_str", Obj (JStr kp)) :: ("business_id", Fetched b)
                 :: rest)) = false.
Proof.
  intros Hr. unfold check_columns, unconsumed. simpl map. rewrite Hr.
  split; reflexivity.
Qed.

Lemma users_of_ignored t (c : bool) d x :
  t <> T_users ->
  users (if c then d else with_rows t x d) = users d.
Proof.
  intros H. destruct c; [reflexivity|].
  apply (rows_of_with_rows_other t T_users). exact H.
Qed.

Lemma business_of_ignored t (c : bool) d x :
  t <> T_business ->
  business (if c then d else with_rows t x d) = business d.
Proof.
  intros H. destruct c; [reflexivity|].
  apply (rows_of_with_rows_other t T_business). exact H.
Qed.

Lemma settled_review_after record d d' :
  has_own_key "review_id" record = true ->
  load_review record d = Ok (tt, d') -> settled_review record d'.
Proof.
  unfold load_review. intros Hown H. inv_conn H.
  match goal with
  | Hu : _get_add_user_id _ ?ju _ = Ok _ |- _ =>
      destruct (get_add_user_id_inv _ _ _ _ Hu) as (Hku & _); exists ju
  end.
  match goal with
  | Hb : _get_add_business_id _ ?jb _ = Ok _ |- _ =>
      destruct (get_add_business_id_known _ _ _ _ Hb) as (-> & Hkb); exists jb
  end.
  match goal with
  | Hs : review_statement _ ?u ?b = Ok _ |- _ =>
      destruct (review_statement_inv _ _ _ _ Hs) as (j & p & rest & Hj & Hp & Hrest & Hall);
      destruct (natural_key_own _ _ Hp (has_own_key_inv _ _ _ Hown Hj)) as (kr & _ & ->);
      rewrite Hall in Hs; inversion Hs; subst; clear Hs;
      destruct (review_values_checked kr u b rest Hrest) as [Hc Hid]
  end.
  match goal with
  | Hi : execute_insert_or_ignore _ _ ?d1 = Ok _ |- _ =>
      pose proof (execute_insert_or_ignore_primary T_reviews _ _ _ d1
                    keyed_reviews Hc Hid) as Hins;
      destruct (bind_values _) as [r|e] eqn:Hb;
      [|rewrite Hins in Hi; discriminate Hi];
      pose proof (has_key_after_ignore T_reviews _ _ _ _ d1 keyed_reviews Hid Hb)
        as Hkr;
      match type of Hins with
      | _ = Ok (tt, ?X) => assert (Hd : d' = X) by congruence
      end
  end.
  rewrite !bind_values_cons in Hb. simpl bind in Hb. cbn [rbind] in Hb.
  destruct (bind_values rest) as [r0|] eqn:Hb0; [|discriminate Hb].
  exists kr, rest, r0. subst d'.
  split; [assumption|]. split; [assumption|]. split; [assumption|].
  split; [assumption|]. split; [assumption|].
  rewrite users_of_ignored, business_of_ignored by discriminate.
  split; [assumption|]. split; [assumption|]. exact Hkr.
Qed.

Lemma settled_review_mono x y d d' :
  settled_review x d -> load_review y d = Ok (tt, d') -> settled_review x d'.
Proof.
  intros (ju & jb & kr & rest & r & Hu & Hb & Hs & Hrest & Hbind & Hku & Hkb & Hkr) H.
  exists ju, jb, kr, rest, r.
  pose proof (grows_load_review y _ _ _ H) as Hg.
  destruct (Hg T_users) as (l1 & E1). destruct (Hg T_business) as (l2 & E2).
  destruct (Hg T_reviews) as (l3 & E3).
  change (rows_of T_users d') with (users d') in E1.
  change (rows_of T_business d') with (business d') in E2.
  change (rows_of T_reviews d') with (reviews d') in E3.
  rewrite E1, E2, E3.
  repeat split; try assumption;
    first [apply has_key_mono; assumption | apply known_mono; assumption].
Qed.

Lemma settled_review_noop x d :
  settled_review x d -> load_review x d = Ok (tt, d).
Proof.
  intros (ju & jb & kr & rest & r & Hu & Hb & Hs & Hrest & Hbind & Hku & Hkb & Hkr).
  destruct (get_add_user_id_again _ _ Hku) as (uid & Huid).
  destruct (get_add_business_id_again _ _ Hkb) as (bid & Hbid).
  unfold load_review.
  rewrite (bind_conn_ok _ _ _ _ _ (lift_ok _ d _ Hu)).
  rewrite (bind_conn_ok _ _ _ _ _ Huid).
  rewrite (bind_conn_ok _ _ _ _ _ (lift_ok _ d _ Hb)).
  rewrite (bind_conn_ok _ _ _ _ _ Hbid).
  rewrite (bind_conn_ok _ _ _ _ _ (lift_ok _ d _ (Hs uid bid))).
  destruct (review_values_checked kr uid bid rest Hrest) as [Hc Hid].
  pose proof (execute_insert_or_ignore_primary T_reviews _ _ _ d
                keyed_reviews Hc Hid) as Hins.
  rewrite !bind_values_cons, Hbind in Hins. simpl in Hins.
  change (rows_of T_reviews d) with (reviews d) in Hins.
  rewrite Hkr in Hins. exact Hins.
Qed.

Lemma settled_photo_after record d d' :
  has_own_key "photo_id" record = true ->
  load_photo record d = Ok (tt, d') -> settled_photo record d'.
Proof.
  unfold load_photo. intros Hown H. inv_conn H.
  match goal with
  | Hb : _get_add_business_id _ ?jb _ = Ok _ |- _ =>
      destruct (get_add_business_id_known _ _ _ _ Hb) as (-> & Hkb); exists jb
  end.
  match goal with
  | Hs : photo_insert_statement _ ?b = Ok _ |- _ =>
      destruct (photo_insert_statement_inv _ _ _ Hs) as (j & p & rest & Hj & Hp & Hrest & Hall);
      destruct (natural_key_own _ _ Hp (has_own_key_inv _ _ _ Hown Hj)) as (kp & _ & ->);
      rewrite Hall in Hs; inversion Hs; subst; clear Hs;
      destruct (photo_values_checked kp b rest Hrest) as [Hc Hid]
  end.
  match goal with
  | Hi : execute_insert_or_ignore _ _ ?d1 = Ok _ |- _ =>
      pose proof (execute_insert_or_ignore_primary T_photos _ _ _ d1
                    keyed_photos Hc Hid) as Hins;
      destruct (bind_values _) as [r|e] eqn:Hb;
      [|rewrite Hins in Hi; discriminate Hi];
      pose proof (has_key_after_ignore T_photos _ _ _ _ d1 keyed_photos Hid Hb)
        as Hkp;
      match type of Hins with
      | _ = Ok (tt, ?X) => assert (Hd : d' = X) by congruence
      end
  end.
  rewrite !bind_values_cons in Hb. simpl bind in Hb. cbn [rbind] in Hb.
  destruct (bind_values rest) as [r0|] eqn:Hb0; [|discriminate Hb].
  exists kp, rest, r0. subst d'.
  split; [assumption|]. split; [assumption|].
  split; [assumption|]. split; [assumption|].
  rewrite business_of_ignored by discriminate.
  split; [assumption|]. exact Hkp.
Qed.

Lemma settled_photo_mono x y d d' :
  settled_photo x d -> load_photo y d = Ok (tt, d') -> settled_photo x d'.
Proof.
  intros (jb & kp & rest & r & Hb & Hs & Hrest & Hbind & Hkb & Hkp) H.
  exists jb, kp, rest, r.
  pose proof (grows_load_photo y _ _ _ H) as Hg.
  destruct (Hg T_business) as (l2 & E2). destruct (Hg T_photos) as (l3 & E3).
  change (rows_of T_business d') with (business d') in E2.
  change (rows_of T_photos d') with (photos d') in E3.
  rewrite E2, E3.
  repeat split; try assumption;
    first [apply has_key_mono; assumption | apply known_mono; assumption].
Qed.

Lemma settled_photo_noop x d :
  settled_photo x d -> load_photo x d = Ok (tt, d).
Proof.
  intros (jb & kp & rest & r & Hb & Hs & Hrest & Hbind & Hkb & Hkp).
  destruct (get_add_business_id_again _ _ Hkb) as (bid & Hbid).
  unfold load_photo.
  rewrite (bind_conn_ok _ _ _ _ _ (lift_ok _ d _ Hb)).
  rewrite (bind_conn_ok _ _ _ _ _ Hbid).
  rewrite (bind_conn_ok _ _ _ _ _ (lift_ok _ d _ (Hs bid))).
  destruct (photo_values_checked kp bid rest Hrest) as [Hc Hid].
  pose proof (execute_insert_or_ignore_primary T_photos _ _ _ d
                keyed_photos Hc Hid) as Hins.
  rewrite !bind_values_cons, Hbind in Hins. simpl in Hins.
  change (rows_of T_photos d) with (photos d) in Hins.
  rewrite Hkp in Hins. exact Hins.
Qed.

(** *** The days table *)

Section ExplicitRowid.

Variable sch : schema.
Variable pk : string.
Hypothesis Hpk : rowid_alias sch = Some pk.
Hypothesis Hcol : has_column sch pk = true.
Hypothesis Huniq : In [pk] (uniques sch).

(** The written row does not depend on the table when the rowid is given. *)
Lemma make_row_explicit rows vals :
  is_null (cell vals pk) = false ->
  make_row sch rows vals = make_row sch [] vals.
Proof.
  intros Hv. unfold make_row. rewrite Hpk. apply map_ext. intros c.
  destruct (String.eqb c pk) eqn:E; [|reflexivity].
  apply String.eqb_eq in E. subst c. rewrite Hv. reflexivity.
Qed.

Lemma conflicts_mono rows l new :
  conflicts sch rows new = true -> conflicts sch (rows ++ l) new = true.
Proof.
  unfold conflicts. intros H. apply existsb_exists in H.
  destruct H as (cols & Hc & Hr). apply existsb_exists. exists cols.
  split; [exact Hc|]. rewrite existsb_app, Hr. reflexivity.
Qed.

Lemma insert_or_ignore_settles rows vals :
  is_null (cell vals pk) = false ->
  conflicts sch (insert_or_ignore sch rows vals) (make_row sch [] vals) = true.
Proof.
  intros Hv. unfold insert_or_ignore. rewrite (make_row_explicit rows vals Hv).
  destruct (conflicts sch rows (make_row sch [] vals)) eqn:E; [exact E|].
  unfold conflicts. apply existsb_exists. exists [pk]. split; [exact Huniq|].
  rewrite existsb_app. apply orb_true_iff. right. simpl.
  rewrite orb_false_r. unfold agrees. simpl. rewrite andb_true_r.
  rewrite (cell_make_row _ _ _ _ Hcol), Hpk, String.eqb_refl, Hv. simpl.
  rewrite Hv. apply sqlval_eqb_refl.
Qed.

Lemma insert_many_or_ignore_settles valss :
  Forall (fun vals => is_null (cell vals pk) = false) valss ->
  forall rows,
    Forall (fun vals =>
              conflicts sch (insert_many_or_ignore sch rows valss)
                        (make_row sch [] vals) = true) valss.
Proof.
  induction 1 as [|vals valss Hv Hrest IH]; intros rows; [constructor|].
  simpl. constructor.
  - destruct (insert_many_or_ignore_appends sch valss (insert_or_ignore sch rows vals))
      as (l & ->).
    apply conflicts_mono, insert_or_ignore_settles, Hv.
  - apply IH.
Qed.

Lemma insert_many_or_ignore_settled valss :
  Forall (fun vals => is_null (cell vals pk) = false) valss ->
  forall rows,
    Forall (fun vals => conflicts sch rows (make_row sch [] vals) = true) valss ->
    insert_many_or_ignore sch rows valss = rows.
Proof.
  induction 1 as [|vals valss Hv Hrest IH]; intros rows Hs; [reflexivity|].
  inversion Hs as [|? ? Hc Hcs]. subst. simpl.
  unfold insert_or_ignore at 1. rewrite (make_row_explicit rows vals Hv), Hc.
  apply IH, Hcs.
Qed.

(** Writing the same rows again, rowids given, changes nothing. *)
Lemma insert_many_or_ignore_again valss rows :
  Forall (fun vals => is_null (cell vals pk) = false) valss ->
  insert_many_or_ignore sch (insert_many_or_ignore sch rows valss) valss
  = insert_many_or_ignore sch rows valss.
Proof.
  intros Hv. apply (insert_many_or_ignore_settled valss Hv).
  apply (insert_many_or_ignore_settles valss Hv).
Qed.

End ExplicitRowid.

Lemma initialize_days_table_run w :
  _initialize_days_table w
  = Ok (day_id_days_dict,
        {| db := with_rows T_days
                   (insert_many_or_ignore (schema_of T_days) (days (db w)) day_rows)
                   (db w);
           stdout := stdout w |}).
Proof. reflexivity. Qed.

Lemma day_rows_again rows :
  insert_many_or_ignore (schema_of T_days)
    (insert_many_or_ignore (schema_of T_days) rows day_rows) day_rows
  = insert_many_or_ignore (schema_of T_days) rows day_rows.
Proof.
  apply (insert_many_or_ignore_again (schema_of T_days) "id" eq_refl eq_refl).
  - left. reflexivity.
  - repeat constructor.
Qed.

(** *** Whole files *)

Lemma verbose_loading_run file_name connecting verbose w :
  exists out,
    verbose_loading file_name connecting verbose w
    = Ok (tt, {| db := db w; stdout := out |}).
Proof.
  unfold verbose_loading. destruct verbose; [destruct connecting|]; unfold print, pret.
  - eauto.
  - eauto.
  - exists (stdout w). destruct w. reflexivity.
Qed.

Lemma begin_inv {A} (body : conn A) w a w' :
  begin body w = Ok (a, w') ->
  body (db w) = Ok (a, db w') /\ stdout w' = stdout w.
Proof.
  unfold begin. destruct (body (db w)) as [[a' d']|e]; [|discriminate].
  intros H. inversion H. auto.
Qed.

Lemma begin_ok {A} (body : conn A) w a d' :
  body (db w) = Ok (a, d') ->
  begin body w = Ok (a, {| db := d'; stdout := stdout w |}).
Proof. unfold begin. intros ->. reflexivity. Qed.

(** A loader made of an announcement and one loop: if the loop, once gone
    through, writes nothing when run again, so does the loader. *)
Lemma announced_loop_twice {A} (body : A -> conn unit) file_name lines verbose w w1 :
  (forall d d', for_each body lines d = Ok (tt, d') ->
                for_each body lines d' = Ok (tt, d')) ->
  pbind (verbose_loading file_name false verbose)
        (fun _ => begin (for_each body lines)) w = Ok (tt, w1) ->
  exists w2,
    pbind (verbose_loading file_name false verbose)
          (fun _ => begin (for_each body lines)) w1 = Ok (tt, w2)
    /\ db w2 = db w1.
Proof.
  intros Htwice H. unfold pbind in *.
  destruct (verbose_loading_run file_name false verbose w) as (out & Hv).
  rewrite Hv in H. apply begin_inv in H. destruct H as [H _]. simpl in H.
  destruct (verbose_loading_run file_name false verbose w1) as (out1 & Hv1).
  rewrite Hv1.
  rewrite (begin_ok _ {| db := db w1; stdout := out1 |} _ _ (Htwice _ _ H)).
  eexists. split; reflexivity.
Qed.

Lemma load_users_twice file verbose w w1 :
  forallb (has_own_key "user_id") (Utils.lines file) = true ->
  _load_users_json file verbose w = Ok (tt, w1) ->
  exists w2, _load_users_json file verbose w1 = Ok (tt, w2) /\ db w2 = db w1.
Proof.
  intros Hg. apply announced_loop_twice. intros d d'.
  apply (loop_twice load_user settled_user (fun x => has_own_key "user_id" x = true)
           settled_user_after settled_user_mono settled_user_noop).
  apply Forall_forall. intros x Hx. apply (proj1 (forallb_forall _ _) Hg x Hx).
Qed.

Lemma load_review_twice file verbose w w1 :
  forallb (has_own_key "review_id") (Utils.lines file) = true ->
  _load_review_json file verbose w = Ok (tt, w1) ->
  exists w2, _load_review_json file verbose w1 = Ok (tt, w2) /\ db w2 = db w1.
Proof.
  intros Hg. apply announced_loop_twice. intros d d'.
  apply (loop_twice load_review settled_review (fun x => has_own_key "review_id" x = true)
           settled_review_after settled_review_mono settled_review_noop).
  apply Forall_forall. intros x Hx. apply (proj1 (forallb_forall _ _) Hg x Hx).
Qed.

Lemma load_photos_twice file verbose w w1 :
  forallb (has_own_key "photo_id") (Utils.lines file) = true ->
  _load_photos_json file verbose w = Ok (tt, w1) ->
  exists w2, _load_photos_json file verbose w1 = Ok (tt, w2) /\ db w2 = db w1.
Proof.
  intros Hg. apply announced_loop_twice. intros d d'.
  apply (loop_twice load_photo settled_photo (fun x => has_own_key "photo_id" x = true)
           settled_photo_after settled_photo_mono settled_photo_noop).
  apply Forall_forall. intros x Hx. apply (proj1 (forallb_forall _ _) Hg x Hx).
Qed.

Lemma preserves_days_load_business dict record :
  preserves T_days (load_business dict record).
Proof.
  unfold load_business, load_categories, load_attributes, load_hours. footprint.
Qed.

Lemma load_business_twice file verbose w w1 :
  _load_business_json file verbose w = Ok (tt, w1) ->
  exists w2, _load_business_json file verbose w1 = Ok (tt, w2) /\ db w2 = db w1.
Proof.
  unfold _load_business_json, pbind. intros H.
  destruct (verbose_loading_run (Utils.name file) false verbose w) as (out & Hv).
  rewrite Hv, initialize_days_table_run in H. cbn [db stdout] in H.
  apply begin_inv in H. destruct H as [H _]. cbn [db] in H.
  destruct (verbose_loading_run (Utils.name file) false verbose w1) as (out1 & Hv1).
  rewrite Hv1, initialize_days_table_run. cbn [db stdout].
  assert (Hdays : days (db w1)
                  = insert_many_or_ignore (schema_of T_days) (days (db w)) day_rows).
  { pose proof (preserves_for_each T_days _ (Utils.file_line_generator file)
                  (preserves_days_load_business day_id_days_dict) _ _ _ H) as Hp.
    rewrite rows_of_with_rows in Hp. exact Hp. }
  assert (Hsame : with_rows T_days
                    (insert_many_or_ignore (schema_of T_days) (days (db w1)) day_rows)
                    (db w1) = db w1).
  { rewrite Hdays, day_rows_again, <- Hdays. apply (with_rows_same T_days). }
  rewrite Hsame.
  pose proof (loop_twice (load_business day_id_days_dict) settled_business
                (fun _ => True)
                (settled_business_after day_id_days_dict)
                (settled_business_mono day_id_days_dict)
                (settled_business_noop day_id_days_dict) _ _ _
                (proj2 (Forall_forall _ _) (fun _ _ => I)) H) as H2.
  rewrite (begin_ok _ {| db := db w1; stdout := out1 |} _ _ H2).
  eexists. split; reflexivity.
Qed.

(** *** Tips *)

Lemma rowid_only_insert sch rows vals :
  rowid_alias sch = Some "id" -> uniques sch = [["id"]] ->
  has_column sch "id" = true -> cell vals "id" = Null ->
  insert_or_ignore sch rows vals = rows ++ [make_row sch rows vals].
Proof.
  intros Hpk Hu Hid Hv. unfold insert_or_ignore, conflicts. rewrite Hu. simpl.
  rewrite orb_false_r.
  assert (H1 : existsb (agrees ["id"] (make_row sch rows vals)) rows = false).
  { apply not_true_is_false. intros H. apply existsb_exists in H.
    destruct H as (r & Hin & Ha). unfold agrees in Ha. simpl in Ha.
    rewrite (cell_make_row _ _ _ _ Hid), Hpk, Hv in Ha. simpl in Ha.
    rewrite (next_rowid_fresh _ _ _ Hin) in Ha. discriminate. }
  rewrite H1. reflexivity.
Qed.

Lemma tip_insert_statement_keys record u b vals :
  tip_insert_statement record u b = Ok vals ->
  map fst vals = ["business_id"; "user_id"; "text"; "date"; "compliment_count"].
Proof.
  unfold tip_insert_statement. intros H. inv_result H. reflexivity.
Qed.

Lemma preserves_tips_get_add_user_id j :
  preserves T_tips (_get_add_user_id T_users j).
Proof. unfold _get_add_user_id. footprint. Qed.

(** Every tip that is loaded adds one row. *)
Lemma load_tip_adds_row record d d' :
  load_tip record d = Ok (tt, d') ->
  List.length (tips d') = S (List.length (tips d)).
Proof.
  unfold load_tip. intros H. inv_conn H.
  match goal with
  | Hu : _get_add_user_id _ _ _ = Ok _ |- _ =>
      pose proof (preserves_tips_get_add_user_id _ _ _ _ Hu) as Hpu
  end.
  match goal with
  | Hb : _get_add_business_id _ _ _ = Ok _ |- _ =>
      destruct (get_add_business_id_inv _ _ _ _ Hb) as (-> & _)
  end.
  match goal with
  | Hs : tip_insert_statement _ _ _ = Ok _ |- _ =>
      pose proof (tip_insert_statement_keys _ _ _ _ Hs) as Hkeys
  end.
  match goal with
  | Hi : execute_insert_or_ignore _ _ _ = Ok _ |- _ =>
      unfold execute_insert_or_ignore in Hi; inv_result Hi
  end.
  match goal with
  | Hb : bind_values _ = Ok ?r |- _ =>
      rewrite (rowid_only_insert (schema_of T_tips) _ r eq_refl eq_refl eq_refl)
        by (apply cell_not_key; rewrite (bind_values_keys _ _ Hb), Hkeys;
            reflexivity)
  end.
  change (tips (with_rows T_tips ?x ?y)) with (rows_of T_tips (with_rows T_tips x y)).
  rewrite rows_of_with_rows, length_app. simpl.
  change (rows_of T_tips d0) with (tips d0) in *.
  change (rows_of T_tips d) with (tips d) in *.
  rewrite Hpu. lia.
Qed.

Lemma load_tips_count lines :
  forall d d',
    for_each load_tip lines d = Ok (tt, d') ->
    List.length (tips d') = (List.length (tips d) + List.length lines)%nat.
Proof.
  induction lines as [|x lines IH]; intros d d' H.
  - apply ret_inv in H. destruct H as [_ ->]. simpl. lia.
  - apply for_each_cons_inv in H. destruct H as (d1 & H1 & H2).
    rewrite (IH _ _ H2), (load_tip_adds_row _ _ _ H1). simpl. lia.
Qed.

Lemma load_tip_json_count file verbose w w1 :
  _load_tip_json file verbose w = Ok (tt, w1) ->
  List.length (tips (db w1))
  = (List.length (tips (db w)) + List.length (Utils.lines file))%nat.
Proof.
  unfold _load_tip_json, pbind. intros H.
  destruct (verbose_loading_run (Utils.name file) false verbose w) as (out & Hv).
  rewrite Hv in H. apply begin_inv in H. destruct H as [H _]. cbn [db] in H.
  apply (load_tips_count _ _ _ H).
Qed.

(** C2 fails on the code for tips: the tips table has no natural key and no
    uniqueness constraint besides its rowid, so a tip file loaded twice leaves
    each of its tips twice. *)
Lemma tips_doubled_on_reload :
  row_count Tip (load_times Tip sample_tip_file false 1 sample_world) = Some 1%nat
  /\ row_count Tip (load_times Tip sample_tip_file false 2 sample_world) = Some 2%nat.
Proof. split; vm_compute; reflexivity. Qed.

(** C2, amended.  A Business, User, Review or Photo file that has been
    loaded, and each of whose records has a natural key of its own (not
    [null]), can be loaded again: the second run goes through, every record
    of it is a no-op as its natural key is there, the database is left as it
    was, and so the row count after two loads is the row count after one.  A
    Tip file has no natural key: each load that goes through adds one row per
    record. *)
Theorem reload_is_noop (e : entity) file verbose w w1 :
  own_keys e file = true ->
  loader e file verbose w = Ok (tt, w1) ->
  match e with
  | Tip =>
      List.length (tips (db w1))
      = (List.length (tips (db w)) + List.length (Utils.lines file))%nat
  | _ =>
      (exists w2, loader e file verbose w1 = Ok (tt, w2) /\ db w2 = db w1)
      /\ row_count e (load_times e file verbose 2 w)
         = row_count e (load_times e file verbose 1 w)
  end.
Proof.
  intros Hown H.
  assert (Hcount :
            (exists w2, loader e file verbose w1 = Ok (tt, w2) /\ db w2 = db w1) ->
            row_count e (load_times e file verbose 2 w)
            = row_count e (load_times e file verbose 1 w)).
  { intros (w2 & H2 & Hd). simpl. unfold pbind, pret. rewrite H, H2. simpl.
    rewrite Hd. reflexivity. }
  destruct e; simpl in *.
  - pose proof (load_business_twice _ _ _ _ H) as H2. split; auto.
  - pose proof (load_users_twice _ _ _ _ Hown H) as H2. split; auto.
  - pose proof (load_review_twice _ _ _ _ Hown H) as H2. split; auto.
  - apply (load_tip_json_count _ _ _ _ H).
  - pose proof (load_photos_twice _ _ _ _ Hown H) as H2. split; auto.
Qed.

Lemma reload_is_noop_witness :
  exists w1,
    _load_review_json sample_review_file true sample_world = Ok (tt, w1)
    /\ (exists w2, _load_review_json sample_review_file true w1 = Ok (tt, w2)
                   /\ db w2 = db w1)
    /\ row_count Review (load_times Review sample_review_file true 2 sample_world)
       = row_count Review (load_times Review sample_review_file true 1 sample_world).
Proof.
  eexists. split; [vm_compute; reflexivity|].
  match goal with
  | |- (exists w2, _ ?w1 = _ /\ _) /\ _ =>
      assert (Hrun : loader Review sample_review_file true sample_world = Ok (tt, w1))
        by (vm_compute; reflexivity)
  end.
  exact (reload_is_noop Review sample_review_file true sample_world _
           eq_refl Hrun).
Defined.

(** * Further properties *)

(** ** The flat mapping is a dict *)

Lemma in_keys_dict_set {V} k k0 (v0 : V) d :
  In k (map fst (dict_set k0 v0 d)) -> k = k0 \/ In k (map fst d).
Proof.
  induction d as [|[k1 v1] d IH]; simpl.
  - intros [H|[]]; auto.
  - destruct (String.eqb k0 k1); simpl; intros [H|H]; auto.
    destruct (IH H); auto.
Qed.

Lemma keys_dict_set {V} k (v : V) d :
  NoDup (map fst d) -> NoDup (map fst (dict_set k v d)).
Proof.
  induction d as [|[k1 v1] d IH]; simpl; intros H.
  - constructor; [intros [] | constructor].
  - destruct (String.eqb k k1) eqn:E; simpl; [exact H|].
    inversion H as [|? ? Hnot Hrest]. subst. constructor; [|apply IH, Hrest].
    intros Hin. destruct (in_keys_dict_set _ _ _ _ Hin) as [->|Hd].
    + rewrite String.eqb_refl in E. discriminate.
    + contradiction.
Qed.

Lemma flatten_sub_nodup key m :
  forall acc out,
    Utils.flatten_sub key m acc = Ok out ->
    NoDup (map fst acc) -> NoDup (map fst out).
Proof.
  induction m as [|[sk sv] m IH]; simpl; intros acc out H Hacc.
  - inversion H. subst. exact Hacc.
  - destruct sk; try discriminate.
    apply (IH _ _ H). apply keys_dict_set, Hacc.
Qed.

Lemma flatten_item_inv acc key value out :
  Utils.flatten_item acc (key, value) = Ok out ->
  exists src v,
    value = JStr src /\ Py.eval src = Ok v /\
    match v with
    | Py.VDict m => Utils.flatten_sub key m acc = Ok out
    | _ => out = dict_set key (Py.str v) acc
    end.
Proof.
  unfold Utils.flatten_item. intros H.
  destruct value as [| | | |src| |]; try discriminate.
  destruct (Py.eval src) as [v|e] eqn:Ev; [|discriminate].
  exists src, v. split; [reflexivity|]. split; [exact Ev|].
  simpl in H. destruct v; first [exact H | inversion H; reflexivity].
Qed.

Lemma flatten_loop_cons_inv key value items acc out :
  Utils.flatten_loop ((key, value) :: items) acc = Ok out ->
  exists mid,
    Utils.flatten_item acc (key, value) = Ok mid /\
    Utils.flatten_loop items mid = Ok out.
Proof.
  intros H.
  change (rbind (Utils.flatten_item acc (key, value))
                (fun a => Utils.flatten_loop items a) = Ok out) in H.
  apply rbind_inv in H. exact H.
Qed.

Lemma flatten_loop_nodup items :
  forall acc out,
    Utils.flatten_loop items acc = Ok out ->
    NoDup (map fst acc) -> NoDup (map fst out).
Proof.
  induction items as [|[key value] items IH]; intros acc out H Hacc.
  - inversion H. subst. exact Hacc.
  - apply flatten_loop_cons_inv in H. destruct H as (mid & Hmid & Hrest).
    apply (IH _ _ Hrest).
    apply flatten_item_inv in Hmid. destruct Hmid as (src & v & _ & _ & Hv).
    destruct v; try (subst mid; apply keys_dict_set, Hacc).
    apply (flatten_sub_nodup _ _ _ _ Hv Hacc).
Qed.

Lemma flatten_dict_inv attribute_dict out :
  Utils.flatten_dict attribute_dict = Ok (Some out) ->
  exists items, attribute_dict = JObj items /\ Utils.flatten_loop items [] = Ok out.
Proof.
  destruct attribute_dict; try discriminate.
  unfold Utils.flatten_dict. intros H. apply rbind_inv in H.
  destruct H as (o & H1 & H2). inversion H2. subst. eauto.
Qed.

(** X1.  Whatever its input, a mapping that [flatten_dict] returns has no
    key twice: an entry that yields a key already there ([a_b] next to the
    entry [a] holding [{'b': ...}]) replaces the value and adds no entry. *)
Theorem flatten_dict_keys_unique attribute_dict out :
  Utils.flatten_dict attribute_dict = Ok (Some out) ->
  NoDup (map fst out).
Proof.
  intros H. apply flatten_dict_inv in H. destruct H as (items & _ & H).
  apply (flatten_loop_nodup _ _ _ H). constructor.
Qed.

Lemma flatten_dict_keys_unique_witness :
  Utils.flatten_dict (JObj [("a_b", JStr "1"); ("a", JStr "{'b': 2, 'c': 3}")])
  = Ok (Some [("a_b", "2"); ("a_c", "3")])
  /\ NoDup (map fst [("a_b", "2"); ("a_c", "3")]).
Proof.
  split; [vm_compute; reflexivity|].
  apply (flatten_dict_keys_unique
           (JObj [("a_b", JStr "1"); ("a", JStr "{'b': 2, 'c': 3}")])).
  vm_compute. reflexivity.
Defined.

Lemma flatten_sub_string_keys key m :
  forall acc out,
    Utils.flatten_sub key m acc = Ok out ->
    forallb (fun kv => match fst kv with Py.VStr _ => true | _ => false end) m = true.
Proof.
  induction m as [|[sk sv] m IH]; simpl; intros acc out H; [reflexivity|].
  destruct sk; try discriminate. simpl. apply (IH _ _ H).
Qed.

(** X2.  [flatten_dict] returns a mapping only for the inputs C5 speaks of:
    if it returns one, every value of the input is a string that the
    evaluator decodes, and every decoded mapping has string keys.  A value
    that is a number, a bool, [null], a list or a dict, a string that does
    not evaluate, or an inner key that is not a string makes it raise. *)
Theorem flatten_dict_needs_decodable items out :
  Utils.flatten_dict (JObj items) = Ok (Some out) ->
  forallb (fun kv => decodable (snd kv)) items = true.
Proof.
  intros H. apply flatten_dict_inv in H.
  destruct H as (items' & E & H). inversion E. subst items'. clear E.
  revert H. generalize (@nil (string * string)) as acc. revert out.
  induction items as [|[key value] items IH]; intros out acc H; [reflexivity|].
  apply flatten_loop_cons_inv in H. destruct H as (mid & Hmid & Hrest).
  simpl. rewrite (IH _ _ Hrest), andb_true_r.
  apply flatten_item_inv in Hmid. destruct Hmid as (src & v & -> & Ev & Hv).
  unfold decodable. rewrite Ev. destruct v; try reflexivity.
  apply (flatten_sub_string_keys _ _ _ _ Hv).
Qed.

Lemma flatten_dict_needs_decodable_witness :
  Utils.flatten_dict (JObj [("WiFi", JStr "u'free'"); ("Alcohol", JStr "None")])
  = Ok (Some [("WiFi", "free"); ("Alcohol", "None")])
  /\ forallb (fun kv => decodable (snd kv))
             [("WiFi", JStr "u'free'"); ("Alcohol", JStr "None")] = true.
Proof.
  split; [vm_compute; reflexivity|].
  apply (flatten_dict_needs_decodable
           [("WiFi", JStr "u'free'"); ("Alcohol", JStr "None")]
           [("WiFi", "free"); ("Alcohol", "None")]).
  vm_compute. reflexivity.
Defined.

(** ** Discovery of the source files *)

Lemma find_app_last {A} (f : A -> bool) l x :
  find f (l ++ [x])
  = match find f l with
    | Some y => Some y
    | None => if f x then Some x else None
    end.
Proof.
  induction l as [|y l IH]; simpl; [reflexivity|].
  destruct (f y); [reflexivity | exact IH].
Qed.

Lemma discover_step found p :
  discover found p =
  {| business_file_path :=
       if is_kind BusinessFile p then Some p else business_file_path found;
     user_file_path :=
       if is_kind UserFile p then Some p else user_file_path found;
     review_file_path :=
       if is_kind ReviewFile p then Some p else review_file_path found;
     checkin_file_path :=
       if is_kind CheckinFile p then Some p else checkin_file_path found;
     tip_file_path :=
       if is_kind TipFile p then Some p else tip_file_path found;
     photo_file_path :=
       if is_kind PhotoFile p then Some p else photo_file_path found |}.
Proof.
  unfold discover, is_kind, kind_of_name. destruct found. simpl.
  destruct (String.eqb (Py.suffix (Utils.name p)) ".json"); [|reflexivity].
  repeat match goal with
         | |- context [if Py.contains ?a ?b then _ else _] =>
             destruct (Py.contains a b)
         end; reflexivity.
Qed.

Lemma last_of_kind_cons k p folder :
  last_of_kind k (p :: folder)
  = match last_of_kind k folder with
    | Some q => Some q
    | None => if is_kind k p then Some p else None
    end.
Proof. unfold last_of_kind. simpl. apply find_app_last. Qed.

Lemma fold_discover_last folder :
  forall found,
    fold_left discover folder found =
    {| business_file_path :=
         match last_of_kind BusinessFile folder with
         | Some p => Some p
         | None => business_file_path found
         end;
       user_file_path :=
         match last_of_kind UserFile folder with
         | Some p => Some p
         | None => user_file_path found
         end;
       review_file_path :=
         match last_of_kind ReviewFile folder with
         | Some p => Some p
         | None => review_file_path found
         end;
       checkin_file_path :=
         match last_of_kind CheckinFile folder with
         | Some p => Some p
         | None => checkin_file_path found
         end;
       tip_file_path :=
         match last_of_kind TipFile folder with
         | Some p => Some p
         | None => tip_file_path found
         end;
       photo_file_path :=
         match last_of_kind PhotoFile folder with
         | Some p => Some p
         | None => photo_file_path found
         end |}.
Proof.
  induction folder as [|p folder IH]; intros found.
  - destruct found. reflexivity.
  - cbn [fold_left]. rewrite IH, discover_step.
    cbn [business_file_path user_file_path review_file_path checkin_file_path
         tip_file_path photo_file_path].
    rewrite !last_of_kind_cons.
    f_equal;
      match goal with
      | |- context [last_of_kind ?k folder] =>
          destruct (last_of_kind k folder); [reflexivity|];
          destruct (is_kind k p); reflexivity
      end.
Qed.

(** X3.  The discovery loop of [create_full_database] ends with, for each
    kind, the last file of the folder whose name ends in [.json] and holds
    the keyword of the kind and none of an earlier branch (a name holding
    both [business] and [review] is a Business file); files with another
    suffix or without a keyword, and earlier files of the same kind, play no
    part. *)
Theorem discovery_takes_last folder :
  fold_left discover folder nothing_discovered =
  {| business_file_path := last_of_kind BusinessFile folder;
     user_file_path := last_of_kind UserFile folder;
     review_file_path := last_of_kind ReviewFile folder;
     checkin_file_path := last_of_kind CheckinFile folder;
     tip_file_path := last_of_kind TipFile folder;
     photo_file_path := last_of_kind PhotoFile folder |}.
Proof.
  rewrite fold_discover_last. cbn [nothing_discovered business_file_path
    user_file_path review_file_path checkin_file_path tip_file_path photo_file_path].
  f_equal;
    match goal with
    | |- context [last_of_kind ?k folder] => destruct (last_of_kind k folder)
    end; reflexivity.
Qed.

Lemma last_of_kind_absent k folder :
  absent k folder = true <-> last_of_kind k folder = None.
Proof.
  induction folder as [|p folder IH].
  - split; reflexivity.
  - rewrite last_of_kind_cons. unfold absent in *. cbn [forallb].
    rewrite andb_true_iff, IH. unfold is_kind.
    destruct (last_of_kind k folder) as [q|].
    + split; [intros [_ H] | intros H]; discriminate.
    + destruct (kind_of_name (Utils.name p)) as [k'|].
      * destruct (file_kind_eqb k k'); simpl; split;
          try discriminate; try tauto.
        intros [H _]. discriminate.
      * tauto.
Qed.

Lemma pbind_inv {A B} (m : proc A) (k : A -> proc B) w r :
  pbind m k w = Ok r -> exists a w1, m w = Ok (a, w1) /\ k a w1 = Ok r.
Proof.
  unfold pbind. destruct (m w) as [[a w1]|e]; [eauto | discriminate].
Qed.

(** X4.  [create_full_database] returns a number exactly when the folder
    lacks a Business, a User or a Review file.  With the three in the folder
    the loaders run, and the call returns [None] or raises what a loader
    raises. *)
Theorem returns_number_iff_mandatory_missing folder verbose include_photos w :
  (exists z w',
     create_full_database folder verbose include_photos w = Ok (Some z, w'))
  <-> absent BusinessFile folder = true \/ absent UserFile folder = true
      \/ absent ReviewFile folder = true.
Proof.
  rewrite !last_of_kind_absent. unfold create_full_database.
  rewrite fold_discover_last.
  cbn [nothing_discovered business_file_path user_file_path review_file_path
       checkin_file_path tip_file_path photo_file_path].
  destruct (last_of_kind BusinessFile folder) as [b|];
    [|split; [auto | intros _; eexists; eexists; reflexivity]].
  destruct (last_of_kind UserFile folder) as [u|];
    [|split; [auto | intros _; eexists; eexists; reflexivity]].
  destruct (last_of_kind ReviewFile folder) as [r|];
    [|split; [auto | intros _; eexists; eexists; reflexivity]].
  split.
  - intros (z & w' & H). exfalso.
    repeat match goal with
           | H : pbind _ _ _ = Ok _ |- _ =>
               apply pbind_inv in H; destruct H as (? & ? & _ & H)
           end.
    discriminate H.
  - intros [H|[H|H]]; discriminate H.
Qed.

(** ** What a pass leaves alone *)

Lemma verbose_loading_prints file_name connecting verbose w :
  verbose_loading file_name connecting verbose w
  = Ok (tt, {| db := db w;
               stdout := stdout w ++ announcement file_name connecting verbose |}).
Proof.
  unfold verbose_loading, announcement, print, pret.
  destruct verbose; [destruct connecting; reflexivity|].
  rewrite app_nil_r. destruct w. reflexivity.
Qed.

(** A pass made of an announcement and a transaction. *)
Lemma announced_inv {A} file_name connecting verbose (body : conn A) w a w' :
  pbind (verbose_loading file_name connecting verbose) (fun _ => begin body) w
  = Ok (a, w') ->
  body (db w) = Ok (a, db w')
  /\ stdout w' = stdout w ++ announcement file_name connecting verbose.
Proof.
  unfold pbind. rewrite verbose_loading_prints. intros H.
  apply begin_inv in H. exact H.
Qed.

Lemma load_business_json_inv file verbose w w' :
  _load_business_json file verbose w = Ok (tt, w') ->
  for_each (load_business day_id_days_dict) (Utils.lines file)
    (with_rows T_days
       (insert_many_or_ignore (schema_of T_days) (days (db w)) day_rows) (db w))
  = Ok (tt, db w')
  /\ stdout w' = stdout w ++ announcement (Utils.name file) false verbose.
Proof.
  unfold _load_business_json, pbind. rewrite verbose_loading_prints.
  rewrite initialize_days_table_run. cbn [db stdout]. intros H.
  apply begin_inv in H. exact H.
Qed.

Lemma preserves_execute_update t' t w vals :
  t <> t' -> preserves t' (execute_update t w vals).
Proof.
  intros Hne d a d' H. unfold execute_update in H. inv_result H.
  apply rows_of_with_rows_other, Hne.
Qed.

Lemma preserves_get_add_business_id t j :
  preserves t (_get_add_business_id T_business j).
Proof.
  intros d id d' H. apply get_add_business_id_inv in H.
  destruct H as (-> & _). reflexivity.
Qed.

Lemma preserves_refused_insert t p :
  preserves t (execute_insert T_business [("user_id_str", p)]).
Proof. intros d a d' H. discriminate H. Qed.

Lemma preserves_get_add_user_id t j :
  t <> T_users -> preserves t (_get_add_user_id T_users j).
Proof.
  intros Hne. unfold _get_add_user_id. footprint.
  apply preserves_execute_insert. congruence.
Qed.

Lemma preserves_load_business t dict record :
  writes_to LoadBusiness t = false -> preserves t (load_business dict record).
Proof.
  intros Ht.
  destruct t; try discriminate Ht;
    unfold load_business, load_categories, load_attributes, load_hours; footprint.
Qed.

Lemma preserves_load_user t record :
  writes_to LoadUsers t = false -> preserves t (load_user record).
Proof.
  intros Ht.
  destruct t; try discriminate Ht; unfold load_user, load_elite; footprint.
Qed.

Lemma preserves_connect_user t record :
  writes_to ConnectUsers t = false -> preserves t (connect_user record).
Proof.
  intros Ht.
  destruct t; try discriminate Ht; unfold connect_user; footprint;
    apply preserves_execute_update; discriminate.
Qed.

Lemma preserves_load_review t record :
  writes_to LoadReviews t = false -> preserves t (load_review record).
Proof.
  intros Ht.
  destruct t; try discriminate Ht; unfold load_review; footprint;
    first [ apply preserves_get_add_business_id
          | apply preserves_refused_insert
          | apply preserves_get_add_user_id; discriminate ].
Qed.

Lemma preserves_load_checkin t record :
  writes_to LoadCheckins t = false -> preserves t (load_checkin record).
Proof.
  intros Ht.
  destruct t; try discriminate Ht; unfold load_checkin; footprint;
    first [apply preserves_get_add_business_id | apply preserves_refused_insert].
Qed.

Lemma preserves_load_tip t record :
  writes_to LoadTips t = false -> preserves t (load_tip record).
Proof.
  intros Ht.
  destruct t; try discriminate Ht; unfold load_tip; footprint;
    first [ apply preserves_get_add_business_id
          | apply preserves_refused_insert
          | apply preserves_get_add_user_id; discriminate ].
Qed.

Lemma preserves_load_photo t record :
  writes_to LoadPhotos t = false -> preserves t (load_photo record).
Proof.
  intros Ht.
  destruct t; try discriminate Ht; unfold load_photo; footprint;
    first [apply preserves_get_add_business_id | apply preserves_refused_insert].
Qed.

(** The frame of a pass, for the table [t]. *)
Lemma run_pass_frame p t file verbose w w' :
  writes_to p t = false ->
  run_pass p file verbose w = Ok (tt, w') ->
  rows_of t (db w') = rows_of t (db w).
Proof.
  intros Ht H. destruct p; cbn [run_pass] in H.
  - apply load_business_json_inv in H. destruct H as [H _].
    rewrite (preserves_for_each t _ _
               (fun x => preserves_load_business t day_id_days_dict x Ht) _ _ _ H).
    apply rows_of_with_rows_other. intros <-. discriminate Ht.
  - apply announced_inv in H. destruct H as [H _].
    apply (preserves_for_each t _ _ (fun x => preserves_load_user t x Ht) _ _ _ H).
  - apply announced_inv in H. destruct H as [H _].
    apply (preserves_for_each t _ _ (fun x => preserves_connect_user t x Ht) _ _ _ H).
  - apply announced_inv in H. destruct H as [H _].
    apply (preserves_for_each t _ _ (fun x => preserves_load_review t x Ht) _ _ _ H).
  - apply announced_inv in H. destruct H as [H _].
    apply (preserves_for_each t _ _ (fun x => preserves_load_checkin t x Ht) _ _ _ H).
  - apply announced_inv in H. destruct H as [H _].
    apply (preserves_for_each t _ _ (fun x => preserves_load_tip t x Ht) _ _ _ H).
  - apply announced_inv in H. destruct H as [H _].
    apply (preserves_for_each t _ _ (fun x => preserves_load_photo t x Ht) _ _ _ H).
Qed.

(** X5.  Each pass writes to its own tables only: the business pass to
    [business], [days], [category], [category_business], [attributes],
    [business_attributes] and [hours]; the users pass to [users] and [elite];
    the linker to [users] and [friends]; the review and tip passes to their
    table and to [users] (the stubs); the check-in and photo passes to their
    table.  Every other table is left as it was; in particular no pass but
    the first adds a business. *)
Theorem pass_writes_its_tables p file verbose w w' :
  run_pass p file verbose w = Ok (tt, w') ->
  forall t, writes_to p t = false -> rows_of t (db w') = rows_of t (db w).
Proof. intros H t Ht. apply (run_pass_frame p t file verbose w w' Ht H). Qed.

Lemma pass_writes_its_tables_witness :
  exists w',
    run_pass LoadCheckins
      {| Utils.name := "checkin.json";
         Utils.lines := [sample_checkin "b1" "2020-01-01 10:00:00, 2020-01-02 11:00:00"] |}
      true sample_world = Ok (tt, w')
    /\ forall t, writes_to LoadCheckins t = false ->
                 rows_of t (db w') = rows_of t (db sample_world).
Proof.
  eexists. split; [vm_compute; reflexivity|].
  apply (pass_writes_its_tables LoadCheckins
           {| Utils.name := "checkin.json";
              Utils.lines :=
                [sample_checkin "b1" "2020-01-01 10:00:00, 2020-01-02 11:00:00"] |}
           true sample_world).
  vm_compute. reflexivity.
Defined.

Lemma optional_pass_frame p t (file : option Utils.path) verbose w w' :
  writes_to p t = false ->
  match file with
  | Some file => run_pass p file verbose
  | None => pret tt
  end w = Ok (tt, w') ->
  rows_of t (db w') = rows_of t (db w).
Proof.
  intros Ht H. destruct file as [file|].
  - apply (run_pass_frame p t file verbose w w' Ht H).
  - inversion H. reflexivity.
Qed.

Lemma optional_pass_prints p (file : option Utils.path) verbose w w' :
  p <> ConnectUsers ->
  match file with
  | Some file => run_pass p file verbose
  | None => pret tt
  end w = Ok (tt, w') ->
  stdout w' = stdout w ++ optional_announcement file verbose.
Proof.
  intros Hp H. destruct file as [file|].
  - destruct p; try contradiction; cbn [run_pass] in H;
      first [ apply load_business_json_inv in H | apply announced_inv in H ];
      apply (proj2 H).
  - inversion H. simpl. symmetry. apply app_nil_r.
Qed.

(** Taking apart a successful run of the orchestrator. *)
Ltac inv_proc H :=
  lazymatch type of H with
  | pbind _ _ _ = Ok _ =>
      let a := fresh "u" in
      let w := fresh "w" in
      let H1 := fresh "H" in
      apply pbind_inv in H; destruct H as (a & w & H1 & H);
      try destruct a; inv_proc H
  | _ => idtac
  end.

(** X6.  With [include_photos=False], or without a Photo file, a run of
    [create_full_database] leaves the photos table as it was, whatever the
    folder holds. *)
Theorem photos_only_on_request folder verbose include_photos w r w' :
  include_photos = false \/ absent PhotoFile folder = true ->
  create_full_database folder verbose include_photos w = Ok (r, w') ->
  photos (db w') = photos (db w).
Proof.
  intros Hp. unfold create_full_database. rewrite fold_discover_last.
  cbn [nothing_discovered business_file_path user_file_path review_file_path
       checkin_file_path tip_file_path photo_file_path].
  destruct (last_of_kind BusinessFile folder) as [b|];
    [|intros H; inversion H; reflexivity].
  destruct (last_of_kind UserFile folder) as [u|];
    [|intros H; inversion H; reflexivity].
  destruct (last_of_kind ReviewFile folder) as [rv|];
    [|intros H; inversion H; reflexivity].
  intros H. inv_proc H.
  assert (Hlast : photos (db w') = photos (db w5)).
  { inversion H. subst.
    destruct Hp as [-> | Hp].
    - match goal with
      | Hph : match ?f with _ => _ end _ = Ok _ |- _ =>
          destruct f; inversion Hph; reflexivity
      end.
    - apply last_of_kind_absent in Hp. rewrite Hp in *.
      match goal with
      | Hph : pret tt _ = Ok _ |- _ => inversion Hph; reflexivity
      end. }
  rewrite Hlast.
  change (rows_of T_photos (db w5) = rows_of T_photos (db w)).
  rewrite (optional_pass_frame LoadTips T_photos _ _ _ _ eq_refl H5).
  rewrite (optional_pass_frame LoadCheckins T_photos _ _ _ _ eq_refl H4).
  rewrite (run_pass_frame LoadReviews T_photos _ _ _ _ eq_refl H3).
  rewrite (run_pass_frame ConnectUsers T_photos _ _ _ _ eq_refl H2).
  rewrite (run_pass_frame LoadUsers T_photos _ _ _ _ eq_refl H1).
  apply (run_pass_frame LoadBusiness T_photos _ _ _ _ eq_refl H0).
Qed.

Lemma photos_only_on_request_witness :
  exists w',
    create_full_database sample_folder true false empty_world = Ok (None, w')
    /\ photos (db w') = photos (db empty_world).
Proof.
  eexists. split; [vm_compute; reflexivity|].
  apply (photos_only_on_request sample_folder true false empty_world None).
  - left. reflexivity.
  - vm_compute. reflexivity.
Defined.

(** ** What [verbose] changes *)

Lemma run_pass_prints p file verbose w w' :
  run_pass p file verbose w = Ok (tt, w') ->
  stdout w' = stdout w ++ pass_announcement p file verbose.
Proof.
  intros H. unfold pass_announcement.
  destruct p; cbn [run_pass] in H;
    first [ apply load_business_json_inv in H | apply announced_inv in H ];
    destruct H as [_ ->]; reflexivity.
Qed.

Lemma option_eta {A} (o : option A) :
  match o with Some a => Some a | None => None end = o.
Proof. destruct o; reflexivity. Qed.

(** X7.  A run of [create_full_database] that goes through prints, with
    [verbose], one line per pass, in the order of the passes: the Business
    file, the User file, the linking of the users, the Review file, then the
    Check-in, Tip and Photo files that are there (the latter with
    [include_photos] only); without [verbose] it prints nothing.  The files
    named are the last of their kind in the folder. *)
Theorem passes_in_order folder verbose include_photos w w' :
  create_full_database folder verbose include_photos w = Ok (None, w') ->
  exists b u r,
    last_of_kind BusinessFile folder = Some b
    /\ last_of_kind UserFile folder = Some u
    /\ last_of_kind ReviewFile folder = Some r
    /\ stdout w'
       = stdout w
         ++ pass_announcement LoadBusiness b verbose
         ++ pass_announcement LoadUsers u verbose
         ++ pass_announcement ConnectUsers u verbose
         ++ pass_announcement LoadReviews r verbose
         ++ optional_announcement (last_of_kind CheckinFile folder) verbose
         ++ optional_announcement (last_of_kind TipFile folder) verbose
         ++ (if include_photos
             then optional_announcement (last_of_kind PhotoFile folder) verbose
             else []).
Proof.
  unfold create_full_database. rewrite fold_discover_last.
  cbn [nothing_discovered business_file_path user_file_path review_file_path
       checkin_file_path tip_file_path photo_file_path].
  destruct (last_of_kind BusinessFile folder) as [b|]; [|discriminate].
  destruct (last_of_kind UserFile folder) as [u|]; [|discriminate].
  destruct (last_of_kind ReviewFile folder) as [rv|]; [|discriminate].
  rewrite !option_eta. intros H. inv_proc H.
  exists b, u, rv. repeat (split; [reflexivity|]).
  assert (Hlast : stdout w'
                  = stdout w5
                    ++ (if include_photos
                        then optional_announcement (last_of_kind PhotoFile folder)
                                                   verbose
                        else [])).
  { inversion H. subst. destruct include_photos.
    - apply (optional_pass_prints LoadPhotos _ _ _ _ ltac:(discriminate) H6).
    - rewrite app_nil_r.
      destruct (last_of_kind PhotoFile folder); inversion H6; reflexivity. }
  rewrite Hlast.
  rewrite (optional_pass_prints LoadTips _ _ _ _ ltac:(discriminate) H5).
  rewrite (optional_pass_prints LoadCheckins _ _ _ _ ltac:(discriminate) H4).
  rewrite (run_pass_prints LoadReviews _ _ _ _ H3).
  rewrite (run_pass_prints ConnectUsers _ _ _ _ H2).
  rewrite (run_pass_prints LoadUsers _ _ _ _ H1).
  rewrite (run_pass_prints LoadBusiness _ _ _ _ H0).
  rewrite <- !app_assoc. reflexivity.
Qed.

Lemma passes_in_order_witness :
  exists w',
    create_full_database sample_folder true false empty_world = Ok (None, w')
    /\ stdout w'
       = ["Loading: yelp_academic_dataset_business.json";
          "Loading: yelp_academic_dataset_user.json";
          "Connecting Users";
          "Loading: yelp_academic_dataset_review.json";
          "Loading: yelp_academic_dataset_checkin.json";
          "Loading: yelp_academic_dataset_tip.json"].
Proof.
  eexists. split; [vm_compute; reflexivity|].
  match goal with
  | |- stdout ?w1 = _ =>
      assert (Hrun : create_full_database sample_folder true false empty_world
                     = Ok (None, w1)) by (vm_compute; reflexivity);
      destruct (passes_in_order sample_folder true false empty_world w1 Hrun)
        as (b & u & r & Hb & Hu & Hr & Hout)
  end.
  vm_compute in Hb, Hu, Hr. inversion Hb. inversion Hu. inversion Hr.
  subst b u r. rewrite Hout. vm_compute. reflexivity.
Defined.

Lemma pbind_outcome {A B} (m1 m2 : proc A) (k1 k2 : A -> proc B) w w0 :
  outcome (m1 w) = outcome (m2 w0) ->
  (forall a w1 w2, db w1 = db w2 -> outcome (k1 a w1) = outcome (k2 a w2)) ->
  outcome (pbind m1 k1 w) = outcome (pbind m2 k2 w0).
Proof.
  unfold pbind. intros Hm Hk.
  destruct (m1 w) as [[a w1]|e], (m2 w0) as [[a' w2]|e'];
    simpl in Hm; inversion Hm; subst; [|reflexivity].
  apply Hk. assumption.
Qed.

Lemma announced_outcome {A} file_name connecting verbose (body : conn A) w w0 :
  db w = db w0 ->
  outcome (pbind (verbose_loading file_name connecting verbose)
                 (fun _ => begin body) w)
  = outcome (pbind (verbose_loading file_name connecting false)
                   (fun _ => begin body) w0).
Proof.
  intros Hd. unfold pbind. rewrite !verbose_loading_prints.
  unfold begin. cbn [db]. rewrite Hd.
  destruct (body (db w0)) as [[a d']|e]; reflexivity.
Qed.

Lemma run_pass_outcome p file verbose w w0 :
  db w = db w0 ->
  outcome (run_pass p file verbose w) = outcome (run_pass p file false w0).
Proof.
  intros Hd. destruct p; cbn [run_pass]; try apply (announced_outcome _ _ _ _ _ _ Hd).
  unfold _load_business_json, pbind. rewrite !verbose_loading_prints.
  rewrite !initialize_days_table_run. unfold begin. cbn [db]. rewrite Hd.
  match goal with
  | |- context [for_each ?b ?l ?d] => destruct (for_each b l d) as [[a d']|e]
  end; reflexivity.
Qed.

Lemma optional_pass_outcome p (file : option Utils.path) verbose w w0 :
  db w = db w0 ->
  outcome (match file with
           | Some file => run_pass p file verbose
           | None => pret tt
           end w)
  = outcome (match file with
             | Some file => run_pass p file false
             | None => pret tt
             end w0).
Proof.
  intros Hd. destruct file as [file|].
  - apply run_pass_outcome, Hd.
  - simpl. rewrite Hd. reflexivity.
Qed.

(** X8.  [verbose] changes what is printed and nothing else: with or
    without it, and whatever was printed before, [create_full_database]
    returns the same, raises the same and leaves the same database. *)
Theorem verbose_only_prints folder verbose include_photos d out :
  outcome (create_full_database folder verbose include_photos
             {| db := d; stdout := out |})
  = outcome (create_full_database folder false include_photos
               {| db := d; stdout := [] |}).
Proof.
  unfold create_full_database. rewrite fold_discover_last.
  cbn [nothing_discovered business_file_path user_file_path review_file_path
       checkin_file_path tip_file_path photo_file_path].
  destruct (last_of_kind BusinessFile folder) as [b|]; [|reflexivity].
  destruct (last_of_kind UserFile folder) as [u|]; [|reflexivity].
  destruct (last_of_kind ReviewFile folder) as [rv|]; [|reflexivity].
  apply pbind_outcome; [apply (run_pass_outcome LoadBusiness); reflexivity|].
  intros _ w1 w2 H1.
  apply pbind_outcome; [apply (run_pass_outcome LoadUsers), H1|].
  intros _ w3 w4 H2.
  apply pbind_outcome; [apply (run_pass_outcome ConnectUsers), H2|].
  intros _ w5 w6 H3.
  apply pbind_outcome; [apply (run_pass_outcome LoadReviews), H3|].
  intros _ w7 w8 H4.
  apply pbind_outcome; [apply (optional_pass_outcome LoadCheckins), H4|].
  intros _ w9 w10 H5.
  apply pbind_outcome; [apply (optional_pass_outcome LoadTips), H5|].
  intros _ w11 w12 H6.
  apply pbind_outcome.
  - destruct include_photos.
    + apply (optional_pass_outcome LoadPhotos), H6.
    + destruct (last_of_kind PhotoFile folder); simpl; rewrite H6; reflexivity.
  - intros _ w13 w14 H7. simpl. rewrite H7. reflexivity.
Qed.

(** ** The days table *)

(** X9.  [_initialize_days_table] never raises and returns the dict
    Monday: 1, ..., Sunday: 7; it touches the days table only; in an empty
    table it leaves the seven days under these ids; and run again it changes
    nothing. *)
Theorem days_table_initialised w :
  exists w1,
    _initialize_days_table w = Ok (day_id_days_dict, w1)
    /\ _initialize_days_table w1 = Ok (day_id_days_dict, w1)
    /\ stdout w1 = stdout w
    /\ (forall t, t <> T_days -> rows_of t (db w1) = rows_of t (db w))
    /\ (days (db w) = [] -> days (db w1) = day_rows)
    /\ day_id_days_dict
       = [("Monday", 1); ("Tuesday", 2); ("Wednesday", 3); ("Thursday", 4);
          ("Friday", 5); ("Saturday", 6); ("Sunday", 7)]%Z.
Proof.
  eexists. split; [apply initialize_days_table_run|].
  split; [|split; [reflexivity|split; [|split; [|reflexivity]]]].
  - rewrite initialize_days_table_run. cbn [db stdout].
    change (days (with_rows T_days ?x ?d)) with (rows_of T_days (with_rows T_days x d)).
    rewrite rows_of_with_rows, day_rows_again.
    destruct (db w); reflexivity.
  - intros t Ht. cbn [db]. apply rows_of_with_rows_other. congruence.
  - intros He. cbn [db].
    change (days (with_rows T_days ?x ?d)) with (rows_of T_days (with_rows T_days x d)).
    rewrite rows_of_with_rows, He. reflexivity.
Qed.

(** ** Opening hours *)

Lemma rmap_forall2 {A B} (f : A -> result B) l :
  forall out, rmap f l = Ok out -> Forall2 (fun x y => f x = Ok y) l out.
Proof.
  induction l as [|x l IH]; simpl; intros out H.
  - inversion H. constructor.
  - apply rbind_inv in H. destruct H as (y & Hy & H).
    apply rbind_inv in H. destruct H as (ys & Hys & H).
    inversion H. subst. constructor; [exact Hy | apply IH, Hys].
Qed.

Lemma make_row_no_rowid sch rows vals :
  rowid_alias sch = None -> make_row sch rows vals = make_row sch [] vals.
Proof. unfold make_row. intros ->. reflexivity. Qed.

Lemma insert_many_no_rowid sch valss :
  rowid_alias sch = None ->
  forall rows rows',
    insert_many sch rows valss = Ok rows' ->
    rows' = rows ++ map (make_row sch []) valss.
Proof.
  intros Hn. induction valss as [|vals valss IH]; simpl; intros rows rows' H.
  - inversion H. symmetry. apply app_nil_r.
  - apply rbind_inv in H. destruct H as ([id rows1] & H1 & H2).
    unfold insert in H1. destruct (conflicts _ _ _); [discriminate|].
    inversion H1. subst. simpl in H2. apply IH in H2. subst rows'.
    rewrite (make_row_no_rowid _ _ _ Hn), <- app_assoc. reflexivity.
Qed.

(** A multi-row INSERT that went through, into a table without rowid
    alias. *)
Lemma execute_insert_many_no_rowid t valss d d' :
  rowid_alias (schema_of t) = None ->
  valss <> [] ->
  execute_insert_many t false valss d = Ok (tt, d') ->
  exists rs,
    rmap bind_values valss = Ok rs /\
    d' = with_rows t (rows_of t d ++ map (make_row (schema_of t) []) rs) d.
Proof.
  intros Hn Hne. unfold execute_insert_many.
  destruct valss as [|vals valss]; [contradiction|].
  intros H. apply rbind_inv in H. destruct H as (us & _ & H).
  apply rbind_inv in H. destruct H as (rs & Hrs & H).
  apply rbind_inv in H. destruct H as (rows' & Hins & H).
  exists rs. split; [exact Hrs|].
  apply (insert_many_no_rowid _ _ Hn) in Hins. subst rows'.
  inversion H. reflexivity.
Qed.

Lemma cell_null_row t c : cell (null_row t) c = Null.
Proof.
  unfold null_row, cell. rewrite assoc_map_columns.
  destruct (existsb _ _); reflexivity.
Qed.

(** A row of NULLs collides with none, whatever the constraints. *)
Lemma conflicts_null_row t rows :
  Forall (fun cols => cols <> []) (uniques (schema_of t)) ->
  conflicts (schema_of t) rows (null_row t) = false.
Proof.
  intros Hu. unfold conflicts. apply not_true_is_false. intros H.
  apply existsb_exists in H. destruct H as (cols & Hc & H).
  apply existsb_exists in H. destruct H as (r & _ & Ha).
  rewrite Forall_forall in Hu. specialize (Hu cols Hc).
  destruct cols as [|c cols]; [contradiction|].
  unfold agrees in Ha. simpl in Ha. rewrite cell_null_row in Ha. discriminate Ha.
Qed.

(** The INSERT compiled from an empty list of rows, into a table without
    rowid alias: one row of NULLs is written. *)
Lemma execute_insert_default t d :
  rowid_alias (schema_of t) = None ->
  Forall (fun cols => cols <> []) (uniques (schema_of t)) ->
  execute_insert_many t false [] d
  = Ok (tt, with_rows t (rows_of t d ++ [null_row t]) d).
Proof.
  intros Hn Hu. unfold execute_insert_many, insert.
  assert (Hrow : make_row (schema_of t) (rows_of t d) [] = null_row t).
  { unfold make_row, null_row. rewrite Hn. reflexivity. }
  rewrite Hrow, (conflicts_null_row t _ Hu), Hn. reflexivity.
Qed.

Lemma rmap_nil {A B} (f : A -> result B) l out :
  rmap f l = Ok out -> (l = [] <-> out = []).
Proof.
  destruct l as [|x l]; simpl; intros H.
  - inversion H. tauto.
  - apply rbind_inv in H. destruct H as (y & _ & H).
    apply rbind_inv in H. destruct H as (ys & _ & H). inversion H.
    split; discriminate.
Qed.


Lemma execute_insert_many_written t valss d d' :
  rowid_alias (schema_of t) = None ->
  Forall (fun cols => cols <> []) (uniques (schema_of t)) ->
  execute_insert_many t false valss d = Ok (tt, d') ->
  exists rs,
    rmap bind_values valss = Ok rs /\
    d' = with_rows t
           (rows_of t d ++ written t (map (make_row (schema_of t) []) rs)) d.
Proof.
  intros Hn Hu H. destruct valss as [|vals valss].
  - rewrite (execute_insert_default t d Hn Hu) in H. inversion H.
    exists []. split; reflexivity.
  - destruct (execute_insert_many_no_rowid t (vals :: valss) d d' Hn) as (rs & Hrs & Hd);
      [discriminate | exact H |].
    exists rs. split; [exact Hrs|].
    destruct rs as [|r rs]; [|exact Hd].
    pose proof (proj2 (rmap_nil _ _ _ Hrs) eq_refl) as Hnil. discriminate Hnil.
Qed.

Lemma load_hours_inv dict record business_id d d' items :
  getitem record "hours" = Ok (JObj items) ->
  open_days items <> [] ->
  load_hours dict record business_id d = Ok (tt, d') ->
  exists entries rs,
    rmap (fun dh =>
            match assoc (fst dh) dict with
            | Some day_id =>
                Ok [("business_id", Fetched business_id);
                    ("day_id", Obj (JInt day_id));
                    ("open_hours", Obj (snd dh))]
            | None => Raise (KeyError (fst dh))
            end) (open_days items) = Ok entries /\
    rmap bind_values entries = Ok rs /\
    d' = with_rows T_hours
           (hours d ++ map (make_row (schema_of T_hours) []) rs) d.
Proof.
  intros Hh Hne H. unfold load_hours, bind_conn, lift in H. rewrite Hh in H.
  fold (open_days items) in H.
  match type of H with
  | context [rmap ?f (open_days items)] =>
      destruct (rmap f (open_days items)) as [entries|e] eqn:He; [|discriminate H]
  end.
  assert (Hne' : entries <> []).
  { intros E. apply Hne. apply (proj2 (rmap_nil _ _ _ He) E). }
  destruct (execute_insert_many_no_rowid T_hours entries d d' eq_refl Hne' H)
    as (rs & Hrs & Hd).
  exists entries, rs. auto.
Qed.

Lemma load_hours_none dict record business_id d items :
  getitem record "hours" = Ok (JObj items) ->
  open_days items = [] ->
  load_hours dict record business_id d
  = Ok (tt, with_rows T_hours (hours d ++ [null_row T_hours]) d).
Proof.
  intros Hh He. unfold load_hours, bind_conn, lift. rewrite Hh.
  fold (open_days items). rewrite He. simpl rmap. cbv iota beta.
  apply (execute_insert_default T_hours d eq_refl). repeat constructor; discriminate.
Qed.

Lemma hours_rows_of dict business_id kept :
  forall entries rs,
    rmap (fun dh =>
            match assoc (fst dh) dict with
            | Some day_id =>
                Ok [("business_id", Fetched business_id);
                    ("day_id", Obj (JInt day_id));
                    ("open_hours", Obj (snd dh))]
            | None => Raise (KeyError (fst dh))
            end) kept = Ok entries ->
    rmap bind_values entries = Ok rs ->
    Forall2 (hours_row_of dict business_id) kept
            (map (make_row (schema_of T_hours) []) rs).
Proof.
  induction kept as [|dh kept IH]; simpl; intros entries rs He Hr.
  - inversion He. subst. inversion Hr. constructor.
  - apply rbind_inv in He. destruct He as (e & He & H).
    apply rbind_inv in H. destruct H as (es & Hes & H). inversion H. subst.
    clear H. simpl in Hr.
    apply rbind_inv in Hr. destruct Hr as (r & Hr & H).
    apply rbind_inv in H. destruct H as (rs' & Hrs & H). inversion H. subst.
    clear H. simpl. constructor; [|apply (IH _ _ Hes Hrs)].
    destruct (assoc (fst dh) dict) as [day_id|] eqn:Hd; [|discriminate He].
    inversion He. subst e. clear He.
    rewrite !bind_values_cons in Hr. inv_result Hr.
    repeat match goal with
           | Hx : bind (Fetched _) = Ok _ |- _ =>
               simpl in Hx; inversion Hx; subst; clear Hx
           | Hx : bind (Obj (JInt _)) = Ok _ |- _ =>
               simpl in Hx; destruct (in_int64 _); inversion Hx; subst; clear Hx
           | Hx : bind_values [] = Ok _ |- _ => inversion Hx; subst; clear Hx
           end.
    exists day_id. repeat split; try reflexivity; assumption.
Qed.

(** X10.  The hours of a business that is loaded.  When some day of the
    record's [hours] has a value other than ['0:0-0:0']: one row per such day,
    in the order of the record, holding the id of the business, the id of the
    day and the hours as given; a day with ['0:0-0:0'] gets no row, and
    nothing else is written.  When no day is left (an empty [hours], or
    ['0:0-0:0'] on every day) the INSERT is compiled from an empty list and
    goes through: one row is written, with NULL in every column. *)
Theorem hours_rows dict record business_id d items :
  getitem record "hours" = Ok (JObj items) ->
  (open_days items = [] ->
   null_row T_hours = [("business_id", Null); ("day_id", Null); ("open_hours", Null)]
   /\ load_hours dict record business_id d
      = Ok (tt, with_rows T_hours (hours d ++ [null_row T_hours]) d))
  /\ (forall d',
        open_days items <> [] ->
        load_hours dict record business_id d = Ok (tt, d') ->
        exists new,
          d' = with_rows T_hours (hours d ++ new) d /\
          Forall2 (hours_row_of dict business_id) (open_days items) new /\
          Forall (fun r => cell r "open_hours" <> Text "0:0-0:0") new).
Proof.
  intros Hh. split.
  { intros He. split; [reflexivity|]. apply (load_hours_none _ _ _ _ _ Hh He). }
  intros d' Hne H.
  destruct (load_hours_inv _ _ _ _ _ _ Hh Hne H) as (entries & rs & He & Hr & Hd).
  exists (map (make_row (schema_of T_hours) []) rs).
  split; [exact Hd|].
  pose proof (hours_rows_of _ _ _ _ _ He Hr) as Hall.
  split; [exact Hall|].
  assert (Hkept : Forall (fun dh => snd dh <> JStr "0:0-0:0") (open_days items)).
  { apply Forall_forall. intros dh Hin. apply filter_In in Hin.
    destruct Hin as [_ Hk]. intros E. rewrite E in Hk. discriminate Hk. }
  clear -Hall Hkept.
  induction Hall as [|dh r kept new Hrow _ IH]; constructor.
  - inversion Hkept as [|? ? Hne _]. subst.
    destruct Hrow as (day_id & _ & _ & _ & Hv). intros E. rewrite E in Hv.
    apply Hne. destruct (snd dh) as [| b | z | bits | s | |];
      simpl in Hv; try discriminate Hv.
    + destruct (in_int64 z); discriminate Hv.
    + inversion Hv. reflexivity.
  - apply IH. inversion Hkept. assumption.
Qed.

Lemma hours_rows_witness :
  (exists d' new,
     load_hours day_id_days_dict (sample_business "b1") (Int 1) empty_database
     = Ok (tt, d')
     /\ d' = with_rows T_hours (hours empty_database ++ new) empty_database
     /\ Forall2 (hours_row_of day_id_days_dict (Int 1))
                (open_days [("Monday", JStr "0:0-0:0"); ("Tuesday", JStr "9:0-17:0")])
                new
     /\ Forall (fun r => cell r "open_hours" <> Text "0:0-0:0") new)
  /\ load_hours day_id_days_dict
       (JObj [("hours", JObj [("Monday", JStr "0:0-0:0")])]) (Int 1) empty_database
     = Ok (tt, with_rows T_hours
                 [[("business_id", Null); ("day_id", Null); ("open_hours", Null)]]
                 empty_database).
Proof.
  split.
  - eexists.
    match goal with
    | |- exists new, ?run = Ok (tt, ?d1) /\ _ =>
        assert (Hrun : run = Ok (tt, d1)) by (vm_compute; reflexivity);
        assert (Hne : open_days [("Monday", JStr "0:0-0:0");
                                 ("Tuesday", JStr "9:0-17:0")] <> [])
          by (vm_compute; discriminate);
        destruct (proj2 (hours_rows day_id_days_dict (sample_business "b1") (Int 1)
                           empty_database
                           [("Monday", JStr "0:0-0:0"); ("Tuesday", JStr "9:0-17:0")]
                           eq_refl) d1 Hne Hrun) as (new & Hd & Hrows & Hopen)
    end.
    exists new. auto.
  - exact (proj2 (proj1 (hours_rows day_id_days_dict
                           (JObj [("hours", JObj [("Monday", JStr "0:0-0:0")])])
                           (Int 1) empty_database [("Monday", JStr "0:0-0:0")]
                           eq_refl) eq_refl)).
Defined.

Lemma rmap_unknown_day dict business_id kept dh :
  find (fun dh => match assoc (fst dh) dict with
                  | Some _ => false
                  | None => true
                  end) kept = Some dh ->
  rmap (fun dh =>
          match assoc (fst dh) dict with
          | Some day_id =>
              Ok [("business_id", Fetched business_id);
                  ("day_id", Obj (JInt day_id));
                  ("open_hours", Obj (snd dh))]
          | None => Raise (KeyError (fst dh))
          end) kept = Raise (KeyError (fst dh)).
Proof.
  induction kept as [|dh0 kept IH]; simpl; [discriminate|].
  destruct (assoc (fst dh0) dict) as [day_id|] eqn:Hd; simpl.
  - intros H. rewrite (IH H). reflexivity.
  - intros H. inversion H. subst. reflexivity.
Qed.

(** X11.  A business whose [hours] name a day that the day dict lacks (any
    key but the seven capitalised English names, for the dict of
    [_initialize_days_table]), with hours other than ['0:0-0:0'], makes the
    hours block raise [KeyError] on the first such day in the order of the
    record; a day with ['0:0-0:0'] is dropped before its name is looked
    up. *)
Theorem unknown_day_raises dict record business_id d items day :
  getitem record "hours" = Ok (JObj items) ->
  first_unknown_day dict items = Some day ->
  load_hours dict record business_id d = Raise (KeyError day).
Proof.
  intros Hh Hu. unfold first_unknown_day in Hu.
  destruct (find _ (open_days items)) as [dh|] eqn:Hf; [|discriminate Hu].
  simpl in Hu. inversion Hu. subst day.
  unfold load_hours, bind_conn, lift. rewrite Hh.
  fold (open_days items).
  rewrite (rmap_unknown_day dict business_id _ _ Hf). reflexivity.
Qed.

Lemma unknown_day_raises_witness :
  load_hours day_id_days_dict
    (JObj [("hours", JObj [("Holiday", JStr "0:0-0:0"); ("Monday", JStr "8:0-12:0");
                           ("monday", JStr "9:0-17:0"); ("Sun", JStr "9:0-17:0")])])
    (Int 1) empty_database
  = Raise (KeyError "monday").
Proof.
  apply (unknown_day_raises day_id_days_dict
           (JObj [("hours", JObj [("Holiday", JStr "0:0-0:0");
                                  ("Monday", JStr "8:0-12:0");
                                  ("monday", JStr "9:0-17:0");
                                  ("Sun", JStr "9:0-17:0")])])
           (Int 1) empty_database
           [("Holiday", JStr "0:0-0:0"); ("Monday", JStr "8:0-12:0");
            ("monday", JStr "9:0-17:0"); ("Sun", JStr "9:0-17:0")]
           "monday").
  - reflexivity.
  - reflexivity.
Defined.

(** ** Check-ins *)

Lemma split_aux_length sep s :
  forall skip cur, (1 <= List.length (Py.split_aux sep skip cur s))%nat.
Proof.
  induction s as [|c s IH]; intros skip cur; cbn [Py.split_aux].
  - simpl. lia.
  - destruct skip as [|k]; [|apply IH].
    destruct (String.prefix sep (String c s)); [cbn [List.length]; lia | apply IH].
Qed.

Lemma split_length sep s : (1 <= List.length (Py.split sep s))%nat.
Proof. apply split_aux_length. Qed.

Lemma business_id_of_has_key k d id :
  business_id_of k d = Some id -> has_key "business_id_str" k (business d) = true.
Proof.
  unfold business_id_of. intros H.
  destruct (has_key "business_id_str" k (business d)) eqn:E; [reflexivity|].
  apply has_key_filter in E. rewrite E in H. discriminate.
Qed.

(** The resolver of businesses answers for a key that is there, and writes
    nothing. *)
Lemma get_add_business_id_value d k id :
  business_id_of k d = Some id ->
  _get_add_business_id T_business (JStr k) d = Ok (id, d).
Proof.
  intros H. rewrite (get_add_business_id_run (JStr k) _ (Text k) d eq_refl eq_refl).
  change (first_id "business_id_str" (Text k) (business d))
    with (business_id_of k d).
  rewrite H. reflexivity.
Qed.

Lemma get_add_business_id_found k d id d' :
  _get_add_business_id T_business (JStr k) d = Ok (id, d') ->
  d' = d /\ business_id_of k d = Some id.
Proof.
  intros H. destruct (get_add_business_id_inv _ _ _ _ H) as (-> & p & v & Hp & Hv & Hf).
  simpl in Hp. inversion Hp. subst p. simpl in Hv. inversion Hv. subst v.
  split; [reflexivity | exact Hf].
Qed.

Lemma insert_many_checkins business_id dates :
  forall rows,
    insert_many (schema_of T_checkins) rows
      (map (fun date => [("business_id", business_id); ("date", Text date)]) dates)
    = Ok (rows ++ map (fun date => [("business_id", business_id); ("date", Text date)])
                      dates).
Proof.
  induction dates as [|date dates IH]; intros rows; simpl.
  - rewrite app_nil_r. reflexivity.
  - cbn [map insert_many]. unfold insert, conflicts.
    cbn [schema_of uniques existsb rowid_alias rbind snd].
    change (make_row (schema_of T_checkins) rows
              [("business_id", business_id); ("date", Text date)])
      with [("business_id", business_id); ("date", Text date)].
    rewrite IH, <- app_assoc. reflexivity.
Qed.

Lemma execute_insert_many_checkins business_id dates d :
  dates <> [] ->
  execute_insert_many T_checkins false
    (map (fun date => [("business_id", Fetched business_id); ("date", pstr date)])
         dates) d
  = Ok (tt, with_rows T_checkins
              (checkins d
               ++ map (fun date => [("business_id", business_id); ("date", Text date)])
                      dates) d).
Proof.
  intros Hne. unfold execute_insert_many.
  assert (Hc : exists us,
             rmap (check_columns T_checkins)
               (map (fun date => [("business_id", Fetched business_id);
                                  ("date", pstr date)]) dates) = Ok us).
  { clear Hne. induction dates as [|date dates [us IH]]; simpl; [eauto|].
    rewrite IH. simpl. eauto. }
  assert (Hb : rmap bind_values
                 (map (fun date => [("business_id", Fetched business_id);
                                    ("date", pstr date)]) dates)
               = Ok (map (fun date => [("business_id", business_id);
                                       ("date", Text date)]) dates)).
  { clear. induction dates as [|date dates IH]; simpl; [reflexivity|].
    rewrite IH. reflexivity. }
  destruct Hc as (us & Hc).
  destruct dates as [|date dates]; [contradiction|].
  pose proof (insert_many_checkins business_id (date :: dates) (checkins d)) as Hi.
  cbn [map] in *. rewrite Hc, Hb. cbn [rbind].
  change (rows_of T_checkins d) with (checkins d).
  rewrite Hi. reflexivity.
Qed.

Lemma load_checkin_run_value record d jb p v dates business_id :
  getitem record "business_id" = Ok jb ->
  natural_key jb = Ok p -> bind p = Ok v ->
  getitem record "date" = Ok (JStr dates) ->
  first_id "business_id_str" v (business d) = Some business_id ->
  load_checkin record d
  = Ok (tt, with_rows T_checkins
              (checkins d ++ map (checkin_row business_id) (Py.split "," dates)) d).
Proof.
  intros Hb Hp Hv Hd Hid. unfold load_checkin, bind_conn, lift.
  rewrite Hd. simpl. rewrite Hb.
  rewrite (get_add_business_id_run _ _ _ _ Hp Hv), Hid.
  rewrite execute_insert_many_checkins.
  - rewrite map_map. reflexivity.
  - pose proof (split_length "," dates) as Hl.
    destruct (Py.split "," dates); [simpl in Hl; lia | discriminate].
Qed.




Lemma load_checkin_adds record d d' :
  load_checkin record d = Ok (tt, d') ->
  (1 <= date_count record)%nat
  /\ List.length (checkins d') = (List.length (checkins d) + date_count record)%nat.
Proof.
  intros H. pose proof H as H0. unfold load_checkin in H0. inv_conn H0.
  match goal with
  | Hs : rbind (getitem record "date") _ = Ok _ |- _ =>
      apply rbind_inv in Hs; destruct Hs as (v & Hd & Hs);
      destruct v; try discriminate Hs
  end.
  match goal with
  | Hr : _get_add_business_id _ _ _ = Ok _ |- _ =>
      destruct (get_add_business_id_inv _ _ _ _ Hr) as (_ & p & v & Hp & Hv & Hid)
  end.
  match goal with
  | Hb : getitem record "business_id" = Ok _ |- _ =>
      rewrite (load_checkin_run_value _ _ _ _ _ _ _ Hb Hp Hv Hd Hid) in H
  end.
  unfold date_count. rewrite Hd. split; [apply split_length|].
  inversion H.
  change (checkins (with_rows T_checkins ?x d))
    with (rows_of T_checkins (with_rows T_checkins x d)).
  rewrite rows_of_with_rows, length_app, length_map. reflexivity.
Qed.

Lemma load_checkins_count lines :
  forall d d',
    for_each load_checkin lines d = Ok (tt, d') ->
    Forall (fun record => (1 <= date_count record)%nat) lines
    /\ List.length (checkins d')
       = (List.length (checkins d) + list_sum (map date_count lines))%nat.
Proof.
  induction lines as [|x lines IH]; intros d d' H.
  - apply ret_inv in H. destruct H as [_ ->]. simpl. split; [constructor | lia].
  - apply for_each_cons_inv in H. destruct H as (d1 & H1 & H2).
    destruct (IH _ _ H2) as [Hall Hlen].
    destruct (load_checkin_adds _ _ _ H1) as [Hone Hadd].
    split; [constructor; assumption|]. rewrite Hlen, Hadd. simpl. lia.
Qed.

(** X13.  A Check-in file that loads adds as many rows as its records have
    dates, at least one per record; as no row is compared with the rows
    there, loading the file again adds them again. *)
Theorem checkin_file_count file verbose w w' :
  _load_checkin_json file verbose w = Ok (tt, w') ->
  Forall (fun record => (1 <= date_count record)%nat) (Utils.lines file)
  /\ List.length (checkins (db w'))
     = (List.length (checkins (db w))
        + list_sum (map date_count (Utils.lines file)))%nat.
Proof.
  intros H. apply announced_inv in H. destruct H as [H _].
  apply (load_checkins_count _ _ _ H).
Qed.

Lemma checkin_file_count_witness :
  exists w',
    _load_checkin_json
      {| Utils.name := "checkin.json";
         Utils.lines := [sample_checkin "b1" "2020-01-01 10:00:00, 2020-01-02 11:00:00";
                         sample_checkin "b1" ""] |}
      false sample_world = Ok (tt, w')
    /\ List.length (checkins (db w')) = 3%nat.
Proof.
  eexists. split; [vm_compute; reflexivity|].
  match goal with
  | |- List.length (checkins (db ?w1)) = _ =>
      assert (Hrun : _load_checkin_json
                       {| Utils.name := "checkin.json";
                          Utils.lines :=
                            [sample_checkin "b1" "2020-01-01 10:00:00, 2020-01-02 11:00:00";
                             sample_checkin "b1" ""] |}
                       false sample_world = Ok (tt, w1))
        by (vm_compute; reflexivity);
      rewrite (proj2 (checkin_file_count _ _ _ _ Hrun))
  end.
  reflexivity.
Defined.

(** ** Reviews *)

(** The closed form of one iteration of [_load_review_json]. *)
Lemma load_review_cases record d d' ku kb kr :
  getitem record "user_id" = Ok (JStr ku) ->
  getitem record "business_id" = Ok (JStr kb) ->
  getitem record "review_id" = Ok (JStr kr) ->
  load_review record d = Ok (tt, d') ->
  exists rest r0 uid bid d1,
    (forall u b,
       review_statement record u b
       = Ok (("review_id_str", Obj (JStr kr)) :: ("user_id", Fetched u)
             :: ("business_id", Fetched b) :: rest)) /\
    bind_values rest = Ok r0 /\
    _get_add_user_id T_users (JStr ku) d = Ok (uid, d1) /\
    business_id_of kb d1 = Some bid /\
    d' = if has_key "review_id_str" kr (reviews d1) then d1
         else with_rows T_reviews
                (reviews d1
                 ++ [make_row (schema_of T_reviews) (reviews d1)
                       (("review_id_str", Text kr) :: ("user_id", uid)
                        :: ("business_id", bid) :: r0)]) d1.
Proof.
  unfold load_review. intros Hu Hb Hr H.
  rewrite (bind_conn_ok _ _ _ _ _ (lift_ok _ d _ Hu)) in H.
  apply bind_conn_inv in H. destruct H as (uid & d1 & Hres & H).
  rewrite (bind_conn_ok _ _ _ _ _ (lift_ok _ d1 _ Hb)) in H.
  apply bind_conn_inv in H. destruct H as (bid & d2 & Hbus & H).
  destruct (get_add_business_id_found _ _ _ _ Hbus) as (-> & Hbid).
  apply bind_conn_inv in H. destruct H as (vals & d3 & Hs & Hi).
  apply lift_inv in Hs. destruct Hs as [Hs ->].
  destruct (review_statement_inv _ _ _ _ Hs)
    as (j & p & rest & Hj & Hp & Hrest & Hall).
  rewrite Hr in Hj. inversion Hj. subst j. simpl in Hp. inversion Hp. subst p.
  rewrite Hall in Hs. inversion Hs. subst vals. clear Hs.
  destruct (review_values_checked kr uid bid rest Hrest) as [Hc Hid].
  pose proof (execute_insert_or_ignore_primary T_reviews _ _ _ d1
                keyed_reviews Hc Hid) as Hins.
  destruct (bind_values _) as [r|e] eqn:Hbv; [|rewrite Hins in Hi; discriminate Hi].
  assert (Hd : Ok (tt, d')
               = Ok (tt, if has_key "review_id_str" kr (rows_of T_reviews d1)
                         then d1
                         else with_rows T_reviews
                                (rows_of T_reviews d1
                                 ++ [make_row (schema_of T_reviews)
                                       (rows_of T_reviews d1) r]) d1))
    by congruence.
  inversion Hd as [Hd']. clear Hd.
  rewrite !bind_values_cons in Hbv. simpl bind in Hbv. cbn [rbind] in Hbv.
  destruct (bind_values rest) as [r0|] eqn:Hb0; [|discriminate Hbv].
  inversion Hbv. subst r. clear Hbv.
  exists rest, r0, uid, bid, d1.
  split; [exact Hall|]. split; [exact Hb0|]. split; [exact Hres|].
  split; [exact Hbid|]. first [exact Hd' | reflexivity].
Qed.

Lemma user_id_of_users k d d' : users d' = users d -> user_id_of k d' = user_id_of k d.
Proof. unfold user_id_of. intros ->. reflexivity. Qed.

Lemma business_id_of_business k d d' :
  business d' = business d -> business_id_of k d' = business_id_of k d.
Proof. unfold business_id_of. intros ->. reflexivity. Qed.

(** What the resolver of users leaves in the users table. *)
Lemma get_add_user_id_tables k d uid d1 :
  _get_add_user_id T_users (JStr k) d = Ok (uid, d1) ->
  user_id_of k d1 = Some uid /\
  users d1 = users d ++ (if has_key "user_id_str" k (users d) then []
                         else [user_stub k (users d)]) /\
  forall t, t <> T_users -> rows_of t d1 = rows_of t d.
Proof.
  intros H. destruct (get_add_user_id_spec d k) as (id & d0 & H0 & Hid & Hd).
  rewrite H0 in H. inversion H. subst id d0. clear H. split; [exact Hid|].
  destruct (has_key "user_id_str" k (users d)).
  - subst d1. rewrite app_nil_r. auto.
  - destruct Hd as [-> _]. split.
    + apply (rows_of_with_rows T_users).
    + intros t Ht. apply rows_of_with_rows_other. congruence.
Qed.

(** X14.  A review that is loaded.  Its user is looked up by [user_id] and,
    when unknown, gets a row holding the key only; its business must be
    there and the business table is left alone.  A review whose [review_id]
    is new gets one row, whose [user_id] and [business_id] are the ids of
    the rows holding the two natural keys; a review whose [review_id] is
    already there is dropped, while the row written for its user stays. *)
Theorem review_row_references record d d' ku kb kr :
  getitem record "user_id" = Ok (JStr ku) ->
  getitem record "business_id" = Ok (JStr kb) ->
  getitem record "review_id" = Ok (JStr kr) ->
  load_review record d = Ok (tt, d') ->
  exists uid bid,
    user_id_of ku d' = Some uid /\ business_id_of kb d' = Some bid /\
    business d' = business d /\
    users d' = users d ++ (if has_key "user_id_str" ku (users d) then []
                           else [user_stub ku (users d)]) /\
    if has_key "review_id_str" kr (reviews d) then reviews d' = reviews d
    else exists r,
           reviews d' = reviews d ++ [r] /\ cell r "review_id_str" = Text kr /\
           cell r "user_id" = uid /\ cell r "business_id" = bid.
Proof.
  intros Hu Hb Hr H.
  destruct (load_review_cases _ _ _ _ _ _ Hu Hb Hr H)
    as (rest & r0 & uid & bid & d1 & Hall & Hb0 & Hres & Hbid & Hd).
  destruct (get_add_user_id_tables _ _ _ _ Hres) as (Huid & Husers & Hframe).
  assert (Hrev : reviews d1 = reviews d)
    by (apply (Hframe T_reviews); discriminate).
  assert (Hbus : business d1 = business d)
    by (apply (Hframe T_business); discriminate).
  exists uid, bid. rewrite Hrev in Hd.
  assert (Hu1 : users d' = users d1)
    by (rewrite Hd; apply users_of_ignored; discriminate).
  assert (Hb1 : business d' = business d1)
    by (rewrite Hd; apply business_of_ignored; discriminate).
  split; [rewrite (user_id_of_users _ _ _ Hu1); exact Huid|].
  split; [rewrite (business_id_of_business _ _ _ Hb1); exact Hbid|].
  split; [congruence|]. split; [congruence|].
  destruct (has_key "review_id_str" kr (reviews d)).
  - subst d'. exact Hrev.
  - eexists. split.
    + rewrite Hd.
      change (reviews (with_rows T_reviews ?x d1))
        with (rows_of T_reviews (with_rows T_reviews x d1)).
      rewrite rows_of_with_rows. reflexivity.
    + repeat split; rewrite cell_make_row by reflexivity; reflexivity.
Qed.

Lemma review_row_references_witness :
  exists d' uid bid,
    load_review (sample_review "r1" "u1" "b1") (one_business "b1") = Ok (tt, d')
    /\ user_id_of "u1" d' = Some uid /\ business_id_of "b1" d' = Some bid
    /\ business d' = business (one_business "b1")
    /\ users d' = [user_stub "u1" []]
    /\ exists r,
         reviews d' = [r] /\ cell r "review_id_str" = Text "r1"
         /\ cell r "user_id" = uid /\ cell r "business_id" = bid.
Proof.
  eexists.
  match goal with
  | |- exists uid bid, ?run = Ok (tt, ?d1) /\ _ =>
      assert (Hrun : run = Ok (tt, d1)) by (vm_compute; reflexivity);
      destruct (review_row_references (sample_review "r1" "u1" "b1")
                  (one_business "b1") d1 "u1" "b1" "r1"
                  eq_refl eq_refl eq_refl Hrun)
        as (uid & bid & Hu & Hb & Hbus & Husers & Hrev)
  end.
  exists uid, bid. split; [vm_compute; reflexivity|].
  split; [exact Hu|]. split; [exact Hb|]. split; [exact Hbus|].
  split; [exact Husers|]. exact Hrev.
Defined.

(** ** The rows of users and businesses *)

Lemma fields_bound (record : json) cols :
  forall fields r,
    rmap (fun c => let? v := getitem record c in Ok (c, Obj v)) cols = Ok fields ->
    bind_values fields = Ok r ->
    forall c, In c cols ->
      exists v, getitem record c = Ok v /\ bind (Obj v) = Ok (cell r c).
Proof.
  induction cols as [|c0 cols IH]; intros fields r Hf Hb c Hin; [destruct Hin|].
  simpl in Hf. inv_result Hf.
  rewrite bind_values_cons in Hb. inv_result Hb.
  destruct (String.eqb c c0) eqn:E.
  - apply String.eqb_eq in E. subst c0. eexists. split; [eassumption|].
    unfold cell. simpl. rewrite String.eqb_refl. assumption.
  - destruct Hin as [->|Hin]; [rewrite String.eqb_refl in E; discriminate|].
    match goal with
    | Hr : rmap _ cols = Ok ?fs, Hv : bind_values ?fs = Ok ?r' |- _ =>
        destruct (IH _ _ Hr Hv c Hin) as (w & Hg & Hbv)
    end.
    exists w. split; [exact Hg|]. unfold cell in *. simpl. rewrite E. exact Hbv.
Qed.

Lemma first_with_key c k rows r :
  has_key c k rows = false -> cell r c = Text k ->
  filter (fun x => sqlval_eqb (cell x c) (Text k)) (rows ++ [r]) = [r].
Proof.
  intros Hn Hr. apply has_key_filter in Hn. rewrite filter_app, Hn.
  cbn [filter app]. rewrite Hr, sqlval_eqb_refl. reflexivity.
Qed.

(** X15.  A user record whose [user_id] is not in the users table is written
    as one row: the next rowid for [id], the key under [user_id_str], each of
    the nineteen profile fields under its own name as given, and no
    [friend_count], which stays NULL until the linker runs.  The record's
    [friends] is not read. *)
Theorem user_row_written record d d' k :
  getitem record "user_id" = Ok (JStr k) ->
  has_key "user_id_str" k (users d) = false ->
  load_user record d = Ok (tt, d') ->
  exists r,
    users d' = users d ++ [r] /\
    cell r "id" = Int (next_rowid "id" (users d)) /\
    cell r "user_id_str" = Text k /\
    (forall c, In c user_columns ->
       exists v, getitem record c = Ok v /\ bind (Obj v) = Ok (cell r c)) /\
    user_id_of k d' = Some (cell r "id") /\
    friend_count_of k d' = Some Null.
Proof.
  intros Hk Hnew H.
  destruct (load_user_cases _ _ _ _ Hk H)
    as (rest & r & Hs & Hb & [[Hdup _]|[_ Hch]]); [congruence|].
  pose proof (preserves_load_elite record _ _ _ _ Hch) as Hp.
  rewrite rows_of_with_rows in Hp. change (rows_of T_users d') with (users d') in Hp.
  unfold users_statement in Hs. rewrite Hk in Hs. cbn [rbind natural_key] in Hs.
  apply rbind_inv in Hs. destruct Hs as (fields & Hf & Hs).
  inversion Hs. subst rest. clear Hs.
  pose proof (rmap_fields_keys _ _ _ Hf) as Hkeys.
  rewrite bind_values_cons in Hb. simpl bind in Hb. cbn [rbind] in Hb.
  destruct (bind_values fields) as [r'|] eqn:Hb'; [|discriminate Hb].
  inversion Hb. subst r. clear Hb.
  pose proof (bind_values_keys _ _ Hb') as Hkeys'. rewrite Hkeys in Hkeys'.
  set (new := make_row (schema_of T_users) (users d) (("user_id_str", Text k) :: r')) in *.
  assert (Hid : cell new "id" = Int (next_rowid "id" (users d))).
  { unfold new. rewrite cell_make_row by reflexivity. simpl rowid_alias.
    assert (E : cell (("user_id_str", Text k) :: r') "id" = Null)
      by (apply cell_not_key; simpl; rewrite Hkeys'; reflexivity).
    rewrite E. reflexivity. }
  assert (Hkey : cell new "user_id_str" = Text k)
    by (unfold new; rewrite cell_make_row by reflexivity; reflexivity).
  assert (Hfc : cell new "friend_count" = Null).
  { unfold new. rewrite cell_make_row by reflexivity. simpl rowid_alias.
    simpl andb. apply cell_not_key. simpl. rewrite Hkeys'. reflexivity. }
  exists new. split; [exact Hp|]. split; [exact Hid|]. split; [exact Hkey|].
  split; [|split].
  - intros c Hin.
    destruct (fields_bound _ _ _ _ Hf Hb' c Hin) as (v & Hg & Hv).
    exists v. split; [exact Hg|]. rewrite Hv. f_equal.
    unfold new. rewrite cell_make_row.
    + simpl rowid_alias.
      assert (Hc : String.eqb c "id" = false)
        by (repeat (destruct Hin as [<-|Hin]; [reflexivity|]); destruct Hin).
      cbv iota beta. rewrite Hc. cbn [andb].
      assert (Hu : String.eqb c "user_id_str" = false)
        by (repeat (destruct Hin as [<-|Hin]; [reflexivity|]); destruct Hin).
      unfold cell. simpl. rewrite Hu. reflexivity.
    + repeat (destruct Hin as [<-|Hin]; [reflexivity|]). destruct Hin.
  - unfold user_id_of. rewrite Hp, (first_with_key _ _ _ _ Hnew Hkey). reflexivity.
  - unfold friend_count_of.
    rewrite Hp, (first_with_key _ _ _ _ Hnew Hkey), Hfc. reflexivity.
Qed.

Lemma user_row_written_witness :
  exists d' r,
    load_user (sample_user "u1" "u2, u3" "2019,20,20") empty_database = Ok (tt, d')
    /\ users d' = [r]
    /\ cell r "id" = Int 1
    /\ cell r "user_id_str" = Text "u1"
    /\ friend_count_of "u1" d' = Some Null.
Proof.
  eexists.
  match goal with
  | |- exists r, ?run = Ok (tt, ?d1) /\ _ =>
      assert (Hrun : run = Ok (tt, d1)) by (vm_compute; reflexivity);
      destruct (user_row_written (sample_user "u1" "u2, u3" "2019,20,20")
                  empty_database d1 "u1" eq_refl eq_refl Hrun)
        as (r & Hu & Hid & Hkey & _ & _ & Hfc)
  end.
  exists r. split; [vm_compute; reflexivity|]. auto.
Defined.

(** X16.  A business record whose stripped [business_id] is not in the
    business table is written as one row: the next rowid for [id], the key
    and the five text fields stripped of surrounding white space, the five
    numeric fields as given.  The categories, attributes and hours that
    follow leave the business table alone, and the resolver finds the row
    under the stripped key. *)
Theorem business_row_written dict record d d' k :
  getitem record "business_id" = Ok (JStr k) ->
  has_key "business_id_str" (Py.strip k) (business d) = false ->
  load_business dict record d = Ok (tt, d') ->
  exists r,
    business d' = business d ++ [r] /\
    cell r "id" = Int (next_rowid "id" (business d)) /\
    cell r "business_id_str" = Text (Py.strip k) /\
    (forall c, In c ["name"; "address"; "city"; "state"; "postal_code"] ->
       exists s, getitem record c = Ok (JStr s) /\ cell r c = Text (Py.strip s)) /\
    (forall c, In c ["latitude"; "longitude"; "stars"; "review_count"; "is_open"] ->
       exists v, getitem record c = Ok v /\ bind (Obj v) = Ok (cell r c)) /\
    _get_add_business_id T_business (JStr (Py.strip k)) d' = Ok (cell r "id", d').
Proof.
  intros Hk Hnew H.
  destruct (load_business_cases _ _ _ _ H)
    as (k' & rest & r & Hk' & Hs & Hb & [[Hdup _]|[_ Hch]]);
    rewrite Hk in Hk'; inversion Hk'; subst k'; clear Hk'; [congruence|].
  pose proof (preserves_children T_business dict record _ (or_introl eq_refl)
                _ _ _ Hch) as Hp.
  rewrite rows_of_with_rows in Hp.
  change (rows_of T_business d') with (business d') in Hp.
  unfold business_statement in Hs. rewrite Hk in Hs.
  cbn [rbind str_strip] in Hs. inv_result Hs. inv_str_strip.
  rewrite !bind_values_cons in Hb.
  repeat match type of Hb with
         | context [bind (pstr ?s)] =>
             change (bind (pstr s)) with (Ok (A:=sqlval) (Text s)) in Hb
         end.
  cbn [rbind] in Hb. inv_result Hb.
  repeat match goal with
         | Hx : bind_values [] = Ok _ |- _ => inversion Hx; subst; clear Hx
         | Hx : bind (Obj (JStr _)) = Ok _ |- _ => inversion Hx; subst; clear Hx
         end.
  match type of Hp with
  | _ = _ ++ [?row] => set (new := row) in *
  end.
  assert (Hid : cell new "id" = Int (next_rowid "id" (business d)))
    by (unfold new; rewrite cell_make_row by reflexivity; reflexivity).
  assert (Hkey : cell new "business_id_str" = Text (Py.strip k))
    by (unfold new; rewrite cell_make_row by reflexivity; reflexivity).
  exists new. split; [exact Hp|]. split; [exact Hid|]. split; [exact Hkey|].
  split; [|split].
  - intros c Hin.
    repeat (destruct Hin as [<-|Hin];
            [eexists; split;
             [eassumption
             |unfold new; rewrite cell_make_row by reflexivity; reflexivity]|]).
    destruct Hin.
  - intros c Hin.
    repeat (destruct Hin as [<-|Hin];
            [eexists; split;
             [eassumption
             |unfold new; rewrite cell_make_row by reflexivity; assumption]|]).
    destruct Hin.
  - apply get_add_business_id_value. unfold business_id_of.
    rewrite Hp, (first_with_key _ _ _ _ Hnew Hkey). reflexivity.
Qed.

Lemma business_row_written_witness :
  exists d' r,
    load_business day_id_days_dict (sample_business " b1 ") empty_database
    = Ok (tt, d')
    /\ business d' = [r]
    /\ cell r "business_id_str" = Text "b1"
    /\ _get_add_business_id T_business (JStr "b1") d' = Ok (cell r "id", d').
Proof.
  eexists.
  match goal with
  | |- exists r, ?run = Ok (tt, ?d1) /\ _ =>
      assert (Hrun : run = Ok (tt, d1)) by (vm_compute; reflexivity);
      destruct (business_row_written day_id_days_dict (sample_business " b1 ")
                  empty_database d1 " b1 " eq_refl eq_refl Hrun)
        as (r & Hb & _ & Hkey & _ & _ & Hres)
  end.
  exists r. split; [vm_compute; reflexivity|]. auto.
Defined.

(** X17.  After the business pass every business of the file is found by
    the resolver under its stripped key, without a write.  The resolver
    compares the key as it is given: a review, tip, check-in or photo that
    names the business with the surrounding white space of the Business
    file is refused like one that names an unknown business. *)
Theorem business_found_under_stripped_key file verbose w w' :
  _load_business_json file verbose w = Ok (tt, w') ->
  Forall (fun record =>
            exists k,
              getitem record "business_id" = Ok (JStr k) /\
              (exists id,
                 _get_add_business_id T_business (JStr (Py.strip k)) (db w')
                 = Ok (id, db w')) /\
              (has_key "business_id_str" k (business (db w')) = false ->
               _get_add_business_id T_business (JStr k) (db w')
               = Raise (CompileError ["user_id_str"])))
         (Utils.lines file).
Proof.
  intros H. apply load_business_json_inv in H. destruct H as [H _].
  pose proof (loop_settles (load_business day_id_days_dict) settled_business
                (fun _ => True)
                (settled_business_after day_id_days_dict)
                (settled_business_mono day_id_days_dict) _ _ _
                (proj2 (Forall_forall _ _) (fun _ _ => I)) H) as Hall.
  apply (Forall_impl _ (P := fun x => settled_business x (db w'))); [|exact Hall].
  intros record (vals & r & k & _ & Hk & _ & Hkey).
  exists k. split; [exact Hk|]. split.
  - apply get_add_business_id_present, Hkey.
  - apply get_add_business_id_absent.
Qed.

Lemma business_found_under_stripped_key_witness :
  exists w',
    _load_business_json
      {| Utils.name := "business.json"; Utils.lines := [sample_business " b1 "] |}
      false empty_world = Ok (tt, w')
    /\ (exists id, _get_add_business_id T_business (JStr "b1") (db w')
                   = Ok (id, db w'))
    /\ _get_add_business_id T_business (JStr " b1 ") (db w')
       = Raise (CompileError ["user_id_str"]).
Proof.
  eexists.
  match goal with
  | |- ?run = Ok (tt, ?w1) /\ _ =>
      assert (Hrun : run = Ok (tt, w1)) by (vm_compute; reflexivity);
      pose proof (business_found_under_stripped_key _ _ _ _ Hrun) as Hall
  end.
  split; [vm_compute; reflexivity|].
  inversion Hall as [|? ? (k & Hk & Hfound & Hnot) _]. subst.
  inversion Hk. subst k. split; [exact Hfound|].
  apply Hnot. vm_compute. reflexivity.
Defined.

(** ** More on the linker *)

(** X18.  The linker does not create users: for a record whose [user_id] is
    not in the users table it raises [IndexError], so it can only run after
    the users pass over the same file. *)
Theorem linker_needs_the_user record d k fs :
  getitem record "user_id" = Ok (JStr k) ->
  getitem record "friends" = Ok (JStr fs) ->
  has_key "user_id_str" k (users d) = false ->
  connect_user record d = Raise IndexError.
Proof.
  intros Hk Hf Hnone. apply has_key_filter in Hnone.
  unfold connect_user, bind_conn, lift. rewrite Hk. cbn [rbind natural_key].
  rewrite select_id_by_key by reflexivity.
  change (rows_of T_users d) with (users d). rewrite Hnone, Hf. reflexivity.
Qed.

Lemma linker_needs_the_user_witness :
  connect_user (sample_user "u5" "u1, u2" "") (some_users ["u1"; "u2"])
  = Raise IndexError.
Proof.
  apply (linker_needs_the_user (sample_user "u5" "u1, u2" "")
           (some_users ["u1"; "u2"]) "u5" "u1, u2"); reflexivity.
Defined.

Lemma connect_user_counted_by record d d' j p v :
  getitem record "user_id" = Ok j -> natural_key j = Ok p -> bind p = Ok v ->
  connect_user record d = Ok (tt, d') ->
  counted_by v d'.
Proof.
  intros Hj Hp Hv H.
  destruct (connect_user_fields _ _ _ H) as (j' & p' & v' & fs & _ & _ & _ & Hf).
  destruct (connect_user_tables_value _ _ _ _ _ _ _ Hj Hp Hv Hf H)
    as (uid & Hu & Hus & _).
  exists (Z.of_nat (List.length (Py.split ", " fs))). split.
  - unfold friend_count_by.
    apply (friend_count_after_update_value _ _ _ _ _ Hu Hus).
  - pose proof (split_length ", " fs). lia.
Qed.

Lemma connect_user_counted record d d' k :
  getitem record "user_id" = Ok (JStr k) ->
  connect_user record d = Ok (tt, d') ->
  counted k d'.
Proof.
  intros Hk H.
  exact (connect_user_counted_by record d d' (JStr k) _ (Text k) Hk eq_refl eq_refl H).
Qed.

(** X19.  Once the linker has processed a user record, the user's
    [friend_count] is a number and at least 1: the friends field always
    splits into at least one piece, so a user without friends is counted
    like a user with one. *)
Theorem friend_count_at_least_one record d d' k :
  getitem record "user_id" = Ok (JStr k) ->
  connect_user record d = Ok (tt, d') ->
  exists n, friend_count_of k d' = Some (Int n) /\ (1 <= n)%Z.
Proof. apply connect_user_counted. Qed.

Lemma friend_count_at_least_one_witness :
  exists d' n,
    connect_user (sample_user "u1" "" "") (some_users ["u1"]) = Ok (tt, d')
    /\ friend_count_of "u1" d' = Some (Int n) /\ (1 <= n)%Z.
Proof.
  eexists.
  match goal with
  | |- exists n, ?run = Ok (tt, ?d1) /\ _ =>
      assert (Hrun : run = Ok (tt, d1)) by (vm_compute; reflexivity);
      destruct (friend_count_at_least_one (sample_user "u1" "" "")
                  (some_users ["u1"]) d1 "u1" eq_refl Hrun) as (n & Hn & Hle)
  end.
  exists n. split; [vm_compute; reflexivity|]. auto.
Defined.


Lemma has_key_update c k (sel : row -> bool) v rows :
  String.eqb c "friend_count" = false ->
  has_key c k (update rows sel [("friend_count", v)]) = has_key c k rows.
Proof.
  intros Hc. unfold has_key, update.
  induction rows as [|r rows IH]; [reflexivity|].
  cbn [map existsb]. rewrite IH, (cell_set_friend_count _ _ _ _ Hc). reflexivity.
Qed.










(** ** Stripping twice *)

Lemma lstrip_no_leading_space s : no_leading_space (Py.lstrip s).
Proof.
  induction s as [|c s IH]; simpl; [exact I|].
  destruct (Py.is_space c) eqn:E; [exact IH | exact E].
Qed.

Lemma lstrip_fixed s : no_leading_space s -> Py.lstrip s = s.
Proof. destruct s as [|c s]; simpl; [reflexivity|]. intros ->. reflexivity. Qed.

Lemma rstrip_no_leading_space s :
  no_leading_space s -> no_leading_space (Py.rstrip s).
Proof.
  destruct s as [|c s]; simpl; [auto|]. intros Hc.
  destruct (Py.rstrip s); [rewrite Hc|]; exact Hc.
Qed.

Lemma rstrip_cons c s c' t :
  Py.rstrip s = String c' t -> Py.rstrip (String c s) = String c (String c' t).
Proof. intros E. cbn [Py.rstrip]. rewrite E. reflexivity. Qed.

Lemma rstrip_idem s : Py.rstrip (Py.rstrip s) = Py.rstrip s.
Proof.
  induction s as [|c s IH]; [reflexivity|].
  destruct (Py.rstrip s) as [|c' t] eqn:E.
  - cbn [Py.rstrip]. rewrite E.
    destruct (Py.is_space c) eqn:Ec; [reflexivity|]. simpl. rewrite Ec. reflexivity.
  - rewrite (rstrip_cons c s c' t E). apply rstrip_cons. exact IH.
Qed.

Lemma strip_idem s : Py.strip (Py.strip s) = Py.strip s.
Proof.
  unfold Py.strip.
  rewrite (lstrip_fixed (Py.rstrip (Py.lstrip s)))
    by apply rstrip_no_leading_space, lstrip_no_leading_space.
  apply rstrip_idem.
Qed.

Lemma map_strip_idem pieces :
  map Py.strip (map Py.strip pieces) = map Py.strip pieces.
Proof. rewrite map_map. apply map_ext. intros p. apply strip_idem. Qed.

(** ** Categories of a business *)

Lemma keyed_category : keyed (schema_of T_category) "name".
Proof. repeat split. Qed.

Lemma insert_or_ignore_has_name rows n :
  has_key "name" n
    (insert_or_ignore (schema_of T_category) rows [("name", Text n)]) = true.
Proof.
  rewrite (keyed_insert_or_ignore _ _ _ _ n keyed_category) by reflexivity.
  destruct (has_key "name" n rows) eqn:E; [exact E|].
  apply (keyed_has_key_after _ _ _ _ _ keyed_category); reflexivity.
Qed.

Lemma insert_many_or_ignore_names names :
  forall rows n,
    In n names ->
    has_key "name" n
      (insert_many_or_ignore (schema_of T_category) rows
         (map (fun n => [("name", Text n)]) names)) = true.
Proof.
  induction names as [|a names IH]; intros rows n Hin; [destruct Hin|].
  cbn [map insert_many_or_ignore]. destruct Hin as [->|Hin].
  - destruct (insert_many_or_ignore_appends (schema_of T_category)
                (map (fun n => [("name", Text n)]) names)
                (insert_or_ignore (schema_of T_category) rows [("name", Text n)]))
      as (l & ->).
    apply has_key_mono, insert_or_ignore_has_name.
  - apply IH, Hin.
Qed.

Lemma insert_names names d :
  names <> [] ->
  execute_insert_many T_category true (map (fun n => [("name", pstr n)]) names) d
  = Ok (tt, with_rows T_category
              (insert_many_or_ignore (schema_of T_category) (category d)
                 (map (fun n => [("name", Text n)]) names)) d).
Proof.
  intros Hne. unfold execute_insert_many.
  assert (Hc : exists us,
             rmap (check_columns T_category)
                  (map (fun n => [("name", pstr n)]) names) = Ok us).
  { clear Hne. induction names as [|n names [us IH]]; simpl; [eauto|].
    rewrite IH. simpl. eauto. }
  assert (Hb : rmap bind_values (map (fun n => [("name", pstr n)]) names)
               = Ok (map (fun n => [("name", Text n)]) names)).
  { clear. induction names as [|n names IH]; simpl; [reflexivity|].
    rewrite IH. reflexivity. }
  destruct Hc as (us & Hc). rewrite Hc, Hb.
  destruct names as [|n names]; [contradiction|]. reflexivity.
Qed.

Lemma matches_names c keys r :
  matches c (map Text keys) false r
  = existsb (fun k => sqlval_eqb (cell r c) (Text k)) keys.
Proof.
  unfold matches.
  destruct (cell r c) eqn:E; try apply existsb_map_text.
  induction keys; simpl; auto.
Qed.

Lemma select_category_ids names d :
  execute_select T_category ["id"] (In_ "name" (map pstr names)) d
  = Ok (map (fun r => [cell r "id"])
            (index_order "name" (filter (named names) (category d))), d).
Proof.
  unfold execute_select, compile_where. rewrite rmap_bind_pstr.
  change (column T_category "name") with (Ok (A:=string) "name").
  change (rmap (column T_category) ["id"]) with (Ok (A:=list string) ["id"]).
  unfold rbind. rewrite filter_not_null_text.
  rewrite (filter_ext _ _ (matches_names "name" names)). reflexivity.
Qed.

(** A name that is in the table is found by the lookup of the names. *)
Lemma named_found c names n rows :
  In n names -> has_key c n rows = true ->
  filter (fun r => existsb (fun k => sqlval_eqb (cell r c) (Text k)) names) rows <> [].
Proof.
  intros Hin Hk E. unfold has_key in Hk. apply existsb_exists in Hk.
  destruct Hk as (r & Hr & He).
  assert (Hf : In r (filter (fun r => existsb (fun k => sqlval_eqb (cell r c) (Text k))
                                              names) rows)).
  { apply filter_In. split; [exact Hr|]. apply existsb_exists. eauto. }
  rewrite E in Hf. destruct Hf.
Qed.

Lemma category_pairs business_id (rows : list row) :
  rmap (fun cat_id : list sqlval =>
          let? c := index cat_id 0 in
          Ok [("category_id", Fetched c); ("business_id", Fetched business_id)])
       (map (fun r => [cell r "id"]) rows)
  = Ok (map (fun r => [("category_id", Fetched (cell r "id"));
                       ("business_id", Fetched business_id)]) rows).
Proof.
  induction rows as [|r rows IH]; simpl; [reflexivity|].
  simpl in IH. rewrite IH. reflexivity.
Qed.

Lemma bind_category_pairs business_id (rows : list row) :
  rmap bind_values
    (map (fun r => [("category_id", Fetched (cell r "id"));
                    ("business_id", Fetched business_id)]) rows)
  = Ok (map (category_link business_id) rows).
Proof.
  induction rows as [|r rows IH]; simpl; [reflexivity|].
  rewrite IH. reflexivity.
Qed.

(** The closed form of the category block. *)
Lemma load_categories_inv record business_id d d' s :
  getitem record "categories" = Ok (JStr s) ->
  load_categories record business_id d = Ok (tt, d') ->
  let names := map Py.strip (Py.split ", " s) in
  let d1 := with_rows T_category
              (insert_many_or_ignore (schema_of T_category) (category d)
                 (map (fun n => [("name", Text n)]) names)) d in
  d' = with_rows T_category_business
         (category_business d
          ++ map (category_link business_id)
                 (index_order "name" (filter (named names) (category d1))))
         d1.
Proof.
  intros Hs H names d1.
  assert (Hne : names <> []).
  { unfold names. pose proof (split_length ", " s) as Hl.
    destruct (Py.split ", " s); [simpl in Hl; lia | discriminate]. }
  unfold load_categories, bind_conn, lift in H. rewrite Hs in H.
  cbn [str_split] in H. fold names in H.
  assert (E : map (fun category => [("name", pstr (Py.strip category))]) names
              = map (fun n => [("name", pstr n)]) names).
  { unfold names. rewrite !map_map. apply map_ext. intros p.
    rewrite strip_idem. reflexivity. }
  rewrite E, (insert_names names d Hne) in H. fold d1 in H.
  rewrite select_category_ids, category_pairs in H.
  assert (Hfound : map (fun r => [("category_id", Fetched (cell r "id"));
                                  ("business_id", Fetched business_id)])
                       (index_order "name" (filter (named names) (category d1)))
                   <> []).
  { intros E0. apply map_eq_nil, index_order_nil in E0.
    destruct names as [|n names']; [contradiction|].
    apply (named_found "name" (n :: names') n (category d1)
             (or_introl eq_refl)); [|exact E0].
    change (category d1) with (rows_of T_category d1). unfold d1.
    rewrite rows_of_with_rows.
    apply insert_many_or_ignore_names. left. reflexivity. }
  destruct (execute_insert_many_no_rowid T_category_business _ _ _ eq_refl Hfound H)
    as (rs & Hrs & Hd).
  rewrite bind_category_pairs in Hrs. inversion Hrs. subst rs. clear Hrs.
  rewrite Hd. f_equal. f_equal.
  - apply (rows_of_with_rows_other T_category T_category_business). discriminate.
  - rewrite map_map. apply map_ext. intros r. reflexivity.
Qed.

(** X21.  The categories of a business that is loaded: the [categories]
    string is split at [", "] and each piece stripped; a name that the
    category table lacks is added to it, the names that are there keep their
    rows; and the business gets one junction row for each row of the table
    that bears one of the names, whether the name was new or not, written in
    the order in which the lookup of the names yields the rows: ascending in
    the name.  An empty string is a category of its own, named by the empty
    string. *)
Theorem categories_linked record business_id d d' s :
  getitem record "categories" = Ok (JStr s) ->
  load_categories record business_id d = Ok (tt, d') ->
  let names := map Py.strip (Py.split ", " s) in
  (exists added, category d' = category d ++ added) /\
  (forall n, In n names -> has_key "name" n (category d') = true) /\
  category_business d'
  = category_business d
    ++ map (category_link business_id)
           (index_order "name" (filter (named names) (category d'))) /\
  (forall t, t <> T_category -> t <> T_category_business ->
             rows_of t d' = rows_of t d).
Proof.
  intros Hs H names. pose proof (load_categories_inv _ _ _ _ _ Hs H) as Hd.
  cbv zeta in Hd. fold names in Hd.
  set (d1 := with_rows T_category _ d) in Hd.
  assert (Hc1 : category d1
                = insert_many_or_ignore (schema_of T_category) (category d)
                    (map (fun n => [("name", Text n)]) names))
    by apply (rows_of_with_rows T_category).
  assert (Hc : category d' = category d1)
    by (rewrite Hd; apply (rows_of_with_rows_other T_category_business T_category);
        discriminate).
  split; [|split; [|split]].
  - rewrite Hc, Hc1. apply insert_many_or_ignore_appends.
  - intros n Hin. rewrite Hc, Hc1. apply insert_many_or_ignore_names, Hin.
  - rewrite Hc. rewrite Hd at 1.
    change (category_business (with_rows T_category_business ?x d1))
      with (rows_of T_category_business (with_rows T_category_business x d1)).
    rewrite rows_of_with_rows. reflexivity.
  - intros t Ht1 Ht2. rewrite Hd.
    rewrite rows_of_with_rows_other by congruence.
    apply rows_of_with_rows_other. congruence.
Qed.

Lemma categories_linked_witness :
  exists d',
    load_categories (sample_business "b1") (Int 1) empty_database = Ok (tt, d')
    /\ category d' = [[("id", Int 1); ("name", Text "Food")];
                      [("id", Int 2); ("name", Text "Coffee")]]
    /\ (forall n, In n ["Food"; "Coffee"] -> has_key "name" n (category d') = true)
    /\ category_business d'
       = map (category_link (Int 1))
             (index_order "name" (filter (named ["Food"; "Coffee"]) (category d')))
    /\ category_business d'
       = [[("category_id", Int 2); ("business_id", Int 1)];
          [("category_id", Int 1); ("business_id", Int 1)]].
Proof.
  eexists.
  match goal with
  | |- ?run = Ok (tt, ?d1) /\ _ =>
      assert (Hrun : run = Ok (tt, d1)) by (vm_compute; reflexivity);
      destruct (categories_linked (sample_business "b1") (Int 1) empty_database
                  d1 "Food, Coffee" eq_refl Hrun) as (_ & Hnames & Hlinks & _)
  end.
  split; [vm_compute; reflexivity|]. split; [vm_compute; reflexivity|].
  split; [exact Hnames|]. split; [exact Hlinks|]. vm_compute. reflexivity.
Defined.

(** ** The uniqueness constraints are kept *)

Lemma unique_onb_app cols rows new :
  unique_onb cols (rows ++ [new])
  = unique_onb cols rows && negb (existsb (agrees cols new) rows).
Proof.
  induction rows as [|r rows IH]; [reflexivity|].
  cbn [app unique_onb existsb]. rewrite IH, forallb_app. cbn [forallb].
  rewrite negb_orb, andb_true_r.
  destruct (forallb _ rows), (unique_onb cols rows), (agrees cols new r),
    (existsb _ rows); reflexivity.
Qed.

Lemma constraints_app us rows new :
  forallb (fun cols => unique_onb cols rows) us = true ->
  existsb (fun cols => existsb (agrees cols new) rows) us = false ->
  forallb (fun cols => unique_onb cols (rows ++ [new])) us = true.
Proof.
  induction us as [|cols us IH]; [reflexivity|].
  cbn [forallb existsb]. intros H1 H2.
  apply andb_prop in H1. destruct H1 as [Hc Hrest].
  apply orb_false_elim in H2. destruct H2 as [Hn Hnrest].
  rewrite unique_onb_app, Hc, Hn, (IH Hrest Hnrest). reflexivity.
Qed.

Lemma insert_consistent sch rows vals id rows' :
  insert sch rows vals = Ok (id, rows') ->
  consistentb sch rows = true -> consistentb sch rows' = true.
Proof.
  unfold insert, conflicts, consistentb.
  destruct (existsb _ (uniques sch)) eqn:E; [discriminate|].
  intros H Hc. inversion H. subst. apply (constraints_app _ _ _ Hc E).
Qed.

Lemma insert_or_ignore_consistent sch rows vals :
  consistentb sch rows = true ->
  consistentb sch (insert_or_ignore sch rows vals) = true.
Proof.
  unfold insert_or_ignore, conflicts, consistentb. intros Hc.
  destruct (existsb _ (uniques sch)) eqn:E; [exact Hc|].
  apply (constraints_app _ _ _ Hc E).
Qed.

Lemma insert_many_consistent sch valss :
  forall rows rows',
    insert_many sch rows valss = Ok rows' ->
    consistentb sch rows = true -> consistentb sch rows' = true.
Proof.
  induction valss as [|vals valss IH]; simpl; intros rows rows' H Hc.
  - inversion H. subst. exact Hc.
  - apply rbind_inv in H. destruct H as ([id rows1] & H1 & H2).
    apply (IH _ _ H2). apply (insert_consistent _ _ _ _ _ H1 Hc).
Qed.

Lemma insert_many_or_ignore_consistent sch valss :
  forall rows,
    consistentb sch rows = true ->
    consistentb sch (insert_many_or_ignore sch rows valss) = true.
Proof.
  induction valss as [|vals valss IH]; simpl; intros rows Hc; [exact Hc|].
  apply IH, insert_or_ignore_consistent, Hc.
Qed.

Lemma db_consistentb_table d t :
  db_consistentb d = true -> consistentb (schema_of t) (rows_of t d) = true.
Proof.
  unfold db_consistentb. rewrite forallb_forall. intros H. apply H.
  destruct t; simpl; tauto.
Qed.

Lemma db_consistentb_with_rows t rs d :
  db_consistentb d = true ->
  consistentb (schema_of t) rs = true ->
  db_consistentb (with_rows t rs d) = true.
Proof.
  intros Hd Hrs. unfold db_consistentb. apply forallb_forall. intros t' _.
  assert (Hdec : t = t' \/ t <> t').
  { destruct t, t'; first [left; reflexivity | right; discriminate]. }
  destruct Hdec as [<-|Hne].
  - rewrite rows_of_with_rows. exact Hrs.
  - rewrite (rows_of_with_rows_other _ _ _ _ Hne). apply db_consistentb_table, Hd.
Qed.

Lemma unique_onb_map cols (f : row -> row) rows :
  (forall r' r, agrees cols (f r') (f r) = agrees cols r' r) ->
  unique_onb cols (map f rows) = unique_onb cols rows.
Proof.
  intros Hf. induction rows as [|r rows IH]; [reflexivity|].
  cbn [map unique_onb]. rewrite IH. f_equal.
  clear IH. induction rows as [|r' rows IH]; [reflexivity|].
  cbn [map forallb]. rewrite IH, Hf. reflexivity.
Qed.

Lemma agrees_ext cols a a' b b' :
  (forall c, In c cols -> cell a' c = cell a c /\ cell b' c = cell b c) ->
  agrees cols a' b' = agrees cols a b.
Proof.
  unfold agrees. induction cols as [|c cols IH]; intros H; [reflexivity|].
  cbn [forallb]. destruct (H c (or_introl eq_refl)) as [-> ->].
  rewrite IH; [reflexivity|]. intros c' Hin. apply H. right. exact Hin.
Qed.

Lemma update_friend_count_consistent (sel : row -> bool) v rows :
  consistentb (schema_of T_users) (update rows sel [("friend_count", v)])
  = consistentb (schema_of T_users) rows.
Proof.
  unfold consistentb, update. cbn [schema_of uniques forallb].
  rewrite !unique_onb_map; [reflexivity| |];
    intros r' r; apply agrees_ext; intros c [<-|[]];
    split; apply cell_set_friend_count; reflexivity.
Qed.

Section Keeps.

Context {A B : Type}.

Lemma keeps_ret (a : A) : keeps (ret a).
Proof. intros d a' d' H. apply ret_inv in H. destruct H as [_ ->]. auto. Qed.

Lemma keeps_lift (r : result A) : keeps (lift r).
Proof. intros d a' d' H. apply lift_inv in H. destruct H as [_ ->]. auto. Qed.

Lemma keeps_bind (m : conn A) (k : A -> conn B) :
  keeps m -> (forall a, keeps (k a)) -> keeps (bind_conn m k).
Proof.
  intros Hm Hk d b d' H Hd. apply bind_conn_inv in H.
  destruct H as (a & d1 & H1 & H2).
  apply (Hk a _ _ _ H2). apply (Hm _ _ _ H1 Hd).
Qed.

Lemma keeps_except (m : conn A) : keeps m -> keeps (except_IntegrityError m).
Proof.
  intros Hm d o d' H Hd. apply except_inv in H.
  destruct H as [(_ & -> & _)|(a & _ & H)]; [exact Hd|].
  apply (Hm _ _ _ H Hd).
Qed.

End Keeps.

Lemma keeps_for_each {A} (body : A -> conn unit) xs :
  (forall x, keeps (body x)) -> keeps (for_each body xs).
Proof.
  intros Hb. induction xs as [|x xs IH]; simpl.
  - apply keeps_ret.
  - apply keeps_bind; [apply Hb | intros _; exact IH].
Qed.

Lemma keeps_execute_insert t vals : keeps (execute_insert t vals).
Proof.
  intros d id d' H Hd. unfold execute_insert in H. inv_result H.
  match goal with
  | Hi : insert _ _ _ = Ok ?p |- _ => destruct p as [id' rows']
  end.
  apply (db_consistentb_with_rows _ _ _ Hd).
  eapply insert_consistent; [eassumption|]. apply db_consistentb_table, Hd.
Qed.

Lemma keeps_execute_insert_or_ignore t vals :
  keeps (execute_insert_or_ignore t vals).
Proof.
  intros d u d' H Hd. unfold execute_insert_or_ignore in H. inv_result H.
  apply (db_consistentb_with_rows _ _ _ Hd).
  apply insert_or_ignore_consistent, db_consistentb_table, Hd.
Qed.

Lemma keeps_execute_insert_many t ignore valss :
  keeps (execute_insert_many t ignore valss).
Proof.
  intros d u d' H Hd. unfold execute_insert_many in H.
  destruct valss as [|vals valss].
  { destruct ignore; [discriminate|].
    apply rbind_inv in H. destruct H as ([id rows'] & Hi & H). inversion H.
    apply (db_consistentb_with_rows _ _ _ Hd).
    apply (insert_consistent _ _ _ _ _ Hi), db_consistentb_table, Hd. }
  apply rbind_inv in H. destruct H as (us & _ & H).
  apply rbind_inv in H. destruct H as (rs & _ & H).
  destruct ignore.
  - inversion H. apply (db_consistentb_with_rows _ _ _ Hd).
    apply insert_many_or_ignore_consistent, db_consistentb_table, Hd.
  - apply rbind_inv in H. destruct H as (rows' & Hi & H). inversion H.
    apply (db_consistentb_with_rows _ _ _ Hd).
    apply (insert_many_consistent _ _ _ _ Hi), db_consistentb_table, Hd.
Qed.

Lemma keeps_execute_select t cols w : keeps (execute_select t cols w).
Proof. intros d a d' H Hd. apply execute_select_reads in H. subst d'. exact Hd. Qed.

Lemma keeps_update_friend_count w p :
  keeps (execute_update T_users w [("friend_count", p)]).
Proof.
  intros d u d' H Hd. unfold execute_update in H. inv_result H.
  match goal with
  | Hb : bind_values _ = Ok ?r |- _ =>
      rewrite bind_values_cons in Hb; inv_result Hb
  end.
  match goal with
  | Hb : bind_values [] = Ok _ |- _ => inversion Hb; subst; clear Hb
  end.
  apply (db_consistentb_with_rows _ _ _ Hd).
  rewrite update_friend_count_consistent. apply db_consistentb_table, Hd.
Qed.

#[export] Hint Resolve keeps_ret keeps_lift keeps_execute_insert
  keeps_execute_insert_or_ignore keeps_execute_insert_many keeps_execute_select
  keeps_update_friend_count : footprint.

(** Going through the statements of a loader, for the constraints. *)
Ltac keeping :=
  repeat first
    [ progress intros
    | apply keeps_bind
    | apply keeps_except
    | solve [auto with footprint]
    | match goal with
      | |- keeps (match ?x with _ => _ end) => destruct x
      end ].

Lemma keeps_load_business dict record : keeps (load_business dict record).
Proof.
  unfold load_business, load_categories, load_attributes, load_hours. keeping.
Qed.

Lemma keeps_load_user record : keeps (load_user record).
Proof. unfold load_user, load_elite. keeping. Qed.

Lemma keeps_connect_user record : keeps (connect_user record).
Proof. unfold connect_user. keeping. Qed.

Lemma keeps_load_review record : keeps (load_review record).
Proof. unfold load_review, _get_add_user_id, _get_add_business_id. keeping. Qed.

Lemma keeps_load_checkin record : keeps (load_checkin record).
Proof. unfold load_checkin, _get_add_business_id. keeping. Qed.

Lemma keeps_load_tip record : keeps (load_tip record).
Proof. unfold load_tip, _get_add_user_id, _get_add_business_id. keeping. Qed.

Lemma keeps_load_photo record : keeps (load_photo record).
Proof. unfold load_photo, _get_add_business_id. keeping. Qed.

Lemma run_pass_keeps p file verbose w w' :
  run_pass p file verbose w = Ok (tt, w') ->
  db_consistentb (db w) = true -> db_consistentb (db w') = true.
Proof.
  intros H Hd. destruct p; cbn [run_pass] in H.
  - apply load_business_json_inv in H. destruct H as [H _].
    apply (keeps_for_each _ _ (keeps_load_business day_id_days_dict) _ _ _ H).
    apply (db_consistentb_with_rows _ _ _ Hd).
    apply insert_many_or_ignore_consistent.
    apply (db_consistentb_table _ T_days Hd).
  - apply announced_inv in H. destruct H as [H _].
    apply (keeps_for_each _ _ keeps_load_user _ _ _ H Hd).
  - apply announced_inv in H. destruct H as [H _].
    apply (keeps_for_each _ _ keeps_connect_user _ _ _ H Hd).
  - apply announced_inv in H. destruct H as [H _].
    apply (keeps_for_each _ _ keeps_load_review _ _ _ H Hd).
  - apply announced_inv in H. destruct H as [H _].
    apply (keeps_for_each _ _ keeps_load_checkin _ _ _ H Hd).
  - apply announced_inv in H. destruct H as [H _].
    apply (keeps_for_each _ _ keeps_load_tip _ _ _ H Hd).
  - apply announced_inv in H. destruct H as [H _].
    apply (keeps_for_each _ _ keeps_load_photo _ _ _ H Hd).
Qed.

Lemma optional_pass_keeps p (file : option Utils.path) verbose w w' :
  match file with
  | Some file => run_pass p file verbose
  | None => pret tt
  end w = Ok (tt, w') ->
  db_consistentb (db w) = true -> db_consistentb (db w') = true.
Proof.
  destruct file as [file|].
  - apply run_pass_keeps.
  - intros H. inversion H. auto.
Qed.

(** One row at most holds a given value in a column that is unique. *)
Lemma unique_onb_filter c v rows :
  is_null v = false ->
  unique_onb [c] rows = true ->
  (List.length (filter (fun r => sqlval_eqb (cell r c) v) rows) <= 1)%nat.
Proof.
  intros Hv. induction rows as [|r rows IH]; cbn [unique_onb filter]; [simpl; lia|].
  intros H. apply andb_prop in H. destruct H as [Hr Hrest].
  destruct (sqlval_eqb (cell r c) v) eqn:E; [|apply IH, Hrest].
  apply sqlval_eqb_eq in E.
  assert (Hnone : filter (fun r' => sqlval_eqb (cell r' c) v) rows = []).
  { clear IH Hrest. induction rows as [|r' rows IH]; [reflexivity|].
    cbn [forallb] in Hr. apply andb_prop in Hr. destruct Hr as [Hr' Hr].
    cbn [filter]. destruct (sqlval_eqb (cell r' c) v) eqn:E'; [|apply IH, Hr].
    apply sqlval_eqb_eq in E'. unfold agrees in Hr'. cbn [forallb] in Hr'.
    rewrite E, E', Hv, sqlval_eqb_refl in Hr'. discriminate Hr'. }
  rewrite Hnone. simpl. lia.
Qed.

(** X22.  A run of [create_full_database] keeps the uniqueness constraints
    of the fourteen tables: started on a database in which no two rows share
    an id, a natural key, a category or attribute name, a day or a junction
    pair, it ends on such a database.  So a natural key names one row at
    most, and the id found for it is the only one. *)
Theorem uniqueness_kept folder verbose include_photos w res w' :
  db_consistentb (db w) = true ->
  create_full_database folder verbose include_photos w = Ok (res, w') ->
  db_consistentb (db w') = true
  /\ forall t c v,
       In [c] (uniques (schema_of t)) -> is_null v = false ->
       (List.length (filter (fun r => sqlval_eqb (cell r c) v) (rows_of t (db w')))
        <= 1)%nat.
Proof.
  intros Hd H.
  assert (Hd' : db_consistentb (db w') = true).
  { revert H. unfold create_full_database. rewrite fold_discover_last.
    cbn [nothing_discovered business_file_path user_file_path review_file_path
         checkin_file_path tip_file_path photo_file_path].
    destruct (last_of_kind BusinessFile folder) as [b|];
      [|intros H; inversion H; exact Hd].
    destruct (last_of_kind UserFile folder) as [u|];
      [|intros H; inversion H; exact Hd].
    destruct (last_of_kind ReviewFile folder) as [rv|];
      [|intros H; inversion H; exact Hd].
    rewrite !option_eta. intros H. inv_proc H. inversion H. subst.
    assert (H5' : db_consistentb (db w5) = true).
    { apply (optional_pass_keeps LoadTips _ _ _ _ H5).
      apply (optional_pass_keeps LoadCheckins _ _ _ _ H4).
      apply (run_pass_keeps LoadReviews _ _ _ _ H3).
      apply (run_pass_keeps ConnectUsers _ _ _ _ H2).
      apply (run_pass_keeps LoadUsers _ _ _ _ H1).
      apply (run_pass_keeps LoadBusiness _ _ _ _ H0 Hd). }
    destruct include_photos.
    - apply (optional_pass_keeps LoadPhotos _ _ _ _ H6 H5').
    - match type of H6 with
      | match ?f with _ => _ end _ = _ =>
          destruct f; inversion H6; subst; exact H5'
      end. }
  split; [exact Hd'|].
  intros t c v Hin Hv. apply (unique_onb_filter _ _ _ Hv).
  pose proof (db_consistentb_table _ t Hd') as Ht.
  unfold consistentb in Ht. rewrite forallb_forall in Ht. apply Ht, Hin.
Qed.

Lemma uniqueness_kept_witness :
  exists w',
    create_full_database sample_folder false true empty_world = Ok (None, w')
    /\ db_consistentb (db w') = true
    /\ forall t c v,
         In [c] (uniques (schema_of t)) -> is_null v = false ->
         (List.length (filter (fun r => sqlval_eqb (cell r c) v)
                              (rows_of t (db w'))) <= 1)%nat.
Proof.
  eexists. split; [vm_compute; reflexivity|].
  apply (uniqueness_kept sample_folder false true empty_world None).
  - reflexivity.
  - vm_compute. reflexivity.
Defined.

(** ** Stubs *)

Lemma user_stub_cells k rows :
  cell (user_stub k rows) "id" = Int (next_rowid "id" rows)
  /\ cell (user_stub k rows) "user_id_str" = Text k
  /\ cell (user_stub k rows) "friend_count" = Null
  /\ forall c, In c user_columns -> cell (user_stub k rows) c = Null.
Proof.
  unfold user_stub. repeat split; try (rewrite cell_make_row by reflexivity; reflexivity).
  intros c Hin.
  repeat (destruct Hin as [<-|Hin];
          [rewrite cell_make_row by reflexivity; reflexivity|]).
  destruct Hin.
Qed.

(** X23.  A user who is first met in a review or a tip gets a row that holds
    the natural key and a fresh id, every other column being NULL; and the
    row stays so: a User record for the same key that is loaded afterwards is
    a duplicate and is skipped, without any write. *)
Theorem stub_is_never_completed record vals r d k :
  users_statement record = Ok vals ->
  getitem record "user_id" = Ok (JStr k) ->
  bind_values vals = Ok r ->
  has_key "user_id_str" k (users d) = false ->
  exists d1,
    _get_add_user_id T_users (JStr k) d = Ok (Int (next_rowid "id" (users d)), d1) /\
    users d1 = users d ++ [user_stub k (users d)] /\
    cell (user_stub k (users d)) "user_id_str" = Text k /\
    cell (user_stub k (users d)) "friend_count" = Null /\
    (forall c, In c user_columns -> cell (user_stub k (users d)) c = Null) /\
    load_user record d1 = Ok (tt, d1).
Proof.
  intros Hs Hk Hb Hnew.
  destruct (get_add_user_id_spec d k) as (id & d1 & Hres & Hid & Hd).
  rewrite Hnew in Hd. destruct Hd as [Hd ->].
  exists d1. split; [exact Hres|].
  destruct (user_stub_cells k (users d)) as (_ & Hkey & Hfc & Hcols).
  split; [rewrite Hd; apply (rows_of_with_rows T_users)|].
  split; [exact Hkey|]. split; [exact Hfc|]. split; [exact Hcols|].
  apply (load_user_skip _ _ _ Hs).
  apply (user_duplicate _ _ _ _ _ Hs Hk Hb).
  apply (user_id_of_has_key _ _ _ Hid).
Qed.

Lemma stub_is_never_completed_witness :
  exists vals r d1,
    users_statement (sample_user "u1" "u2" "2019") = Ok vals
    /\ bind_values vals = Ok r
    /\ _get_add_user_id T_users (JStr "u1") empty_database = Ok (Int 1, d1)
    /\ users d1 = [user_stub "u1" []]
    /\ load_user (sample_user "u1" "u2" "2019") d1 = Ok (tt, d1).
Proof.
  eexists. eexists.
  match goal with
  | |- exists d1, ?A /\ ?B /\ _ =>
      assert (Hs : A) by (vm_compute; reflexivity);
      assert (Hb : B) by (vm_compute; reflexivity)
  end.
  assert (Hk : getitem (sample_user "u1" "u2" "2019") "user_id" = Ok (JStr "u1"))
    by (vm_compute; reflexivity).
  assert (Hnew : has_key "user_id_str" "u1" (users empty_database) = false)
    by (vm_compute; reflexivity).
  destruct (stub_is_never_completed _ _ _ _ _ Hs Hk Hb Hnew)
    as (d1 & Hres & Hu & _ & _ & _ & Hskip).
  exists d1. split; [exact Hs|]. split; [exact Hb|]. split; [exact Hres|].
  split; [exact Hu | exact Hskip].
Defined.

(** ** Tips *)

(** X24.  A tip that is loaded always gets a row of its own, with the next
    rowid: its user is looked up by [user_id] and, when unknown, gets a row
    holding the key only; its business must be there; and the row's
    [user_id] and [business_id] are the ids of the rows holding the two
    natural keys. *)
Theorem tip_row_references record d d' ku kb :
  getitem record "user_id" = Ok (JStr ku) ->
  getitem record "business_id" = Ok (JStr kb) ->
  load_tip record d = Ok (tt, d') ->
  exists uid bid r,
    user_id_of ku d' = Some uid /\ business_id_of kb d' = Some bid /\
    business d' = business d /\
    users d' = users d ++ (if has_key "user_id_str" ku (users d) then []
                           else [user_stub ku (users d)]) /\
    tips d' = tips d ++ [r] /\
    cell r "id" = Int (next_rowid "id" (tips d)) /\
    cell r "user_id" = uid /\ cell r "business_id" = bid.
Proof.
  intros Hu Hb H. unfold load_tip in H. inv_conn H.
  repeat match goal with
         | Hg : getitem record _ = Ok ?a |- _ =>
             first [rewrite Hu in Hg | rewrite Hb in Hg];
             inversion Hg; subst a; clear Hg
         end.
  match goal with
  | Hr : _get_add_user_id _ _ _ = Ok _ |- _ =>
      destruct (get_add_user_id_tables _ _ _ _ Hr) as (Huid & Husers & Hframe)
  end.
  match goal with
  | Hr : _get_add_business_id _ _ _ = Ok _ |- _ =>
      destruct (get_add_business_id_found _ _ _ _ Hr) as (-> & Hbid); clear Hr
  end.
  match goal with
  | Hs : tip_insert_statement _ _ _ = Ok _ |- _ =>
      pose proof (tip_insert_statement_keys _ _ _ _ Hs) as Hkeys;
      unfold tip_insert_statement in Hs; inv_result Hs
  end.
  match goal with
  | Hi : execute_insert_or_ignore _ _ _ = Ok _ |- _ =>
      unfold execute_insert_or_ignore in Hi; inv_result Hi
  end.
  match goal with
  | Hv : bind_values _ = Ok ?r0 |- _ =>
      pose proof (bind_values_keys _ _ Hv) as Hk0;
      rewrite (rowid_only_insert (schema_of T_tips) _ r0 eq_refl eq_refl eq_refl)
        by (apply cell_not_key; rewrite Hk0; reflexivity);
      rewrite !bind_values_cons in Hv;
      repeat match type of Hv with
             | context [bind (Fetched ?x)] =>
                 change (bind (Fetched x)) with (Ok (A:=sqlval) x) in Hv
             end;
      cbn [rbind] in Hv; inv_result Hv
  end.
  repeat match goal with
         | Hx : bind_values [] = Ok _ |- _ => inversion Hx; subst; clear Hx
         end.
  match goal with
  | |- context [with_rows T_tips (tips ?d1 ++ [?row]) ?d1] =>
      set (new := row); set (d' := with_rows T_tips (tips d1 ++ [new]) d1)
  end.
  assert (Ht : tips d0 = tips d)
    by (apply (Hframe T_tips); discriminate).
  assert (Hbus : business d0 = business d)
    by (apply (Hframe T_business); discriminate).
  assert (Hu1 : users d' = users d0)
    by (apply (rows_of_with_rows_other T_tips T_users); discriminate).
  assert (Hb1 : business d' = business d0)
    by (apply (rows_of_with_rows_other T_tips T_business); discriminate).
  eexists. eexists. exists new.
  split; [rewrite (user_id_of_users _ _ _ Hu1); exact Huid|].
  split; [rewrite (business_id_of_business _ _ _ Hb1); exact Hbid|].
  split; [congruence|]. split; [congruence|].
  split.
  { change (tips d') with (rows_of T_tips d'). unfold d'.
    rewrite rows_of_with_rows, Ht. reflexivity. }
  unfold new. rewrite Ht.
  repeat split; rewrite cell_make_row by reflexivity; reflexivity.
Qed.

Lemma tip_row_references_witness :
  exists d' uid bid r,
    load_tip (sample_tip "u1" "b1") (one_business "b1") = Ok (tt, d')
    /\ user_id_of "u1" d' = Some uid /\ business_id_of "b1" d' = Some bid
    /\ users d' = [user_stub "u1" []]
    /\ tips d' = [r]
    /\ cell r "id" = Int 1 /\ cell r "user_id" = uid /\ cell r "business_id" = bid.
Proof.
  eexists.
  match goal with
  | |- exists uid bid r, ?run = Ok (tt, ?d1) /\ _ =>
      assert (Hrun : run = Ok (tt, d1)) by (vm_compute; reflexivity);
      destruct (tip_row_references (sample_tip "u1" "b1") (one_business "b1") d1
                  "u1" "b1" eq_refl eq_refl Hrun)
        as (uid & bid & r & Hu & Hb & _ & Hus & Ht & Hid & Hcu & Hcb)
  end.
  exists uid, bid, r. split; [vm_compute; reflexivity|].
  repeat (split; [assumption|]). assumption.
Defined.

(** ** Attributes of a business *)

Lemma insert_attribute_names names d :
  names <> [] ->
  execute_insert_many T_attributes true (map (fun n => [("name", pstr n)]) names) d
  = Ok (tt, with_rows T_attributes
              (insert_many_or_ignore (schema_of T_attributes) (attributes d)
                 (map (fun n => [("name", Text n)]) names)) d).
Proof.
  intros Hne. unfold execute_insert_many.
  assert (Hc : exists us,
             rmap (check_columns T_attributes)
                  (map (fun n => [("name", pstr n)]) names) = Ok us).
  { clear Hne. induction names as [|n names [us IH]]; simpl; [eauto|].
    rewrite IH. simpl. eauto. }
  assert (Hb : rmap bind_values (map (fun n => [("name", pstr n)]) names)
               = Ok (map (fun n => [("name", Text n)]) names)).
  { clear. induction names as [|n names IH]; simpl; [reflexivity|].
    rewrite IH. reflexivity. }
  destruct Hc as (us & Hc). rewrite Hc, Hb.
  destruct names as [|n names]; [contradiction|]. reflexivity.
Qed.

Lemma select_attributes keys d :
  execute_select T_attributes (columns (schema_of T_attributes))
    (In_ "name" (map pstr keys)) d
  = Ok (map (fun r => [cell r "id"; cell r "name"])
            (index_order "name" (filter (named keys) (attributes d))), d).
Proof.
  unfold execute_select, compile_where. rewrite rmap_bind_pstr.
  change (column T_attributes "name") with (Ok (A:=string) "name").
  change (rmap (column T_attributes) (columns (schema_of T_attributes)))
    with (Ok (A:=list string) ["id"; "name"]).
  unfold rbind. rewrite filter_not_null_text.
  rewrite (filter_ext _ _ (matches_names "name" keys)). reflexivity.
Qed.

Lemma assoc_in_keys {V} k (d : list (string * V)) :
  In k (map fst d) -> exists v, assoc k d = Some v.
Proof.
  induction d as [|[k' v'] d IH]; simpl; [intros []|].
  destruct (String.eqb k k') eqn:E; [eauto|].
  intros [->|Hin]; [rewrite String.eqb_refl in E; discriminate | auto].
Qed.

Lemma named_value flat r :
  named (map fst flat) r = true ->
  exists k, cell r "name" = Text k /\ assoc k flat = Some (value_of flat r).
Proof.
  unfold named. intros H. apply existsb_exists in H.
  destruct H as (k & Hin & Hk). apply sqlval_eqb_eq in Hk.
  destruct (assoc_in_keys _ _ Hin) as (v & Hv).
  exists k. split; [exact Hk|]. unfold value_of. rewrite Hk, Hv. reflexivity.
Qed.

Lemma attribute_triples flat business_id (rows : list row) :
  Forall (fun r => named (map fst flat) r = true) rows ->
  rmap (fun entry : list sqlval =>
          let? a := index entry 0 in
          let? n := index entry 1 in
          let? value :=
            match n with
            | Text k =>
                match assoc k flat with
                | Some v => Ok v
                | None => Raise (KeyError k)
                end
            | _ => Raise (KeyError EmptyString)
            end in
          Ok [("attribute_id", Fetched a); ("business_id", Fetched business_id);
              ("value", pstr (Py.strip value))])
       (map (fun r => [cell r "id"; cell r "name"]) rows)
  = Ok (map (fun r => [("attribute_id", Fetched (cell r "id"));
                       ("business_id", Fetched business_id);
                       ("value", pstr (Py.strip (value_of flat r)))]) rows).
Proof.
  induction 1 as [|r rows Hr _ IH]; [reflexivity|].
  cbn [map rmap]. rewrite IH. cbn [index nth_error rbind].
  destruct (named_value _ _ Hr) as (k & Hk & Hv). rewrite Hk, Hv. reflexivity.
Qed.

Lemma bind_attribute_triples flat business_id (rows : list row) :
  rmap bind_values
    (map (fun r => [("attribute_id", Fetched (cell r "id"));
                    ("business_id", Fetched business_id);
                    ("value", pstr (Py.strip (value_of flat r)))]) rows)
  = Ok (map (attribute_link flat business_id) rows).
Proof.
  induction rows as [|r rows IH]; simpl; [reflexivity|].
  rewrite IH. reflexivity.
Qed.

Lemma filter_all {A} (p : A -> bool) l : Forall (fun x => p x = true) (filter p l).
Proof.
  apply Forall_forall. intros x Hin. apply filter_In in Hin. apply Hin.
Qed.

Lemma index_order_all col (p : row -> bool) rows :
  Forall (fun x => p x = true) (index_order col (filter p rows)).
Proof.
  apply Forall_forall. intros x Hin. apply index_order_In, filter_In in Hin.
  apply Hin.
Qed.

(** The closed form of the attributes block. *)
Lemma load_attributes_inv record business_id d d' attrs flat :
  getitem record "attributes" = Ok (JObj attrs) ->
  Utils.flatten_dict (JObj attrs) = Ok (Some flat) ->
  load_attributes record business_id d = Ok (tt, d') ->
  let keys := map fst flat in
  let d1 := with_rows T_attributes
              (insert_many_or_ignore (schema_of T_attributes) (attributes d)
                 (map (fun n => [("name", Text n)]) (map Py.strip keys))) d in
  d' = with_rows T_business_attributes
         (business_attributes d
          ++ written T_business_attributes
               (map (attribute_link flat business_id)
                    (index_order "name" (filter (named keys) (attributes d1)))))
         d1.
Proof.
  intros Hg Hflat H keys d1.
  unfold load_attributes, bind_conn, lift in H. rewrite Hg, Hflat in H.
  fold keys in H.
  assert (E : map (fun cat_name => [("name", pstr (Py.strip cat_name))]) keys
              = map (fun n => [("name", pstr n)]) (map Py.strip keys))
    by (rewrite map_map; reflexivity).
  rewrite E in H.
  assert (Hne : map Py.strip keys <> []).
  { intros Hnil. rewrite Hnil in H. discriminate H. }
  rewrite (insert_attribute_names _ d Hne) in H. fold d1 in H.
  rewrite select_attributes in H.
  rewrite (attribute_triples flat business_id
             (index_order "name" (filter (named keys) (attributes d1)))
             (index_order_all _ _ _)) in H.
  assert (Hu : Forall (fun cols : list string => cols <> [])
                      (uniques (schema_of T_business_attributes)))
    by (repeat constructor; discriminate).
  destruct (execute_insert_many_written T_business_attributes _ _ _ eq_refl Hu H)
    as (rs & Hrs & Hd).
  rewrite bind_attribute_triples in Hrs. inversion Hrs. subst rs. clear Hrs.
  rewrite Hd. f_equal. f_equal.
  - apply (rows_of_with_rows_other T_attributes T_business_attributes). discriminate.
  - f_equal. rewrite map_map. apply map_ext. intros r. reflexivity.
Qed.

(** X25.  The attributes of a business that is loaded, for an [attributes]
    dict that [flatten_dict] turns into a flat mapping with at least one
    entry: each key of it, stripped, is added to the attribute table if it is
    not there; the rows of the table whose name is one of the keys as they
    are get looked up, the names being stripped when they are written and not
    when they are looked up; and the business gets one junction row for each
    such row, holding the flattened value, stripped, in the order in which
    the lookup yields the rows: ascending in the name.  When the lookup finds
    no row (every key has white space around it), the INSERT of the junction
    rows is compiled from an empty list and one row of NULLs is written. *)
Theorem attributes_linked record business_id d d' attrs flat :
  getitem record "attributes" = Ok (JObj attrs) ->
  Utils.flatten_dict (JObj attrs) = Ok (Some flat) ->
  flat <> [] ->
  load_attributes record business_id d = Ok (tt, d') ->
  let keys := map fst flat in
  let found := index_order "name" (filter (named keys) (attributes d')) in
  (exists added, attributes d' = attributes d ++ added) /\
  (forall k, In k keys -> has_key "name" (Py.strip k) (attributes d') = true) /\
  business_attributes d'
  = business_attributes d
    ++ match found with
       | [] => [[("attribute_id", Null); ("business_id", Null); ("value", Null)]]
       | _ => map (attribute_link flat business_id) found
       end /\
  (forall r, In r found ->
     exists k, In k keys /\ cell r "name" = Text k
               /\ assoc k flat = Some (value_of flat r)) /\
  (forall t, t <> T_attributes -> t <> T_business_attributes ->
             rows_of t d' = rows_of t d).
Proof.
  intros Hg Hflat _ H keys found.
  pose proof (load_attributes_inv _ _ _ _ _ _ Hg Hflat H) as Hd.
  cbv zeta in Hd. fold keys in Hd.
  set (d1 := with_rows T_attributes _ d) in Hd.
  assert (Ha1 : attributes d1
                = insert_many_or_ignore (schema_of T_attributes) (attributes d)
                    (map (fun n => [("name", Text n)]) (map Py.strip keys)))
    by apply (rows_of_with_rows T_attributes).
  assert (Ha : attributes d' = attributes d1)
    by (rewrite Hd;
        apply (rows_of_with_rows_other T_business_attributes T_attributes);
        discriminate).
  split; [|split; [|split; [|split]]].
  - rewrite Ha, Ha1. apply insert_many_or_ignore_appends.
  - intros k Hin. rewrite Ha, Ha1.
    apply (insert_many_or_ignore_names (map Py.strip keys) (attributes d)).
    apply in_map, Hin.
  - unfold found. rewrite Ha. rewrite Hd at 1.
    change (business_attributes (with_rows T_business_attributes ?x d1))
      with (rows_of T_business_attributes (with_rows T_business_attributes x d1)).
    rewrite rows_of_with_rows. f_equal.
    destruct (index_order "name" (filter (named keys) (attributes d1)));
      reflexivity.
  - intros r Hin. apply index_order_In, filter_In in Hin. destruct Hin as [_ Hn].
    pose proof Hn as Hn'. unfold named in Hn'. apply existsb_exists in Hn'.
    destruct Hn' as (k & Hk & Hcell). apply sqlval_eqb_eq in Hcell.
    destruct (named_value _ _ Hn) as (k' & Hk' & Hv).
    exists k. split; [exact Hk|]. split; [exact Hcell|].
    rewrite Hcell in Hk'. inversion Hk'. subst k'. exact Hv.
  - intros t Ht1 Ht2. rewrite Hd.
    rewrite rows_of_with_rows_other by congruence.
    apply rows_of_with_rows_other. congruence.
Qed.

Lemma attributes_linked_witness :
  (exists d',
     load_attributes (sample_business "b1") (Int 1) empty_database = Ok (tt, d')
     /\ attributes d' = [[("id", Int 1); ("name", Text "WiFi")];
                         [("id", Int 2); ("name", Text "Parking_garage")];
                         [("id", Int 3); ("name", Text "Parking_street")]]
     /\ business_attributes d'
        = [[("attribute_id", Int 2); ("business_id", Int 1); ("value", Text "False")];
           [("attribute_id", Int 3); ("business_id", Int 1); ("value", Text "True")];
           [("attribute_id", Int 1); ("business_id", Int 1); ("value", Text "free")]])
  /\ (exists d',
        load_attributes (JObj [("attributes", JObj [(" WiFi", JStr "True")])])
          (Int 1) empty_database = Ok (tt, d')
        /\ attributes d' = [[("id", Int 1); ("name", Text "WiFi")]]
        /\ business_attributes d'
           = [[("attribute_id", Null); ("business_id", Null); ("value", Null)]]).
Proof.
  split.
  - eexists.
    match goal with
    | |- ?run = Ok (tt, ?d1) /\ _ =>
        assert (Hrun : run = Ok (tt, d1)) by (vm_compute; reflexivity)
    end.
    assert (Hg : getitem (sample_business "b1") "attributes"
                 = Ok (JObj [("WiFi", JStr "u'free'");
                             ("Parking", JStr "{'garage': False, 'street': True}")]))
      by (vm_compute; reflexivity).
    assert (Hf : Utils.flatten_dict
                   (JObj [("WiFi", JStr "u'free'");
                          ("Parking", JStr "{'garage': False, 'street': True}")])
                 = Ok (Some [("WiFi", "free"); ("Parking_garage", "False");
                             ("Parking_street", "True")]))
      by (vm_compute; reflexivity).
    assert (Hne : [("WiFi", "free"); ("Parking_garage", "False");
                   ("Parking_street", "True")] <> @nil (string * string))
      by discriminate.
    destruct (attributes_linked _ _ _ _ _ _ Hg Hf Hne Hrun)
      as (_ & _ & Hlinks & _).
    split; [exact Hrun|]. split; [vm_compute; reflexivity|].
    rewrite Hlinks. vm_compute. reflexivity.
  - eexists.
    match goal with
    | |- ?run = Ok (tt, ?d1) /\ _ =>
        assert (Hrun : run = Ok (tt, d1)) by (vm_compute; reflexivity)
    end.
    assert (Hg : getitem (JObj [("attributes", JObj [(" WiFi", JStr "True")])])
                   "attributes"
                 = Ok (JObj [(" WiFi", JStr "True")]))
      by (vm_compute; reflexivity).
    assert (Hf : Utils.flatten_dict (JObj [(" WiFi", JStr "True")])
                 = Ok (Some [(" WiFi", "True")]))
      by (vm_compute; reflexivity).
    assert (Hne : [(" WiFi", "True")] <> @nil (string * string)) by discriminate.
    destruct (attributes_linked _ _ _ _ _ _ Hg Hf Hne Hrun)
      as (_ & _ & Hlinks & _).
    split; [exact Hrun|]. split; [vm_compute; reflexivity|].
    rewrite Hlinks. vm_compute. reflexivity.
Defined.

(** ** Records without a natural key *)

Lemma load_user_null record d d' :
  getitem record "user_id" = Ok JNull ->
  load_user record d = Ok (tt, d') ->
  exists r,
    users d' = users d ++ [r] /\ cell r "user_id_str" = Null /\
    cell r "id" = Int (next_rowid "id" (users d)).
Proof.
  intros Hj H. unfold load_user in H. inv_conn H.
  match goal with
  | Hs : users_statement record = Ok _ |- _ =>
      destruct (users_statement_inv _ _ Hs) as (j & p & rest & Hj' & Hp & -> & Hc & Hid)
  end.
  rewrite Hj in Hj'. inversion Hj'. subst j. simpl in Hp. inversion Hp. subst p.
  destruct (bind_values (("user_id_str", Obj JNull) :: rest)) as [r|e] eqn:Hb.
  - assert (Hkc : cell r "user_id_str" = Null)
      by apply (bind_values_head_null _ _ _ Hb).
    assert (Hnid : cell r "id" = Null)
      by (apply cell_not_key; rewrite (bind_values_keys _ _ Hb); exact Hid).
    pose proof (execute_insert_null T_users "user_id_str" _ r d keyed_users
                  Hc Hb Hnid Hkc) as Hins.
    match goal with
    | Hx : except_IntegrityError _ _ = Ok _ |- _ =>
        apply except_inv in Hx; destruct Hx as [(-> & -> & Hi)|(id & -> & Hi)]
    end.
    + rewrite Hins in Hi. discriminate Hi.
    + rewrite Hins in Hi. inversion Hi. subst.
      match goal with
      | He : load_elite _ _ _ = Ok _ |- _ =>
          pose proof (preserves_load_elite record _ _ _ _ He) as Hpres
      end.
      rewrite rows_of_with_rows in Hpres.
      exists (make_row (schema_of T_users) (rows_of T_users d) r).
      split; [exact Hpres|].
      split; rewrite cell_make_row by reflexivity;
        cbn [schema_of rowid_alias String.eqb Ascii.eqb Bool.eqb andb];
        rewrite ?Hkc, ?Hnid; reflexivity.
  - match goal with
    | Hx : except_IntegrityError _ _ = Ok _ |- _ =>
        apply except_inv in Hx; destruct Hx as [(-> & -> & Hi)|(id & -> & Hi)];
        unfold execute_insert in Hi; rewrite Hc, Hb in Hi; simpl in Hi
    end.
    + inversion Hi. subst e. exfalso. apply (bind_values_not_integrity _ Hb).
    + discriminate Hi.
Qed.

Lemma load_review_null record d d' :
  getitem record "review_id" = Ok JNull ->
  load_review record d = Ok (tt, d') ->
  List.length (reviews d') = S (List.length (reviews d)).
Proof.
  intros Hj H. unfold load_review in H. inv_conn H.
  match goal with
  | Hu : _get_add_user_id _ _ _ = Ok _ |- _ =>
      pose proof (preserves_get_add_user_id T_reviews _ ltac:(discriminate) _ _ _ Hu)
        as Hpu
  end.
  match goal with
  | Hb : _get_add_business_id _ _ _ = Ok _ |- _ =>
      destruct (get_add_business_id_inv _ _ _ _ Hb) as (-> & _)
  end.
  match goal with
  | Hs : review_statement _ ?u ?b = Ok _ |- _ =>
      destruct (review_statement_inv _ _ _ _ Hs) as (j & p & rest & Hj' & Hp & Hrest & Hall);
      rewrite Hall in Hs; inversion Hs; subst; clear Hs
  end.
  rewrite Hj in Hj'. inversion Hj'. subst j. simpl in Hp. inversion Hp. subst p.
  match goal with
  | Hi : execute_insert_or_ignore _ _ _ = Ok _ |- _ =>
      unfold execute_insert_or_ignore in Hi; inv_result Hi
  end.
  match goal with
  | Hb : bind_values _ = Ok ?r |- _ =>
      rewrite (keyed_insert_or_ignore_null (schema_of T_reviews) "review_id_str"
                 _ r keyed_reviews)
        by (first [ apply (bind_values_head_null _ _ _ Hb)
                  | apply cell_not_key; rewrite (bind_values_keys _ _ Hb);
                    simpl; rewrite Hrest; reflexivity ])
  end.
  change (reviews (with_rows T_reviews ?x ?y))
    with (rows_of T_reviews (with_rows T_reviews x y)).
  rewrite rows_of_with_rows, length_app. simpl.
  change (rows_of T_reviews d0) with (reviews d0) in *.
  change (rows_of T_reviews d) with (reviews d) in *.
  rewrite Hpu. lia.
Qed.

Lemma load_photo_null record d d' :
  getitem record "photo_id" = Ok JNull ->
  load_photo record d = Ok (tt, d') ->
  List.length (photos d') = S (List.length (photos d)).
Proof.
  intros Hj H. unfold load_photo in H. inv_conn H.
  match goal with
  | Hb : _get_add_business_id _ _ _ = Ok _ |- _ =>
      destruct (get_add_business_id_inv _ _ _ _ Hb) as (-> & _)
  end.
  match goal with
  | Hs : photo_insert_statement _ ?b = Ok _ |- _ =>
      destruct (photo_insert_statement_inv _ _ _ Hs) as (j & p & rest & Hj' & Hp & Hrest & Hall);
      rewrite Hall in Hs; inversion Hs; subst; clear Hs
  end.
  rewrite Hj in Hj'. inversion Hj'. subst j. simpl in Hp. inversion Hp. subst p.
  match goal with
  | Hi : execute_insert_or_ignore _ _ _ = Ok _ |- _ =>
      unfold execute_insert_or_ignore in Hi; inv_result Hi
  end.
  match goal with
  | Hb : bind_values _ = Ok ?r |- _ =>
      rewrite (keyed_insert_or_ignore_null (schema_of T_photos) "photo_id_str"
                 _ r keyed_photos)
        by (first [ apply (bind_values_head_null _ _ _ Hb)
                  | apply cell_not_key; rewrite (bind_values_keys _ _ Hb);
                    simpl; rewrite Hrest; reflexivity ])
  end.
  change (photos (with_rows T_photos ?x ?y))
    with (rows_of T_photos (with_rows T_photos x y)).
  rewrite rows_of_with_rows, length_app. simpl. lia.
Qed.

(** X26.  A User, Review or Photo record whose own natural key is [null]
    and that is loaded gets a row each time: a NULL key collides with no
    other, so the uniqueness constraint on the key column never stops the
    INSERT, and loading the file again writes the record again. *)
Theorem null_key_written_again record d d' :
  (getitem record "user_id" = Ok JNull ->
   load_user record d = Ok (tt, d') ->
   exists r,
     users d' = users d ++ [r] /\ cell r "user_id_str" = Null /\
     cell r "id" = Int (next_rowid "id" (users d)))
  /\ (getitem record "review_id" = Ok JNull ->
      load_review record d = Ok (tt, d') ->
      List.length (reviews d') = S (List.length (reviews d)))
  /\ (getitem record "photo_id" = Ok JNull ->
      load_photo record d = Ok (tt, d') ->
      List.length (photos d') = S (List.length (photos d))).
Proof.
  split; [|split].
  - apply load_user_null.
  - apply load_review_null.
  - apply load_photo_null.
Qed.

Lemma null_key_written_again_witness :
  exists d1 d2,
    load_user (nameless_user "") empty_database = Ok (tt, d1)
    /\ load_user (nameless_user "") d1 = Ok (tt, d2)
    /\ (exists r, users d1 = [r] /\ cell r "user_id_str" = Null
                  /\ cell r "id" = Int 1)
    /\ (exists r, users d2 = users d1 ++ [r] /\ cell r "user_id_str" = Null
                  /\ cell r "id" = Int 2).
Proof.
  eexists. eexists.
  match goal with
  | |- ?run1 = Ok (tt, ?d1) /\ ?run2 = Ok (tt, ?d2) /\ _ =>
      assert (H1 : run1 = Ok (tt, d1)) by (vm_compute; reflexivity);
      assert (H2 : run2 = Ok (tt, d2)) by (vm_compute; reflexivity);
      split; [exact H1|]; split; [exact H2|]; split;
      [ exact (proj1 (null_key_written_again (nameless_user "") empty_database d1)
                 eq_refl H1)
      | exact (proj1 (null_key_written_again (nameless_user "") d1 d2) eq_refl H2) ]
  end.
Defined.

(** X28.  The linker on a record whatever its [user_id], [null] included:
    the user it works on is the first that the lookup by [user_id] finds (for
    [null], the first user without natural key); that user's [friend_count]
    becomes the number of pieces of the friends field, the users table keeps
    its natural keys, the junction rows added all link that user to a listed
    friend that exists, and each existing listed friend is linked to it by
    exactly one junction row afterwards. *)
Theorem linker_on_any_key user d d' fs :
  getitem user "friends" = Ok (JStr fs) ->
  connect_user user d = Ok (tt, d') ->
  let keys := map Py.strip (Py.split ", " fs) in
  exists j p v uid,
    getitem user "user_id" = Ok j /\ natural_key j = Ok p /\ bind p = Ok v /\
    first_id "user_id_str" v (users d) = Some uid /\
    friend_count_by v d' = Some (Int (Z.of_nat (List.length (Py.split ", " fs)))) /\
    map (fun r => cell r "user_id_str") (users d')
    = map (fun r => cell r "user_id_str") (users d) /\
    (exists new,
       friends d' = friends d ++ new /\
       forall x, In x new ->
         exists r, In r (users d) /\ resolves keys r = true
                   /\ x = friendship uid (cell r "id")) /\
    (forall r,
       In r (users d) -> resolves keys r = true ->
       is_null uid = false -> is_null (cell r "id") = false ->
       (count_pair uid (cell r "id") (friends d) <= 1)%nat ->
       count_pair uid (cell r "id") (friends d') = 1%nat).
Proof.
  intros Hf H keys.
  destruct (connect_user_fields _ _ _ H) as (j & p & v & fs' & Hj & Hp & Hv & Hf').
  rewrite Hf in Hf'. inversion Hf'. subst fs'. clear Hf'.
  destruct (connect_user_tables_value _ _ _ _ _ _ _ Hj Hp Hv Hf H)
    as (uid & Hu & Hus & Hfr).
  fold keys in Hfr. exists j, p, v, uid.
  split; [exact Hj|]. split; [exact Hp|]. split; [exact Hv|]. split; [exact Hu|].
  split; [|split; [|split]].
  - unfold friend_count_by.
    apply (friend_count_after_update_value _ _ _ _ _ Hu Hus).
  - rewrite Hus. apply update_friend_count_column. reflexivity.
  - destruct (insert_friendships_new uid
                (index_order "user_id_str" (filter (resolves keys) (users d)))
                (friends d))
      as (new & Hn & Hin).
    exists new. split; [rewrite Hfr; exact Hn|].
    intros x Hx. destruct (Hin x Hx) as (r & Hr & ->).
    apply index_order_In, filter_In in Hr. destruct Hr as [Hr1 Hr2]. eauto.
  - intros r Hin Hres Hnu Hnf Hle. rewrite Hfr.
    apply (insert_friendships_count uid (cell r "id") uid
             (index_order "user_id_str" (filter (resolves keys) (users d)))
             Hnu Hnf (friends d) Hle).
    + reflexivity.
    + exists r. split; [apply index_order_In, filter_In; auto | reflexivity].
Qed.

Lemma linker_on_any_key_witness :
  exists d0 d',
    for_each load_user [nameless_user "u2, u9"; sample_user "u2" "" ""]
      empty_database = Ok (tt, d0)
    /\ connect_user (nameless_user "u2, u9") d0 = Ok (tt, d')
    /\ friend_count_by Null d' = Some (Int 2)
    /\ friends d' = [friendship (Int 1) (Int 2)].
Proof.
  eexists. eexists.
  match goal with
  | |- ?run0 = Ok (tt, ?d0) /\ ?run1 = Ok (tt, ?d1) /\ _ =>
      assert (H0 : run0 = Ok (tt, d0)) by (vm_compute; reflexivity);
      assert (H1 : run1 = Ok (tt, d1)) by (vm_compute; reflexivity);
      destruct (linker_on_any_key (nameless_user "u2, u9") d0 d1 "u2, u9"
                  eq_refl H1) as (j & p & v & uid & Hj & Hp & Hv & _ & Hc & _)
  end.
  split; [exact H0|]. split; [exact H1|]. split.
  - vm_compute in Hj. inversion Hj. subst j. simpl in Hp. inversion Hp. subst p.
    simpl in Hv. inversion Hv. subst v. exact Hc.
  - vm_compute. reflexivity.
Defined.

(** ** Attributes that flatten to nothing *)

(** X27.  A business whose [attributes] flatten to an empty mapping (an
    empty dict, or nothing but empty nested dicts): the INSERT of the
    attribute names is compiled from an empty list, with the clause
    ON CONFLICT DO NOTHING behind DEFAULT VALUES, which SQLite refuses; the
    attributes block raises [OperationalError] before anything is written
    to the attribute tables. *)
Theorem empty_attributes_refused record business_id d attrs :
  getitem record "attributes" = Ok (JObj attrs) ->
  Utils.flatten_dict (JObj attrs) = Ok (Some []) ->
  load_attributes record business_id d = Raise OperationalError.
Proof.
  intros Hg Hflat. unfold load_attributes, bind_conn, lift.
  rewrite Hg, Hflat. reflexivity.
Qed.

Lemma empty_attributes_refused_witness :
  load_attributes (JObj [("attributes", JObj [])]) (Int 1) empty_database
  = Raise OperationalError
  /\ load_attributes (JObj [("attributes", JObj [("Ambience", JStr "{}")])]) (Int 1)
       empty_database
     = Raise OperationalError.
Proof.
  split.
  - apply (empty_attributes_refused (JObj [("attributes", JObj [])]) (Int 1)
             empty_database []); reflexivity.
  - apply (empty_attributes_refused
             (JObj [("attributes", JObj [("Ambience", JStr "{}")])]) (Int 1)
             empty_database [("Ambience", JStr "{}")]); reflexivity.
Defined.
